(** * Omen Fan Control: the thermal control daemon and its curve engine

    A shallow embedding of [omen_logic.py] (class [FanController]),
    [omen_cli.py] (command [serve]) and of the packaged copies
    [src/omen_fan_control/logic.py] and [src/omen_fan_control/cli.py].

    Numbers.  Python [int]s are [Z].  Python [float]s that depend on run-time
    data (temperatures, curve points, clock readings, RPM targets) are
    idealised as exact rationals [Q]; every comparison, [abs], [round] and
    [//] below is the exact one.  The one closed float expression of the
    program whose result is truncated, [int((i + 1) / steps * 100)], is
    evaluated in binary64 with Rocq's primitive floats.

    The rationals and binary64 agree on what the theorems state, with
    three known exceptions, kept in binary64 in [Module Binary64] and
    marked by the examples [binary64_knot_sum_inexact],
    [binary64_interpolation_tie] and [binary64_band_edge]: the
    interpolation between fractional duties, a product that lands on a
    rounding tie, and a speed difference of exactly 200 RPM.  The theorems
    that depend on them ask for whole-number duties, or leave that exact
    difference out.

    Effects.  Everything the program does to the outside world (sysfs reads
    and writes, clock, sleeping, printing, the config file, generator
    yields) is a node of a program tree [prog]; a run is the tree executed
    against an arbitrary environment [handler], and yields a result together
    with the trace of the calls made and the answers received. *)

From Stdlib Require Import ZArith QArith Qround Qabs List String Ascii Lia Lqa Bool.
From Stdlib Require Import Sorted Permutation.
From Stdlib Require Import Floats.PrimFloat Floats.FloatOps Floats.SpecFloat.
From Stdlib Require Import Numbers.Cyclic.Int63.Uint63 Numbers.DecimalString.
Import ListNotations.

Local Open Scope Z_scope.

(** ** Python numerics *)

Module Py.

(** [round(x)] of Python 3: nearest integer, ties to the even one. *)
Definition round (x : Q) : Z :=
  let f := Qfloor x in
  let r := (x - inject_Z f)%Q in
  match (r ?= 1 # 2)%Q with
  | Lt => f
  | Gt => f + 1
  | Eq => if Z.even f then f else f + 1
  end.

(** [int(x)] on a number: truncation towards zero. *)
Definition int_of_Q (x : Q) : Z := Z.quot (Qnum x) (Zpos (Qden x)).

(** [str(n)] for an [int]. *)
Definition str_of_int (n : Z) : string :=
  DecimalString.NilZero.string_of_int (Z.to_int n).

(** Characters removed by [str.strip()] (ASCII white space). *)
Definition is_space (c : ascii) : bool :=
  let n := nat_of_ascii c in
  ((9 <=? n) && (n <=? 13) || (28 <=? n) && (n <=? 32))%nat.

Fixpoint lstrip (s : string) : string :=
  match s with
  | String c s' => if is_space c then lstrip s' else s
  | EmptyString => EmptyString
  end.

Fixpoint rstrip (s : string) : string :=
  match s with
  | EmptyString => EmptyString
  | String c s' =>
      match rstrip s' with
      | EmptyString => if is_space c then EmptyString else String c EmptyString
      | t => String c t
      end
  end.

Definition strip (s : string) : string := rstrip (lstrip s).

Definition digit_of (c : ascii) : option Z :=
  let n := nat_of_ascii c in
  if ((48 <=? n) && (n <=? 57))%nat then Some (Z.of_nat n - 48) else None.

(** Digits of an integer literal; a single underscore may separate two
    digits, as [int()] accepts. [after_digit] says whether the previous
    character was a digit. *)
Fixpoint int_digits (acc : Z) (after_digit : bool) (s : string) : option Z :=
  match s with
  | EmptyString => if after_digit then Some acc else None
  | String c s' =>
      match digit_of c with
      | Some d => int_digits (10 * acc + d) true s'
      | None =>
          if (Ascii.eqb c "_" && after_digit)%bool
          then match s' with
               | EmptyString => None
               | String c' _ =>
                   match digit_of c' with
                   | Some _ => int_digits acc false s'
                   | None => None
                   end
               end
          else None
      end
  end.

(** [int(s)] on a string: [None] stands for [ValueError]. *)
Definition int_of_str (s : string) : option Z :=
  match strip s with
  | String "-" s' => option_map Z.opp (int_digits 0 false s')
  | String "+" s' => int_digits 0 false s'
  | s' => int_digits 0 false s'
  end.

(** Binary64 value of a small non-negative [int]. *)
Definition float_of_nat (n : nat) : float :=
  PrimFloat.of_uint63 (Uint63.of_Z (Z.of_nat n)).

(** [int(x)] on a float: truncation towards zero ([0] stands in for the
    [inf]/[nan] cases, where Python raises). *)
Definition int_of_float (x : float) : Z :=
  match Prim2SF x with
  | S754_finite s m e =>
      let a := match e with
               | Zneg p => Z.shiftr (Zpos m) (Zpos p)
               | _ => Z.shiftl (Zpos m) e
               end in
      if s then - a else a
  | _ => 0
  end.

End Py.

(** ** The configuration document

    [load_config] merges the file's content over a dictionary of defaults,
    so every key read by the control core is present; the dictionary is a
    record of the fields the core consults, with the types of the defaults.
    A curve point is the pair [(temperature, duty percent)]: the command
    line stores integers, the curve editor stores floats. *)

Definition point : Type := Q * Q.

Module Config.
Record t : Type := mk {
  fan_max : Z;
  calibration_wait : Z;
  watchdog_interval : Z;
  ma_window : Z;
  curve : list point;
  mode : string;
  manual_pwm : Z;
  curve_interpolation : string
}.

(** The [defaults] dictionary of [load_config]. *)
Definition defaults : t :=
  {| fan_max := 0; calibration_wait := 30; watchdog_interval := 90;
     ma_window := 5; curve := []; mode := "auto"; manual_pwm := 0;
     curve_interpolation := "smooth" |}.

Definition set_fan_max (c : t) (v : Z) : t :=
  {| fan_max := v; calibration_wait := calibration_wait c;
     watchdog_interval := watchdog_interval c; ma_window := ma_window c;
     curve := curve c; mode := mode c; manual_pwm := manual_pwm c;
     curve_interpolation := curve_interpolation c |}.
End Config.

(** ** CurveEngine: [FanController.calculate_target_pwm] *)

(** [sorted(curve, key=lambda p: p[0])]: a stable sort on the temperature.
    A point is inserted before the first point that is not colder, so points
    of equal temperature keep their order, as Python guarantees. *)
Fixpoint insert_by_temp (p : point) (l : list point) : list point :=
  match l with
  | [] => [p]
  | q :: l' =>
      if Qle_bool (fst p) (fst q) then p :: l else q :: insert_by_temp p l'
  end.

Definition sorted (curve : list point) : list point :=
  fold_right insert_by_temp [] curve.

(** The value assigned to [target_speed_percent] for the segment [p1], [p2]. *)
Definition segment_value (interp_mode : string) (current_temp : Q)
    (p1 p2 : point) : Q :=
  if String.eqb interp_mode "discrete" then snd p1
  else
    let denom := (fst p2 - fst p1)%Q in
    if Qeq_bool denom 0 then snd p2
    else
      let ratio := ((current_temp - fst p1) / denom)%Q in
      (snd p1 + ratio * (snd p2 - snd p1))%Q.

(** The loop [for i in range(len(curve) - 1)] with its [break]: the first
    pair of neighbours that brackets the temperature decides; [None] when
    the loop ends without assigning. *)
Fixpoint scan_segments (interp_mode : string) (current_temp : Q)
    (curve : list point) : option Q :=
  match curve with
  | p1 :: ((p2 :: _) as rest) =>
      if Qle_bool (fst p1) current_temp && Qle_bool current_temp (fst p2)
      then Some (segment_value interp_mode current_temp p1 p2)
      else scan_segments interp_mode current_temp rest
  | _ => None
  end.

(** The local variable [target_speed_percent] when the function returns,
    for a curve that is already sorted and not empty. *)
Definition percent_on_sorted (interp_mode : string) (current_temp : Q)
    (curve : list point) : Q :=
  let first := hd (0, 0)%Q curve in
  let final := last curve (0, 0)%Q in
  if Qle_bool current_temp (fst first) then snd first
  else if Qle_bool (fst final) current_temp then snd final
  else match scan_segments interp_mode current_temp curve with
       | Some v => v
       | None => 0%Q
       end.

Definition target_speed_percent (cfg : Config.t) (current_temp : Q)
    : option Q :=
  match Config.curve cfg with
  | [] => None
  | _ => Some (percent_on_sorted (Config.curve_interpolation cfg) current_temp
                 (sorted (Config.curve cfg)))
  end.

(** [int(round(target_speed_percent / 100 * 255))]. *)
Definition pwm_of_percent (percent : Q) : Z :=
  Py.round (percent / 100 * 255)%Q.

Definition calculate_target_pwm (cfg : Config.t) (current_temp : Q)
    : option Z :=
  option_map pwm_of_percent (target_speed_percent cfg current_temp).

(** A configuration that differs from the defaults in its curve and
    interpolation mode only. *)
Definition curve_config (interp_mode : string) (curve : list point)
    : Config.t :=
  {| Config.fan_max := 0; Config.calibration_wait := 30;
     Config.watchdog_interval := 90; Config.ma_window := 5;
     Config.curve := curve; Config.mode := "curve"; Config.manual_pwm := 0;
     Config.curve_interpolation := interp_mode |}.

Definition example_curve : list point := [(30, 0); (60, 40); (90, 85)]%Q.

(** ** The outside world: effects, program trees and runs *)

(** A sysfs file: [parent / name], as [pathlib.Path] builds it. *)
Record path : Type := Path { parent : string; name : string }.

Definition path_eqb (p q : path) : bool :=
  String.eqb (parent p) (parent q) && String.eqb (name p) (name q).

(** The exceptions that the modelled code can raise. *)
Inductive exn : Type :=
| ValueError          (* int() of a malformed string, sleep of a negative time *)
| ZeroDivisionError   (* sum(temp_history) / len(temp_history) on an empty list *)
| OSError.            (* stat() or save_config() failing *)

Inductive result (A : Type) : Type :=
| Ok (a : A)
| Raise (e : exn).
Arguments Ok {A} a.
Arguments Raise {A} e.

(** What [open(path, "w")] followed by [f.write] can do. *)
Inductive write_outcome : Type :=
| Written
| PermissionDenied    (* PermissionError *)
| WriteFailed.        (* any other Exception *)

(** The lines the program prints. *)
Inductive message : Type :=
| StartingCalibration
| PermissionDeniedWriting (p : path)
| ErrorWriting (p : path)
| ErrorReading (p : path)
| ErrorRestoringFanState
| ErrorInDaemonLoop (e : exn).

(** The calls to the outside world, indexed by the type of their answer. *)
Inductive io : Type -> Type :=
| PathExists (p : path) : io bool
| ReadFile (p : path) : io (option string)   (* [None]: open or read raised *)
| WriteFile (p : path) (text : string) : io write_outcome
| Print (m : message) : io unit
| Sleep (seconds : Q) : io unit
| Time : io Q                                (* time.time() *)
| Yield (progress : Z) : io unit             (* a generator's yield *)
| ConfigMtime : io (option Q)                (* config_path.stat().st_mtime *)
| LoadConfig : io Config.t                   (* load_config() *)
| SaveConfig (c : Config.t) : io bool.       (* save_config(); [false]: raised *)

(** A call together with the answer it received. *)
Inductive event : Type :=
| EvExists (p : path) (answer : bool)
| EvRead (p : path) (answer : option string)
| EvWrite (p : path) (text : string) (answer : write_outcome)
| EvPrint (m : message)
| EvSleep (seconds : Q)
| EvTime (answer : Q)
| EvYield (progress : Z)
| EvMtime (answer : option Q)
| EvLoad (answer : Config.t)
| EvSave (c : Config.t) (answer : bool).

Definition event_of {A : Type} (e : io A) : A -> event :=
  match e in io A return A -> event with
  | PathExists p => EvExists p
  | ReadFile p => EvRead p
  | WriteFile p text => EvWrite p text
  | Print m => fun _ => EvPrint m
  | Sleep d => fun _ => EvSleep d
  | Time => EvTime
  | Yield n => fun _ => EvYield n
  | ConfigMtime => EvMtime
  | LoadConfig => EvLoad
  | SaveConfig c => EvSave c
  end.

(** A program: what it returns, or a call and what it does with the answer. *)
Inductive prog (R : Type) : Type :=
| Ret (r : R)
| Vis {A : Type} (e : io A) (k : A -> prog R).
Arguments Ret {R} r.
Arguments Vis {R A} e k.

Fixpoint prog_bind {A B : Type} (p : prog A) (f : A -> prog B) : prog B :=
  match p with
  | Ret a => f a
  | Vis e k => Vis e (fun x => prog_bind (k x) f)
  end.

(** An environment answers every call from its own state [W]. *)
Definition handler (W : Type) : Type := forall A : Type, io A -> W -> A * W.

(** A run: the result, the final state of the environment and the trace. *)
Fixpoint exec {W R : Type} (h : handler W) (p : prog R) (w : W)
    : R * W * list event :=
  match p with
  | Ret r => (r, w, [])
  | Vis e k =>
      let (a, w1) := h _ e w in
      let '(r, w2, tr) := exec h (k a) w1 in
      (r, w2, event_of e a :: tr)
  end.

(** Python code with local state [S]: it returns or raises, and the state
    assigned so far survives an exception. *)
Definition M (S A : Type) : Type := S -> prog (result A * S).

Definition ret {S A : Type} (a : A) : M S A := fun s => Ret (Ok a, s).

Definition bind {S A B : Type} (m : M S A) (f : A -> M S B) : M S B :=
  fun s => prog_bind (m s) (fun rs =>
    match fst rs with
    | Ok a => f a (snd rs)
    | Raise e => Ret (Raise e, snd rs)
    end).

Definition raise {S A : Type} (e : exn) : M S A := fun s => Ret (Raise e, s).

Definition perform {S A : Type} (e : io A) : M S A :=
  fun s => Vis e (fun a => Ret (Ok a, s)).

Definition get {S : Type} : M S S := fun s => Ret (Ok s, s).

Definition put {S : Type} (s : S) : M S unit := fun _ => Ret (Ok tt, s).

Definition modify {S : Type} (f : S -> S) : M S unit :=
  fun s => Ret (Ok tt, f s).

(** [try: body  except Exception: handler]. *)
Definition try_except {S A : Type} (body : M S A) (except : exn -> M S A)
    : M S A :=
  fun s => prog_bind (body s) (fun rs =>
    match fst rs with
    | Ok a => Ret (Ok a, snd rs)
    | Raise e => except e (snd rs)
    end).

Declare Scope py_scope.
Delimit Scope py_scope with py.
Notation "x <- m ;; k" := (bind m (fun x => k))
  (at level 61, m at next level, right associativity) : py_scope.
Notation "m ;; k" := (bind m (fun _ => k))
  (at level 61, right associativity) : py_scope.

(** [for i in range(n): body(i)], counting from [i]. *)
Fixpoint for_range {S : Type} (i n : nat) (body : nat -> M S unit)
    : M S unit :=
  match n with
  | O => ret tt
  | Datatypes.S n' => (body i ;; for_range (Datatypes.S i) n' body)%py
  end.

(** [time.sleep(seconds)]: a negative argument raises [ValueError]. *)
Definition sleep {S : Type} (seconds : Q) : M S unit :=
  if Qle_bool 0 seconds then perform (Sleep seconds) else raise ValueError.

(** *** Observations on a trace *)

Definition writes (tr : list event) : list (path * string) :=
  flat_map (fun ev => match ev with
                      | EvWrite p text _ => [(p, text)]
                      | _ => []
                      end) tr.

(** The answers to the reads of the file [p]. *)
Definition reads_of (p : path) (tr : list event) : list (option string) :=
  flat_map (fun ev => match ev with
                      | EvRead q answer => if path_eqb p q then [answer] else []
                      | _ => []
                      end) tr.

(** Every access to a sysfs file: existence tests, reads and writes. *)
Definition sysfs_accesses (tr : list event) : list path :=
  flat_map (fun ev => match ev with
                      | EvExists p _ | EvRead p _ | EvWrite p _ _ => [p]
                      | _ => []
                      end) tr.

Definition yields (tr : list event) : list Z :=
  flat_map (fun ev => match ev with EvYield n => [n] | _ => [] end) tr.

Definition sleeps (tr : list event) : list Q :=
  flat_map (fun ev => match ev with EvSleep d => [d] | _ => [] end) tr.

Definition is_yield (ev : event) : bool :=
  match ev with EvYield _ => true | _ => false end.

Definition is_progress (ev : event) : bool :=
  match ev with EvYield _ | EvSleep _ => true | _ => false end.

(** The part of a trace that follows its last yield (all of it when
    nothing was yielded). *)
Fixpoint after_last_yield (tr : list event) : list event :=
  match tr with
  | [] => []
  | ev :: tr' =>
      if existsb is_yield tr' then after_last_yield tr'
      else if is_yield ev then tr' else tr
  end.

(** The part of a trace up to and including its last yield. *)
Fixpoint upto_last_yield (tr : list event) : list event :=
  match tr with
  | [] => []
  | ev :: tr' =>
      if existsb is_yield tr' then ev :: upto_last_yield tr'
      else if is_yield ev then [ev] else []
  end.

(** ** [FanController]: sensor and actuator access *)

(** The attributes set by [_find_paths] and [__init__].  The three hwmon
    files live in one directory and are all absent when it is. *)
Record FanController : Type := {
  cpu_temp_path : option path;
  hwmon_path : option string;
  config : Config.t
}.

Definition pwm1_enable_path (self : FanController) : option path :=
  option_map (fun d => Path d "pwm1_enable") (hwmon_path self).

Definition pwm1_path (self : FanController) : option path :=
  option_map (fun d => Path d "pwm1") (hwmon_path self).

Definition fan1_input_path (self : FanController) : option path :=
  option_map (fun d => Path d "fan1_input") (hwmon_path self).

Definition set_config (self : FanController) (c : Config.t) : FanController :=
  {| cpu_temp_path := cpu_temp_path self; hwmon_path := hwmon_path self;
     config := c |}.

(** Truth value of an optional string: [None] and [""] are false. *)
Definition truthy (val : option string) : bool :=
  match val with
  | None | Some EmptyString => false
  | Some _ => true
  end.

(** [val or default]. *)
Definition or_else (val : option string) (default : string) : string :=
  match val with
  | Some (String _ _ as s) => s
  | _ => default
  end.

Section Methods.
Context {S : Type}.
Local Open Scope py_scope.

Definition read_sys_file (p : option path) : M S (option string) :=
  match p with
  | None => ret None
  | Some p =>
      present <- perform (PathExists p) ;;
      if negb present then ret None
      else
        content <- perform (ReadFile p) ;;
        match content with
        | Some text => ret (Some (Py.strip text))
        | None => perform (Print (ErrorReading p)) ;; ret None
        end
  end.

Definition write_sys_file (p : option path) (value : string) : M S unit :=
  match p with
  | None => ret tt
  | Some p =>
      outcome <- perform (WriteFile p value) ;;
      match outcome with
      | Written => ret tt
      | PermissionDenied => perform (Print (PermissionDeniedWriting p))
      | WriteFailed => perform (Print (ErrorWriting p))
      end
  end.

(** [int(val)] on the text of a sysfs file. *)
Definition int_of_text (val : string) : M S Z :=
  match Py.int_of_str val with
  | Some n => ret n
  | None => raise ValueError
  end.

Definition get_fan_speed (self : FanController) : M S Z :=
  val <- read_sys_file (fan1_input_path self) ;;
  if truthy val then int_of_text (or_else val "") else ret 0.

Definition get_cpu_temp (self : FanController) : M S Z :=
  match cpu_temp_path self with
  | Some p =>
      val <- read_sys_file (Some p) ;;
      if truthy val
      then (n <- int_of_text (or_else val "") ;; ret (n / 1000))
      else ret 0
  | None => ret 0
  end.

Definition set_fan_mode (self : FanController) (mode : string) : M S unit :=
  if String.eqb mode "max" then write_sys_file (pwm1_enable_path self) "0"
  else if String.eqb mode "auto" then write_sys_file (pwm1_enable_path self) "2"
  else ret tt.

Definition is_manual (enable : option string) : bool :=
  match enable with
  | Some s => String.eqb s "1"
  | None => false
  end.

Definition set_fan_pwm (self : FanController) (value : Z) : M S unit :=
  current_enable <- read_sys_file (pwm1_enable_path self) ;;
  (if negb (is_manual current_enable)
   then write_sys_file (pwm1_enable_path self) "1"
   else ret tt) ;;
  write_sys_file (pwm1_path self) (Py.str_of_int value).

End Methods.

(** ** CalibrationRoutine: [FanController.calibrate]

    A generator: each [yield] is a call to the consumer, the [return] value
    is the result of the program.  The state is [self]. *)

Definition steps : nat := 10.

(** [int((i + 1) / steps * 100)], in binary64 as Python evaluates it. *)
Definition progress_percent (i : nat) : Z :=
  Py.int_of_float
    (PrimFloat.mul
       (PrimFloat.div (Py.float_of_nat (i + 1)) (Py.float_of_nat steps))
       (Py.float_of_nat 100)).

(** [self.save_config()]. *)
Definition save_config : M FanController unit :=
  (self <- get ;;
   saved <- perform (SaveConfig (config self)) ;;
   if saved : bool then ret tt else raise OSError)%py.

(** The restoration block, the body of the last [try]. *)
Definition restore_fan_state (self : FanController)
    (prev_enable prev_pwm : string) : M FanController unit :=
  ((if truthy (Some prev_enable)
    then write_sys_file (pwm1_enable_path self) prev_enable
    else ret tt) ;;
   (if truthy (Some prev_pwm) && String.eqb (Py.strip prev_enable) "1"
    then write_sys_file (pwm1_path self) prev_pwm
    else ret tt))%py.

Definition calibrate : M FanController Z :=
  (perform (Print StartingCalibration) ;;
   self <- get ;;
   prev <- try_except
             (enable <- read_sys_file (pwm1_enable_path self) ;;
              pwm <- read_sys_file (pwm1_path self) ;;
              ret (or_else enable "2", or_else pwm "0"))
             (fun _ => ret ("2", "0")%string) ;;
   set_fan_mode self "max" ;;
   let wait_time := Config.calibration_wait (config self) in
   for_range 0 steps (fun i =>
     sleep (inject_Z wait_time / inject_Z (Z.of_nat steps))%Q ;;
     perform (Yield (progress_percent i))) ;;
   max_rpm <- get_fan_speed self ;;
   modify (fun self => set_config self (Config.set_fan_max (config self) max_rpm)) ;;
   save_config ;;
   try_except (restore_fan_state self (fst prev) (snd prev))
              (fun _ => perform (Print ErrorRestoringFanState)) ;;
   ret max_rpm)%py.

(** ** ControlDaemon: the command [serve]

    The local variables of [serve], with the controller it drives. *)
Record Serve : Type := {
  controller : FanController;
  ma_window : Z;
  temp_history : list Z;
  watchdog_interval : Z;
  last_watchdog_time : Q;
  hysteresis_start_time : option Q;
  last_config_mtime : Q
}.

Definition set_controller (s : Serve) (c : FanController) : Serve :=
  {| controller := c; ma_window := ma_window s;
     temp_history := temp_history s; watchdog_interval := watchdog_interval s;
     last_watchdog_time := last_watchdog_time s;
     hysteresis_start_time := hysteresis_start_time s;
     last_config_mtime := last_config_mtime s |}.

Definition set_ma_window (s : Serve) (n : Z) : Serve :=
  {| controller := controller s; ma_window := n;
     temp_history := temp_history s; watchdog_interval := watchdog_interval s;
     last_watchdog_time := last_watchdog_time s;
     hysteresis_start_time := hysteresis_start_time s;
     last_config_mtime := last_config_mtime s |}.

Definition set_temp_history (s : Serve) (l : list Z) : Serve :=
  {| controller := controller s; ma_window := ma_window s;
     temp_history := l; watchdog_interval := watchdog_interval s;
     last_watchdog_time := last_watchdog_time s;
     hysteresis_start_time := hysteresis_start_time s;
     last_config_mtime := last_config_mtime s |}.

Definition set_last_watchdog_time (s : Serve) (t : Q) : Serve :=
  {| controller := controller s; ma_window := ma_window s;
     temp_history := temp_history s; watchdog_interval := watchdog_interval s;
     last_watchdog_time := t;
     hysteresis_start_time := hysteresis_start_time s;
     last_config_mtime := last_config_mtime s |}.

Definition set_hysteresis_start_time (s : Serve) (t : option Q) : Serve :=
  {| controller := controller s; ma_window := ma_window s;
     temp_history := temp_history s; watchdog_interval := watchdog_interval s;
     last_watchdog_time := last_watchdog_time s;
     hysteresis_start_time := t;
     last_config_mtime := last_config_mtime s |}.

Definition set_last_config_mtime (s : Serve) (t : Q) : Serve :=
  {| controller := controller s; ma_window := ma_window s;
     temp_history := temp_history s; watchdog_interval := watchdog_interval s;
     last_watchdog_time := last_watchdog_time s;
     hysteresis_start_time := hysteresis_start_time s;
     last_config_mtime := t |}.

(** The assignments before [while True], given the controller and the
    clock reading taken for [last_watchdog_time]. *)
Definition serve_locals (c : FanController) (now : Q) : Serve :=
  {| controller := c;
     ma_window := Config.ma_window (config c);
     temp_history := [];
     watchdog_interval := Config.watchdog_interval (config c);
     last_watchdog_time := now;
     hysteresis_start_time := None;
     last_config_mtime := 0 |}.

(** [a > b] on numbers. *)
Definition Qgt_bool (a b : Q) : bool := negb (Qle_bool a b).

(** [sum(temp_history) / len(temp_history)] on a list that is not empty. *)
Definition mean (l : list Z) : Q :=
  (inject_Z (fold_right Z.add 0%Z l) / inject_Z (Z.of_nat (List.length l)))%Q.

Section Daemon.
Local Open Scope py_scope.

(** The inner [try]: reload the whole document when its modification time
    has advanced; any failure is ignored. *)
Definition reload_config : M Serve unit :=
  try_except
    (stat <- perform ConfigMtime ;;
     match stat with
     | None => raise OSError
     | Some current_mtime =>
         s <- get ;;
         if Qgt_bool current_mtime (last_config_mtime s)
         then
           cfg <- perform LoadConfig ;;
           modify (fun s => set_last_config_mtime
                              (set_controller s (set_config (controller s) cfg))
                              current_mtime)
         else ret tt
     end)
    (fun _ => ret tt).

(** Watchdog bookkeeping: only the time stamp moves. *)
Definition watchdog : M Serve unit :=
  now <- perform Time ;;
  s <- get ;;
  if Qgt_bool (now - last_watchdog_time s) (inject_Z (watchdog_interval s))
  then now' <- perform Time ;; modify (fun s => set_last_watchdog_time s now')
  else ret tt.

(** Smoother, after the window length is known: append, evict, average. *)
Definition push_and_average (current_temp : Z) : M Serve Q :=
  modify (fun s => set_temp_history s (temp_history s ++ [current_temp])) ;;
  s <- get ;;
  (if Z.of_nat (List.length (temp_history s)) >? ma_window s
   then modify (fun s => set_temp_history s (tl (temp_history s)))
   else ret tt) ;;
  s <- get ;;
  match temp_history s with
  | [] => raise ZeroDivisionError
  | l => ret (mean l)
  end.

(** ActuationGovernor: the block under [if target_pwm is not None], from
    [should_apply = True] to the write. *)
Definition actuation_governor (target_pwm current_rpm max_rpm : Z)
    : M Serve unit :=
  should_apply <-
    (if max_rpm >? 0
     then
       let target_rpm := (inject_Z target_pwm / 255 * inject_Z max_rpm)%Q in
       let diff := Qabs (target_rpm - inject_Z current_rpm) in
       if Qle_bool diff 200
       then
         s <- get ;;
         start <- match hysteresis_start_time s with
                  | None =>
                      now <- perform Time ;;
                      modify (fun s => set_hysteresis_start_time s (Some now)) ;;
                      ret now
                  | Some start => ret start
                  end ;;
         now <- perform Time ;;
         ret (Qgt_bool (now - start) 60)
       else
         modify (fun s => set_hysteresis_start_time s None) ;;
         ret true
     else ret true) ;;
  if should_apply : bool
  then
    s <- get ;;
    set_fan_pwm (controller s) target_pwm ;;
    modify (fun s => set_hysteresis_start_time s None)
  else ret tt.

(** The dispatch on [mode], given the averaged temperature. *)
Definition dispatch (mode : string) (avg_temp : Q) : M Serve unit :=
  s <- get ;;
  if String.eqb mode "curve" then
    match calculate_target_pwm (config (controller s)) avg_temp with
    | Some target_pwm =>
        current_rpm <- get_fan_speed (controller s) ;;
        let max_rpm := Config.fan_max (config (controller s)) in
        actuation_governor target_pwm current_rpm max_rpm
    | None => ret tt
    end
  else if String.eqb mode "manual" then
    let manual_val := Config.manual_pwm (config (controller s)) in
    if manual_val >=? 0 then set_fan_pwm (controller s) manual_val else ret tt
  else if String.eqb mode "max" then set_fan_mode (controller s) "max"
  else if String.eqb mode "auto" then set_fan_mode (controller s) "auto"
  else ret tt.

(** The body of the outer [try], after the reload; [smoother] is the
    Smoother of the file at hand. *)
Definition control_step (smoother : Z -> M Serve Q) : M Serve unit :=
  s <- get ;;
  let mode := Config.mode (config (controller s)) in
  if String.eqb mode "calibration" then sleep 1
  else
    watchdog ;;
    current_temp <- get_cpu_temp (controller s) ;;
    avg_temp <- smoother current_temp ;;
    dispatch mode avg_temp ;;
    sleep 2.

(** One pass of [while True]. *)
Definition iteration (smoother : Z -> M Serve Q) : M Serve unit :=
  try_except (reload_config ;; control_step smoother)
             (fun e => perform (Print (ErrorInDaemonLoop e)) ;; sleep 5).

End Daemon.

(** [omen_cli.py]: the window length is read from the configuration on
    every pass, just before the push. *)
Module OmenCli.
Definition smoother (current_temp : Z) : M Serve Q :=
  (modify (fun s => set_ma_window s (Config.ma_window (config (controller s)))) ;;
   push_and_average current_temp)%py.

Definition serve_iteration : M Serve unit := iteration smoother.
End OmenCli.

(** [src/omen_fan_control/cli.py]: the same loop, except that [ma_window]
    keeps the value read before the loop. *)
Module Packaged.
Definition smoother (current_temp : Z) : M Serve Q :=
  push_and_average current_temp.

Definition serve_iteration : M Serve unit := iteration smoother.
End Packaged.

(** ** A simulated machine

    One concrete environment, used to run the programs on examples: sysfs
    is a list of files with their text, some of them unreadable or
    read-only; the clock advances while the program sleeps. *)
Module Sim.

Record world : Type := {
  files : list (path * string);
  unreadable : list path;
  readonly : list path;
  clock : Q;
  config_file : option (Q * Config.t)
}.

Fixpoint lookup (p : path) (l : list (path * string)) : option string :=
  match l with
  | [] => None
  | (q, text) :: l' => if path_eqb p q then Some text else lookup p l'
  end.

Fixpoint store (p : path) (text : string) (l : list (path * string))
    : list (path * string) :=
  match l with
  | [] => []
  | (q, old) :: l' =>
      if path_eqb p q then (q, text) :: l' else (q, old) :: store p text l'
  end.

Definition mem (p : path) (l : list path) : bool := existsb (path_eqb p) l.

Definition with_files (w : world) (l : list (path * string)) : world :=
  {| files := l; unreadable := unreadable w; readonly := readonly w;
     clock := clock w; config_file := config_file w |}.

Definition with_clock (w : world) (t : Q) : world :=
  {| files := files w; unreadable := unreadable w; readonly := readonly w;
     clock := t; config_file := config_file w |}.

Definition with_config_file (w : world) (c : Config.t) : world :=
  {| files := files w; unreadable := unreadable w; readonly := readonly w;
     clock := clock w; config_file := Some (clock w, c) |}.

Definition run : handler world :=
  fun A e =>
    match e in io A return world -> A * world with
    | PathExists p => fun w =>
        (match lookup p (files w) with Some _ => true | None => false end, w)
    | ReadFile p => fun w =>
        (if mem p (unreadable w) then None else lookup p (files w), w)
    | WriteFile p text => fun w =>
        if mem p (readonly w) then (PermissionDenied, w)
        else match lookup p (files w) with
             | Some _ => (Written, with_files w (store p text (files w)))
             | None => (WriteFailed, w)
             end
    | Print _ => fun w => (tt, w)
    | Sleep d => fun w => (tt, with_clock w (Qred (clock w + d)))
    | Time => fun w => (clock w, w)
    | Yield _ => fun w => (tt, w)
    | ConfigMtime => fun w => (option_map fst (config_file w), w)
    | LoadConfig => fun w =>
        (match config_file w with
         | Some (_, c) => c
         | None => Config.defaults
         end, w)
    | SaveConfig c => fun w => (true, with_config_file w c)
    end.

Definition hwmon : string := "/sys/devices/platform/hp-wmi/hwmon/hwmon5".

Definition coretemp : path := Path "/sys/class/hwmon/hwmon3" "temp1_input".

(** A laptop with the patched driver: manual mode, duty 128, 45 degrees. *)
Definition laptop : world :=
  {| files := [(Path hwmon "pwm1_enable", "1
");
               (Path hwmon "pwm1", "128
");
               (Path hwmon "fan1_input", "1250
");
               (coretemp, "45999
")]%string;
     unreadable := []; readonly := []; clock := 1000;
     config_file := None |}.

Definition fan_controller (c : Config.t) : FanController :=
  {| cpu_temp_path := Some coretemp; hwmon_path := Some hwmon; config := c |}.

End Sim.

(** ** Vocabulary of the properties *)

Definition temp_le (p q : point) : Prop := (fst p <= fst q)%Q.
Definition temp_lt (p q : point) : Prop := (fst p < fst q)%Q.
Definition duty_le (p q : point) : Prop := (snd p <= snd q)%Q.

(** Sorted ascending by temperature; equal temperatures may repeat. *)
Definition ascending (curve : list point) : Prop := Sorted temp_le curve.

(** Sorted ascending by temperature, no temperature twice. *)
Definition strictly_ascending (curve : list point) : Prop :=
  Sorted temp_lt curve.

Definition duties_nondecreasing (curve : list point) : Prop :=
  Sorted duty_le curve.

(** Every duty percentage is a whole number. *)
Definition integer_duties (curve : list point) : Prop :=
  Forall (fun p => snd p == inject_Z (Qfloor (snd p)))%Q curve.

(** [f] is defined at both temperatures and does not decrease. *)
Definition defined_and_le (f : Q -> option Z) (t1 t2 : Q) : Prop :=
  match f t1, f t2 with
  | Some v1, Some v2 => v1 <= v2
  | _, _ => False
  end.

Definition monotone (f : Q -> option Z) : Prop :=
  forall t1 t2 : Q, (t1 <= t2)%Q -> defined_and_le f t1 t2.

(** A curve with three points at 60 degrees, the middle one below its
    neighbours, and the same curve without that point. *)
Definition shadowed_curve : list point :=
  [(30, 10); (60, 20); (60, 5); (60, 30); (90, 85)]%Q.

Definition unshadowed_curve : list point :=
  [(30, 10); (60, 20); (60, 30); (90, 85)]%Q.

(** What the environment answers when a sensor file is consulted in the
    state [w]: no path was found, the file is missing, reading it raises,
    or it has a text. *)
Inductive sensor : Type :=
| NoPath
| Missing
| Unreadable
| Content (text : string).

Definition sense {W : Type} (h : handler W) (w : W) (p : option path)
    : sensor :=
  match p with
  | None => NoPath
  | Some p =>
      let (present, w1) := h _ (PathExists p) w in
      if present : bool
      then match fst (h _ (ReadFile p) w1) with
           | Some text => Content text
           | None => Unreadable
           end
      else Missing
  end.

(** The value a finished run returned or the exception it raised. *)
Definition outcome {S A W : Type} (r : result A * S * W * list event)
    : result A := fst (fst (fst r)).

Definition final_state {S A W : Type} (r : result A * S * W * list event)
    : S := snd (fst (fst r)).

Definition trace {S A W : Type} (r : result A * S * W * list event)
    : list event := snd r.

(** [always P Q p]: on every run of [p], whatever the environment answers,
    each event of the trace satisfies [P] and the result satisfies [Q]. *)
Inductive always {R : Type} (P : event -> Prop) (Q : R -> Prop)
    : prog R -> Prop :=
| always_ret (r : R) : Q r -> always P Q (Ret r)
| always_vis (A : Type) (e : io A) (k : A -> prog R) :
    (forall a, P (event_of e a)) ->
    (forall a, always P Q (k a)) ->
    always P Q (Vis e k).

Definition is_write (ev : event) : bool :=
  match ev with EvWrite _ _ _ => true | _ => false end.

Definition is_sysfs (ev : event) : bool :=
  match ev with
  | EvExists _ _ | EvRead _ _ | EvWrite _ _ _ => true
  | _ => false
  end.

Definition is_sleep (ev : event) : bool :=
  match ev with EvSleep _ => true | _ => false end.

(** The result is a normal return. *)
Definition returns {A S : Type} (rs : result A * S) : Prop :=
  exists a, fst rs = Ok a.

(** The message printed for a failed write. *)
Definition write_failure_events (p : path) (ans : write_outcome) : list event :=
  match ans with
  | Written => []
  | PermissionDenied => [EvPrint (PermissionDeniedWriting p)]
  | WriteFailed => [EvPrint (ErrorWriting p)]
  end.

(** The text [read_sys_file] returns for the file [p] in the state [w]. *)
Definition reading {W : Type} (h : handler W) (w : W) (p : option path)
    : option string :=
  match sense h w p with
  | Content text => Some (Py.strip text)
  | _ => None
  end.

(** Two points of the curve with the same temperature are the same point. *)
Definition distinct_temps (curve : list point) : Prop :=
  forall p q, In p curve -> In q curve -> (fst p == fst q)%Q -> p = q.

(** Every duty of the curve lies between [lo] and [hi]. *)
Definition duties_within (lo hi : Q) (curve : list point) : Prop :=
  Forall (fun p => lo <= snd p /\ snd p <= hi)%Q curve.

(** The history after a push with window length [w]: the sample is
    appended, and the oldest entry dropped when the list is then longer
    than [w]. *)
Definition pushed (w : Z) (history : list Z) (sample : Z) : list Z :=
  let l := history ++ [sample] in
  if Z.of_nat (List.length l) >? w then tl l else l.

(** The most recent [n] entries of a sequence of samples. *)
Definition latest (n : nat) (samples : list Z) : list Z :=
  skipn (List.length samples - n) samples.

(** The distance, in RPM, between the speed the target duty stands for
    and the measured speed: [abs((target_pwm / 255) * max_rpm - current_rpm)]. *)
Definition rpm_diff (target_pwm current_rpm max_rpm : Z) : Q :=
  Qabs (inject_Z target_pwm / 255 * inject_Z max_rpm - inject_Z current_rpm).

(** What [set_fan_pwm value] writes when the enable file reads [enable]. *)
Definition pwm_writes (self : FanController) (enable : option string)
    (value : Z) : list (path * string) :=
  match hwmon_path self with
  | None => []
  | Some d =>
      (if is_manual enable then [] else [(Path d "pwm1_enable", "1"%string)])
      ++ [(Path d "pwm1", Py.str_of_int value)]
  end.

Definition clock_readings (tr : list event) : list Q :=
  flat_map (fun ev => match ev with EvTime t => [t] | _ => [] end) tr.

(** Locals of the loop on the simulated laptop, calibrated at 6000 RPM,
    with the hold state [hold]. *)
Definition calibrated_config : Config.t :=
  Config.mk 6000 30 90 5 example_curve "curve" 0 "smooth".

Definition calibrated_locals (hold : option Q) : Serve :=
  set_hysteresis_start_time
    (serve_locals (Sim.fan_controller calibrated_config) 1000) hold.

(** An event that neither sleeps nor writes. *)
Definition quiet (ev : event) : Prop :=
  is_sleep ev = false /\ is_write ev = false.

Definition sleepless (ev : event) : Prop := is_sleep ev = false.

(** The configuration in force during a pass: the one the controller
    holds after the reload at the top of the pass. *)
Definition config_in_force {W : Type} (h : handler W) (w : W) (s : Serve)
    : Config.t :=
  config (controller (final_state (exec h (reload_config s) w))).

(** A Smoother that does not touch the outside world. *)
Definition pure_smoother (smoother : Z -> M Serve Q) : Prop :=
  forall (W : Type) (h : handler W) (w : W) (s : Serve) (x : Z),
    exists r s', exec h (smoother x s) w = (r, s', w, []).

(** The modes the dispatch knows. *)
Definition dispatched_mode (mode : string) : bool :=
  String.eqb mode "curve" || String.eqb mode "manual"
  || String.eqb mode "max" || String.eqb mode "auto".

(** A property of both copies of the loop body. *)
Definition both_loops (P : M Serve unit -> Prop) : Prop :=
  P OmenCli.serve_iteration /\ P Packaged.serve_iteration.

(** Locals of the loop on the simulated laptop when the configuration
    says [mode]. *)
Definition locals_in_mode (mode : string) : Serve :=
  serve_locals
    (Sim.fan_controller (Config.mk 6000 30 90 5 example_curve mode 128 "smooth"))
    1000.

(** The first block of [calibrate]: the enable mode and the duty found
    when the routine starts, with their defaults. *)
Definition snapshot_fan_state (self : FanController)
    : M FanController (string * string) :=
  try_except
    (enable <- read_sys_file (pwm1_enable_path self) ;;
     pwm <- read_sys_file (pwm1_path self) ;;
     ret (or_else enable "2", or_else pwm "0"))%py
    (fun _ => ret ("2", "0")%string).

(** The progress loop of [calibrate]. *)
Definition progress_loop (self : FanController) : M FanController unit :=
  for_range 0 steps (fun i =>
    sleep (inject_Z (Config.calibration_wait (config self))
           / inject_Z (Z.of_nat steps))%Q ;;
    perform (Yield (progress_percent i)))%py.

(** The events of the progress loop when it runs to its end. *)
Definition progress_events (self : FanController) : list event :=
  flat_map (fun i =>
              [EvSleep (inject_Z (Config.calibration_wait (config self))
                        / inject_Z (Z.of_nat steps))%Q;
               EvYield (progress_percent i)])
           (seq 0 steps).

(** What the restoration block writes, given the snapshot. *)
Definition restore_writes (self : FanController) (prev : string * string)
    : list (path * string) :=
  match hwmon_path self with
  | None => []
  | Some d =>
      (Path d "pwm1_enable", fst prev)
      :: (if String.eqb (Py.strip (fst prev)) "1"
          then [(Path d "pwm1", snd prev)] else [])
  end.

Definition is_read (ev : event) : bool :=
  match ev with EvRead _ _ => true | _ => false end.

Definition is_save (ev : event) : bool :=
  match ev with EvSave _ _ => true | _ => false end.

(** The answers to the reads of the files called [file]. *)
Definition reads_named (file : string) (tr : list event)
    : list (option string) :=
  flat_map (fun ev => match ev with
                      | EvRead q answer =>
                          if String.eqb (name q) file then [answer] else []
                      | _ => []
                      end) tr.

(** An event of the calibration that is no progress report, no write and
    no save. *)
Definition calm (ev : event) : Prop :=
  is_progress ev = false /\ is_write ev = false /\ is_save ev = false.

(** An event that is no progress report, no read and no save. *)
Definition blind (ev : event) : Prop :=
  is_progress ev = false /\ is_read ev = false /\ is_save ev = false.

(** What [set_fan_mode('max')] writes. *)
Definition forced_max (self : FanController) : list (path * string) :=
  match hwmon_path self with
  | None => []
  | Some d => [(Path d "pwm1_enable", "0"%string)]
  end.

(** The simulated laptop with a fan sensor that answers no number. *)
Definition garbled_fan_laptop : Sim.world :=
  Sim.with_files Sim.laptop
    [(Path Sim.hwmon "pwm1_enable", "1"); (Path Sim.hwmon "pwm1", "128");
     (Path Sim.hwmon "fan1_input", "n/a")]%string.

(** A controller that found no fan device. *)
Definition deviceless (c : Config.t) : FanController :=
  {| cpu_temp_path := Some Sim.coretemp; hwmon_path := None; config := c |}.

(** The simulated configuration with a negative calibration wait. *)
Definition hasty_config : Config.t :=
  Config.mk 6000 (-1) 90 5 example_curve "curve" 0 "smooth".

(** ** Binary64 companions

    The exact rationals above idealise three float expressions of the
    source.  Here they are as Python evaluates them, in binary64, to mark
    where the idealisation and the code part ways. *)
Module Binary64.

(** The rational a finite float stands for ([0] for [inf] and [nan]). *)
Definition to_Q (x : float) : Q :=
  match Prim2SF x with
  | S754_finite s m e =>
      let v := match e with
               | Zneg p => (Zpos m # Pos.pow 2 p)%Q
               | _ => inject_Z (Z.shiftl (Zpos m) e)
               end in
      if s then (- v)%Q else v
  | _ => 0%Q
  end.

Definition of_Z (n : Z) : float :=
  if n <? 0 then PrimFloat.opp (PrimFloat.of_uint63 (Uint63.of_Z (- n)))
  else PrimFloat.of_uint63 (Uint63.of_Z n).

(** [int(round(target_speed_percent / 100 * 255))] on a float. *)
Definition pwm_of_percent (percent : float) : Z :=
  Py.round (to_Q (PrimFloat.mul (PrimFloat.div percent (of_Z 100)) (of_Z 255))).

(** [p1[1] + ratio * (p2[1] - p1[1])] with
    [ratio = (current_temp - p1[0]) / denom] and [denom = p2[0] - p1[0]]. *)
Definition interpolate (current_temp t1 d1 t2 d2 : float) : float :=
  let denom := PrimFloat.sub t2 t1 in
  let ratio := PrimFloat.div (PrimFloat.sub current_temp t1) denom in
  PrimFloat.add d1 (PrimFloat.mul ratio (PrimFloat.sub d2 d1)).

(** [abs((target_pwm / 255) * max_rpm - current_rpm)] on three [int]s. *)
Definition rpm_diff (target_pwm current_rpm max_rpm : Z) : float :=
  PrimFloat.abs
    (PrimFloat.sub
       (PrimFloat.mul (PrimFloat.div (of_Z target_pwm) (of_Z 255))
          (of_Z max_rpm))
       (of_Z current_rpm)).

End Binary64.

(** The points of the curve at the temperature [t]. *)
Definition at_temp (t : Q) (p : point) : bool := Qeq_bool (fst p) t.

(** The first and the last point at the temperature [t], in the order in
    which the configuration lists the points. *)
Definition first_at (t : Q) (curve : list point) : option point :=
  find (at_temp t) curve.

Definition last_at (t : Q) (curve : list point) : option point :=
  find (at_temp t) (rev curve).

(** [t] is at or below, respectively at or above, every temperature of the
    curve. *)
Definition coldest (t : Q) (curve : list point) : bool :=
  forallb (fun q => Qle_bool t (fst q)) curve.

Definition hottest (t : Q) (curve : list point) : bool :=
  forallb (fun q => Qle_bool (fst q) t) curve.

(** The point that answers for the temperature [t] of a breakpoint: the
    first point listed with that temperature, except at the highest
    temperature of the curve (when it is not also the lowest), where it is
    the last point listed with it. *)
Definition knot_point (curve : list point) (t : Q) : option point :=
  if hottest t curve && negb (coldest t curve)
  then last_at t curve else first_at t curve.

(** The exceptions the handler of the loop reported in a trace, through
    its message [Error in daemon loop]. *)
Definition caught (tr : list event) : list exn :=
  flat_map (fun ev => match ev with
                      | EvPrint (ErrorInDaemonLoop e) => [e]
                      | _ => []
                      end) tr.

(** An event that is no such report. *)
Definition unreported (ev : event) : Prop := caught [ev] = [].

(** The text [read_sys_file] got from the file called [file], as the
    trace records it: the answer to the first read of that file, stripped;
    [None] when the file was not read or the read failed. *)
Definition text_read (file : string) (tr : list event) : option string :=
  match reads_named file tr with
  | Some text :: _ => Some (Py.strip text)
  | _ => None
  end.

(** [int(val) if val else 0], what [get_fan_speed] makes of the text. *)
Definition speed_of_text (val : option string) : result Z :=
  if truthy val
  then match Py.int_of_str (or_else val "") with
       | Some n => Ok n
       | None => Raise ValueError
       end
  else Ok 0.

(** The snapshot [calibrate] takes of the fan state: the enable mode and
    the duty it read, with their defaults "2" and "0". *)
Definition snapshot_of (tr : list event) : string * string :=
  (or_else (text_read "pwm1_enable" tr) "2",
   or_else (text_read "pwm1" tr) "0").

(** A calibration wait that keeps every [time.sleep] of the routine far
    below the durations [time.sleep] refuses with [OverflowError] (those
    that do not fit its 64-bit count of nanoseconds). *)
Definition longest_wait : Z := 2 ^ 31.


(** The events of the restoration block of [calibrate] for the snapshot
    [prev], when its writes are answered [a1] and [a2]: each write is
    followed by its message when it failed. *)
Definition restoration_events (self : FanController) (prev : string * string)
    (a1 a2 : write_outcome) : list event :=
  match hwmon_path self with
  | None => []
  | Some d =>
      (EvWrite (Path d "pwm1_enable") (fst prev) a1
       :: write_failure_events (Path d "pwm1_enable") a1)
      ++ (if String.eqb (Py.strip (fst prev)) "1"
          then EvWrite (Path d "pwm1") (snd prev) a2
               :: write_failure_events (Path d "pwm1") a2
          else [])
  end.


(** The simulated laptop with a protected enable file. *)
Definition locked_laptop : Sim.world :=
  {| Sim.files := Sim.files Sim.laptop; Sim.unreadable := [];
     Sim.readonly := [Path Sim.hwmon "pwm1_enable"];
     Sim.clock := 1000; Sim.config_file := None |}.

(** * Properties *)
Example round_half_even :
  map Py.round [1 # 2; 3 # 2; 5 # 2; - (1 # 2); 159375 # 1000; 7 # 1]%Q
  = [0; 2; 2; 0; 159; 7].
Proof. reflexivity. Qed.

Example int_of_str_examples :
  map Py.int_of_str ["45000"; " 45999
"; "-7"; "1_000"; ""; "abc"; "4 5"; "1__0"]%string
  = [Some 45000; Some 45999; Some (-7); Some 1000; None; None; None; None].
Proof. reflexivity. Qed.

Example int_of_float_examples :
  map Py.int_of_float
    [PrimFloat.div (Py.float_of_nat 7) (Py.float_of_nat 2);
     PrimFloat.mul (PrimFloat.div (Py.float_of_nat 29) (Py.float_of_nat 100))
                   (Py.float_of_nat 100)]
  = [3; 28].
Proof. vm_compute. reflexivity. Qed.


(** ** Rounding *)

Lemma round_comp (x y : Q) : (x == y)%Q -> Py.round x = Py.round y.
Proof.
  intros E. unfold Py.round.
  rewrite (Qfloor_comp _ _ E).
  assert (C : ((x - inject_Z (Qfloor y)) ?= 1 # 2)%Q
              = ((y - inject_Z (Qfloor y)) ?= 1 # 2)%Q).
  { apply Qcompare_comp; [rewrite E|]; reflexivity. }
  now rewrite C.
Qed.

Lemma round_floor_or_next (x : Q) :
  Py.round x = Qfloor x \/ Py.round x = Qfloor x + 1.
Proof.
  unfold Py.round.
  destruct (_ ?= _)%Q; [destruct (Z.even _)|..]; auto.
Qed.

Lemma floor_bounds (x : Q) :
  (inject_Z (Qfloor x) <= x /\ x < inject_Z (Qfloor x) + 1)%Q.
Proof.
  split; [apply Qfloor_le|].
  pose proof (Qlt_floor x) as H. rewrite inject_Z_plus in H. exact H.
Qed.

Lemma round_bounds (x : Q) :
  (inject_Z (Py.round x) - (1 # 2) <= x
   /\ x <= inject_Z (Py.round x) + (1 # 2))%Q.
Proof.
  destruct (floor_bounds x) as [L U].
  unfold Py.round. cbv zeta.
  destruct (Qcompare_spec (x - inject_Z (Qfloor x)) (1 # 2)) as [C|C|C].
  - destruct (Z.even _); rewrite ?inject_Z_plus;
      change (inject_Z 1) with 1%Q; split; lra.
  - split; lra.
  - rewrite inject_Z_plus. change (inject_Z 1) with 1%Q. split; lra.
Qed.

Lemma round_mono (x y : Q) : (x <= y)%Q -> Py.round x <= Py.round y.
Proof.
  intros L.
  pose proof (Qfloor_resp_le _ _ L) as F.
  destruct (Z.eq_dec (Qfloor x) (Qfloor y)) as [E|N].
  - unfold Py.round. cbv zeta. rewrite E.
    destruct (Qcompare_spec (x - inject_Z (Qfloor y)) (1 # 2));
      destruct (Qcompare_spec (y - inject_Z (Qfloor y)) (1 # 2));
      try (exfalso; lra); destruct (Z.even (Qfloor y)); lia.
  - destruct (round_floor_or_next x), (round_floor_or_next y); lia.
Qed.

Lemma pwm_of_percent_comp (x y : Q) :
  (x == y)%Q -> pwm_of_percent x = pwm_of_percent y.
Proof. intros E. apply round_comp. now rewrite E. Qed.

Lemma pwm_of_percent_mono (x y : Q) :
  (x <= y)%Q -> pwm_of_percent x <= pwm_of_percent y.
Proof.
  intros L. apply round_mono.
  unfold Qdiv. apply Qmult_le_compat_r; [|discriminate].
  apply Qmult_le_compat_r; [assumption|discriminate].
Qed.

(** On whole percentages the conversion to PWM is injective and
    increasing: one percent is worth 2.55 PWM units. *)
Lemma pwm_of_percent_strict (a b : Z) :
  a < b -> pwm_of_percent (inject_Z a) < pwm_of_percent (inject_Z b).
Proof.
  intros L. unfold pwm_of_percent.
  destruct (round_bounds (inject_Z a / 100 * 255)) as [Ua _].
  destruct (round_bounds (inject_Z b / 100 * 255)) as [_ Lb].
  assert (S : (inject_Z a + 1 <= inject_Z b)%Q).
  { change 1%Q with (inject_Z 1). rewrite <- inject_Z_plus, <- Zle_Qle. lia. }
  rewrite Zlt_Qlt.
  revert Ua Lb.
  generalize (Py.round (inject_Z a / 100 * 255)).
  generalize (Py.round (inject_Z b / 100 * 255)).
  intros rb ra Ua Lb.
  assert (Ea : (inject_Z a / 100 * 255 == inject_Z a * (51 # 20))%Q) by field.
  assert (Eb : (inject_Z b / 100 * 255 == inject_Z b * (51 # 20))%Q) by field.
  setoid_rewrite Ea in Ua. setoid_rewrite Eb in Lb.
  lra.
Qed.

(** ** Sorting the curve *)

Lemma insert_by_temp_perm (p : point) (l : list point) :
  Permutation (insert_by_temp p l) (p :: l).
Proof.
  induction l as [|q l IH]; simpl; [reflexivity|].
  destruct (Qle_bool (fst p) (fst q)); [reflexivity|].
  rewrite IH. apply perm_swap.
Qed.

Lemma sorted_perm (curve : list point) : Permutation (sorted curve) curve.
Proof.
  induction curve as [|p l IH]; simpl; [reflexivity|].
  rewrite insert_by_temp_perm. now apply perm_skip.
Qed.

Lemma sorted_In (curve : list point) (p : point) :
  In p (sorted curve) <-> In p curve.
Proof.
  split; apply Permutation_in; [|symmetry]; apply sorted_perm.
Qed.

Lemma sorted_nonempty (curve : list point) : curve <> [] -> sorted curve <> [].
Proof.
  intros N E. apply N. apply Permutation_nil.
  rewrite <- E. apply sorted_perm.
Qed.

Lemma insert_by_temp_ascending (p : point) (l : list point) :
  ascending l -> ascending (insert_by_temp p l).
Proof.
  unfold ascending. induction l as [|q l IH]; intros A; simpl.
  - repeat constructor.
  - destruct (Qle_bool (fst p) (fst q)) eqn:C.
    + constructor; [assumption|]. constructor. now apply Qle_bool_iff.
    + inversion A as [|? ? A' Hd]; subst.
      constructor; [now apply IH|].
      assert (Lqp : temp_le q p).
      { unfold temp_le. destruct (Qlt_le_dec (fst q) (fst p)) as [L|L];
          [now apply Qlt_le_weak|].
        apply Qle_bool_iff in L. congruence. }
      destruct l as [|r l]; simpl; [now constructor|].
      destruct (Qle_bool (fst p) (fst r)); constructor; [assumption|].
      now inversion Hd.
Qed.

Lemma sorted_ascending (curve : list point) : ascending (sorted curve).
Proof.
  induction curve as [|p l IH]; simpl; [constructor|].
  now apply insert_by_temp_ascending.
Qed.

(** A curve that is already in order is left as it is. *)
Lemma sorted_fixed (curve : list point) : ascending curve -> sorted curve = curve.
Proof.
  unfold ascending. induction curve as [|p l IH]; intros A; [reflexivity|].
  inversion A as [|? ? A' Hd]; subst. simpl. rewrite (IH A').
  destruct Hd as [|q l' L]; [reflexivity|]. simpl.
  unfold temp_le in L. apply Qle_bool_iff in L. now rewrite L.
Qed.

Lemma strictly_ascending_ascending (curve : list point) :
  strictly_ascending curve -> ascending curve.
Proof.
  unfold strictly_ascending, ascending.
  induction 1 as [|p l S IH Hd]; constructor; [assumption|].
  destruct Hd; constructor. now apply Qlt_le_weak.
Qed.

#[local] Instance temp_le_trans : RelationClasses.Transitive temp_le.
Proof. intros p q r. unfold temp_le. apply Qle_trans. Qed.

#[local] Instance temp_lt_trans : RelationClasses.Transitive temp_lt.
Proof. intros p q r. unfold temp_lt. apply Qlt_trans. Qed.

#[local] Instance duty_le_trans : RelationClasses.Transitive duty_le.
Proof. intros p q r. unfold duty_le. apply Qle_trans. Qed.

(** In an ordered list the head is the least and the last the greatest. *)
Lemma ordered_head_least (R : point -> point -> Prop)
    `{RelationClasses.Transitive _ R} (p : point) (l : list point) :
  Sorted R (p :: l) -> forall q, In q l -> R p q.
Proof.
  intros A q I. apply Sorted_StronglySorted in A; [|assumption].
  inversion A as [|? ? _ F]; subst.
  rewrite Forall_forall in F. now apply F.
Qed.

Lemma last_In (l : list point) (d : point) : l <> [] -> In (last l d) l.
Proof.
  intros N. destruct (@exists_last _ l N) as (l0 & z & E).
  rewrite E, last_last. apply in_or_app. right. now left.
Qed.

Lemma hd_In (l : list point) (d : point) : l <> [] -> In (hd d l) l.
Proof. destruct l; [congruence|]. intros _. now left. Qed.

Lemma ordered_last_greatest (R : point -> point -> Prop)
    `{RelationClasses.Transitive _ R} (l : list point) (d q : point) :
  Sorted R l -> In q l -> q = last l d \/ R q (last l d).
Proof.
  induction l as [|p l IH]; intros A I; [contradiction|].
  destruct l as [|p' l].
  - destruct I as [<-|[]]. now left.
  - change (last (p :: p' :: l) d) with (last (p' :: l) d).
    assert (A' : Sorted R (p' :: l)) by now inversion A.
    destruct I as [<-|I].
    + right. apply (ordered_head_least R p (p' :: l) A).
      apply last_In. discriminate.
    + now apply IH.
Qed.

(** ** CurveEngine *)

Lemma Qle_bool_spec (x y : Q) : BoolSpec (x <= y)%Q (y < x)%Q (Qle_bool x y).
Proof.
  destruct (Qle_bool x y) eqn:C; constructor.
  - now apply Qle_bool_iff.
  - apply Qnot_le_lt. intros L. apply Qle_bool_iff in L. congruence.
Qed.

Lemma Qeq_bool_spec (x y : Q) : BoolSpec (x == y)%Q (~ x == y)%Q (Qeq_bool x y).
Proof.
  destruct (Qeq_bool x y) eqn:C; constructor.
  - now apply Qeq_bool_iff.
  - now apply Qeq_bool_neq.
Qed.

Lemma calculate_target_pwm_eq (cfg : Config.t) (t : Q) :
  Config.curve cfg <> [] ->
  calculate_target_pwm cfg t
  = Some (pwm_of_percent
            (percent_on_sorted (Config.curve_interpolation cfg) t
               (sorted (Config.curve cfg)))).
Proof.
  unfold calculate_target_pwm, target_speed_percent.
  destruct (Config.curve cfg); [congruence|reflexivity].
Qed.

(** The scan finds a segment for every temperature above the first point
    and not above the last. *)
Lemma scan_segments_some (m : string) (t : Q) (p : point) (l : list point) :
  (fst p < t)%Q -> (t <= fst (last (p :: l) (0, 0)%Q))%Q ->
  exists v, scan_segments m t (p :: l) = Some v.
Proof.
  revert p. induction l as [|q l IH]; intros p L U.
  - simpl in U. lra.
  - cbn [scan_segments].
    destruct (Qle_bool_spec (fst p) t); [|lra].
    destruct (Qle_bool_spec t (fst q)); cbn [andb]; [eauto|].
    apply IH; assumption.
Qed.

(** A temperature above the first point and equal to some point's: the
    scan stops at the first point of that temperature, and in smooth mode
    returns that point's duty. *)
Lemma scan_segments_knot (m : string) (t : Q) (p : point) (l : list point) :
  String.eqb m "discrete" = false ->
  ascending (p :: l) -> (fst p < t)%Q ->
  (exists q, In q (p :: l) /\ fst q == t)%Q ->
  exists v q, scan_segments m t (p :: l) = Some v
              /\ In q (p :: l) /\ (fst q == t)%Q /\ (v == snd q)%Q.
Proof.
  intros Hm. revert p. induction l as [|b l IH]; intros a A L (q & I & E).
  - destruct I as [<-|[]]. lra.
  - cbn [scan_segments].
    destruct (Qle_bool_spec (fst a) t); [|lra].
    assert (Iq : In q (b :: l)).
    { destruct I as [<-|I]; [lra|assumption]. }
    assert (A' : ascending (b :: l)) by now inversion A.
    destruct (Qle_bool_spec t (fst b)) as [U|U]; cbn [andb].
    + assert (Eb : (fst b == t)%Q).
      { destruct Iq as [<-|Iq]; [assumption|].
        pose proof (ordered_head_least temp_le b l A' q Iq) as B.
        unfold temp_le in B. lra. }
      exists (segment_value m t a b), b. repeat split; auto.
      * right. now left.
      * unfold segment_value. rewrite Hm.
        destruct (Qeq_bool_spec (fst b - fst a) 0) as [Z|Z]; [reflexivity|].
        setoid_replace ((t - fst a) / (fst b - fst a))%Q with 1%Q; [ring|].
        rewrite <- Eb. now field.
    + destruct (IH b A' U (ex_intro _ q (conj Iq E)))
        as (v & q' & Sv & Iq' & Eq' & Ev).
      exists v, q'. repeat split; auto. now right.
Qed.

Lemma percent_on_sorted_knot (m : string) (s : list point) (p : point) :
  String.eqb m "discrete" = false ->
  ascending s -> In p s ->
  (forall q, In q s -> fst q == fst p -> snd q == snd p)%Q ->
  (percent_on_sorted m (fst p) s == snd p)%Q.
Proof.
  intros Hm A I Same.
  destruct s as [|a l]; [contradiction|].
  unfold percent_on_sorted. cbn [hd].
  set (z := last (a :: l) _).
  assert (Iz : In z (a :: l)) by (apply last_In; discriminate).
  assert (La : (fst a <= fst p)%Q).
  { destruct I as [<-|I]; [lra|].
    apply (ordered_head_least temp_le a l A p I). }
  assert (Lz : (fst p <= fst z)%Q).
  { destruct (ordered_last_greatest temp_le (a :: l) (0%Q, 0%Q) p A I) as [Ep|B];
      [fold z in Ep; rewrite <- Ep; lra|exact B]. }
  destruct (Qle_bool_spec (fst p) (fst a)) as [C1|C1].
  - apply Same; [now left|lra].
  - destruct (Qle_bool_spec (fst z) (fst p)) as [C2|C2].
    + apply Same; [assumption|lra].
    + destruct (scan_segments_knot m (fst p) a l Hm A C1) as (v & q & Sv & Iq & Eq & Ev).
      { exists p. split; [assumption|reflexivity]. }
      rewrite Sv, Ev. now apply Same.
Qed.

(** In smooth mode, at the temperature of a point whose temperature is
    shared only by points of the same duty, the result is that duty. *)
Lemma calculate_at_knot (cfg : Config.t) (p : point) :
  String.eqb (Config.curve_interpolation cfg) "discrete" = false ->
  In p (Config.curve cfg) ->
  (forall q, In q (Config.curve cfg) -> fst q == fst p -> snd q == snd p)%Q ->
  calculate_target_pwm cfg (fst p) = Some (pwm_of_percent (snd p)).
Proof.
  intros Hm I Same.
  rewrite calculate_target_pwm_eq by (intros E; rewrite E in I; exact I).
  f_equal. apply pwm_of_percent_comp.
  apply percent_on_sorted_knot; auto using sorted_ascending.
  - now apply sorted_In.
  - intros q Iq. apply Same. now apply sorted_In.
Qed.

(** C3. For the curve [(30,0),(60,40),(90,85)] at 75 degrees: smooth
    interpolation gives 62.5 percent, that is PWM 159; discrete
    interpolation gives 40 percent, the lower point, that is PWM 102. *)
Theorem end_to_end_curve_examples :
  option_map Qred (target_speed_percent (curve_config "smooth" example_curve) 75)
    = Some (125 # 2)%Q
  /\ calculate_target_pwm (curve_config "smooth" example_curve) 75 = Some 159
  /\ Py.round ((125 # 2) / 100 * 255) = 159
  /\ option_map Qred (target_speed_percent (curve_config "discrete" example_curve) 75)
     = Some 40%Q
  /\ calculate_target_pwm (curve_config "discrete" example_curve) 75 = Some 102.
Proof. repeat split; reflexivity. Qed.

(** C5 (amended). For every non-empty curve, with [first] and [final] the
    first and the last point of the curve sorted by temperature (the
    coldest and the hottest point): a temperature at or below [first]'s
    yields [first]'s duty; a temperature at or above [final]'s, and above
    [first]'s, yields [final]'s duty; however far outside the range. *)
Theorem boundary_clamping (cfg : Config.t) (t : Q) :
  Config.curve cfg <> [] ->
  let first := hd (0, 0)%Q (sorted (Config.curve cfg)) in
  let final := last (sorted (Config.curve cfg)) (0, 0)%Q in
  (In first (Config.curve cfg) /\ In final (Config.curve cfg)
   /\ forall p, In p (Config.curve cfg) ->
                (fst first <= fst p /\ fst p <= fst final)%Q)
  /\ ((t <= fst first)%Q ->
      calculate_target_pwm cfg t = Some (pwm_of_percent (snd first)))
  /\ ((fst final <= t)%Q -> (fst first < t)%Q ->
      calculate_target_pwm cfg t = Some (pwm_of_percent (snd final))).
Proof.
  intros N first final.
  pose proof (sorted_nonempty _ N) as Ns.
  pose proof (sorted_ascending (Config.curve cfg)) as A.
  repeat split.
  - apply sorted_In. now apply hd_In.
  - apply sorted_In. now apply last_In.
  - apply sorted_In in H. subst first.
    destruct (sorted (Config.curve cfg)) as [|a l]; [contradiction|].
    destruct H as [<-|I]; cbn [hd]; [lra|].
    apply (ordered_head_least temp_le a l A p I).
  - apply sorted_In in H.
    destruct (ordered_last_greatest temp_le _ (0%Q, 0%Q) p A H) as [E|L].
    + fold final in E. rewrite <- E. lra.
    + exact L.
  - intros L. rewrite calculate_target_pwm_eq by assumption.
    unfold percent_on_sorted. fold first.
    destruct (Qle_bool_spec t (fst first)); [reflexivity|lra].
  - intros U L. rewrite calculate_target_pwm_eq by assumption.
    unfold percent_on_sorted. fold first. fold final.
    destruct (Qle_bool_spec t (fst first)); [lra|].
    destruct (Qle_bool_spec (fst final) t); [reflexivity|lra].
Qed.

Lemma boundary_clamping_witness :
  Config.curve (curve_config "smooth" example_curve) <> []
  /\ (0 <= 30)%Q /\ (90 <= 200)%Q /\ (30 < 200)%Q
  /\ calculate_target_pwm (curve_config "smooth" example_curve) 0 = Some 0
  /\ calculate_target_pwm (curve_config "smooth" example_curve) 200 = Some 217.
Proof.
  assert (N : Config.curve (curve_config "smooth" example_curve) <> [])
    by discriminate.
  assert (L0 : (0 <= 30)%Q) by (unfold Qle; simpl; lia).
  assert (L1 : (90 <= 200)%Q) by (unfold Qle; simpl; lia).
  assert (L2 : (30 < 200)%Q) by reflexivity.
  refine (conj N (conj L0 (conj L1 (conj L2 (conj _ _))))).
  - exact (proj1 (proj2 (boundary_clamping _ 0 N)) L0).
  - exact (proj2 (proj2 (boundary_clamping _ 200 N)) L1 L2).
Defined.

(** C5, as stated, fails where the whole curve sits at one temperature:
    at that temperature the first test wins and the first point's duty is
    returned, not the last point's. *)
Lemma boundary_clamping_counterexample :
  let cfg := curve_config "smooth" [(50, 10); (50, 90)]%Q in
  let final := last (sorted (Config.curve cfg)) (0, 0)%Q in
  final = (50, 90)%Q
  /\ (fst final <= 50)%Q
  /\ calculate_target_pwm cfg 50 = Some 26
  /\ calculate_target_pwm cfg 50 <> Some (pwm_of_percent (snd final)).
Proof.
  cbv zeta. refine (conj eq_refl (conj _ (conj eq_refl _))).
  - unfold Qle; simpl; lia.
  - discriminate.
Qed.

(** *** Which point answers at a breakpoint *)

Lemma find_app {A : Type} (f : A -> bool) (l1 l2 : list A) :
  find f (l1 ++ l2)
  = match find f l1 with Some x => Some x | None => find f l2 end.
Proof.
  induction l1 as [|a l1 IH]; [reflexivity|]. simpl.
  now destruct (f a).
Qed.

Lemma at_temp_apart (t : Q) (a q : point) :
  (fst q < fst a)%Q -> at_temp t q = true -> at_temp t a = false.
Proof.
  unfold at_temp. intros L Eq. apply Qeq_bool_iff in Eq.
  destruct (Qeq_bool_spec (fst a) t) as [Ea|]; [lra|reflexivity].
Qed.

(** The sort is stable: it moves neither the first nor the last point of
    a temperature. *)
Lemma first_at_insert (t : Q) (a : point) (s : list point) :
  find (at_temp t) (insert_by_temp a s)
  = if at_temp t a then Some a else find (at_temp t) s.
Proof.
  induction s as [|q s IH]; [reflexivity|]. cbn [insert_by_temp].
  destruct (Qle_bool_spec (fst a) (fst q)) as [L|L]; [reflexivity|].
  cbn [find]. rewrite IH.
  destruct (at_temp t q) eqn:Eq; [|reflexivity].
  now rewrite (at_temp_apart t a q L Eq).
Qed.

Lemma first_at_sorted (t : Q) (curve : list point) :
  first_at t (sorted curve) = first_at t curve.
Proof.
  unfold first_at. induction curve as [|a l IH]; [reflexivity|].
  cbn [sorted fold_right]. fold (sorted l).
  rewrite first_at_insert, IH. reflexivity.
Qed.

Lemma last_at_insert (t : Q) (a : point) (s : list point) :
  find (at_temp t) (rev (insert_by_temp a s))
  = match find (at_temp t) (rev s) with
    | Some x => Some x
    | None => if at_temp t a then Some a else None
    end.
Proof.
  induction s as [|q s IH]; [reflexivity|]. cbn [insert_by_temp].
  destruct (Qle_bool_spec (fst a) (fst q)) as [L|L].
  - change (rev (a :: q :: s)) with (rev (q :: s) ++ [a]).
    rewrite find_app. reflexivity.
  - cbn [rev]. rewrite !find_app, IH.
    destruct (find (at_temp t) (rev s)); [reflexivity|].
    cbn [find].
    destruct (at_temp t q) eqn:Eq.
    + now rewrite (at_temp_apart t a q L Eq).
    + now destruct (at_temp t a).
Qed.

Lemma last_at_sorted (t : Q) (curve : list point) :
  last_at t (sorted curve) = last_at t curve.
Proof.
  unfold last_at. induction curve as [|a l IH]; [reflexivity|].
  cbn [sorted fold_right]. fold (sorted l).
  rewrite last_at_insert, IH. cbn [rev]. now rewrite find_app.
Qed.

Lemma find_rev_last {A : Type} (f : A -> bool) (l : list A) (d : A) :
  l <> [] -> f (last l d) = true -> find f (rev l) = Some (last l d).
Proof.
  intros N. destruct (@exists_last _ l N) as (l0 & z & ->).
  rewrite last_last, rev_app_distr. cbn [rev app find]. now intros ->.
Qed.

Lemma forallb_perm {A : Type} (f : A -> bool) (l l' : list A) :
  Permutation l l' -> forallb f l = forallb f l'.
Proof.
  induction 1 as [|x l l' _ IH|x y l|l l' l'' _ IH1 _ IH2]; simpl.
  - reflexivity.
  - now rewrite IH.
  - now destruct (f x), (f y).
  - congruence.
Qed.

Lemma knot_point_sorted (curve : list point) (t : Q) :
  knot_point (sorted curve) t = knot_point curve t.
Proof.
  unfold knot_point, hottest, coldest.
  rewrite !(forallb_perm _ _ _ (sorted_perm curve)).
  now rewrite first_at_sorted, last_at_sorted.
Qed.

(** Above the first point, at the temperature of some point: the scan
    stops at the first point of that temperature and, in smooth mode,
    returns its duty. *)
Lemma scan_segments_first (m : string) (t : Q) (p : point) (l : list point) :
  String.eqb m "discrete" = false ->
  ascending (p :: l) -> (fst p < t)%Q ->
  (exists q, In q (p :: l) /\ fst q == t)%Q ->
  exists v q, scan_segments m t (p :: l) = Some v
              /\ first_at t (p :: l) = Some q /\ (v == snd q)%Q.
Proof.
  intros Hm. revert p. induction l as [|b l IH]; intros a A L (q & I & E).
  - destruct I as [<-|[]]. lra.
  - cbn [scan_segments].
    destruct (Qle_bool_spec (fst a) t); [|lra].
    assert (Iq : In q (b :: l)).
    { destruct I as [<-|I]; [lra|assumption]. }
    assert (A' : ascending (b :: l)) by now inversion A.
    assert (Na : at_temp t a = false).
    { unfold at_temp. destruct (Qeq_bool_spec (fst a) t); [lra|reflexivity]. }
    unfold first_at. cbn [find]. rewrite Na. fold (first_at t (b :: l)).
    destruct (Qle_bool_spec t (fst b)) as [U|U]; cbn [andb].
    + assert (Eb : (fst b == t)%Q).
      { destruct Iq as [<-|Iq]; [assumption|].
        pose proof (ordered_head_least temp_le b l A' q Iq) as B.
        unfold temp_le in B. lra. }
      exists (segment_value m t a b), b. split; [reflexivity|]. split.
      * unfold first_at, at_temp. cbn [find].
        apply Qeq_bool_iff in Eb. now rewrite Eb.
      * unfold segment_value. rewrite Hm.
        destruct (Qeq_bool_spec (fst b - fst a) 0) as [Z|Z]; [reflexivity|].
        setoid_replace ((t - fst a) / (fst b - fst a))%Q with 1%Q; [ring|].
        rewrite <- Eb. now field.
    + apply (IH b A' U). now exists q.
Qed.

Lemma coldest_spec (t : Q) (s : list point) :
  coldest t s = true <-> forall q, In q s -> (t <= fst q)%Q.
Proof.
  unfold coldest. rewrite forallb_forall.
  split; intros H q I; [apply Qle_bool_iff|apply Qle_bool_iff]; now apply H.
Qed.

Lemma hottest_spec (t : Q) (s : list point) :
  hottest t s = true <-> forall q, In q s -> (fst q <= t)%Q.
Proof.
  unfold hottest. rewrite forallb_forall.
  split; intros H q I; [apply Qle_bool_iff|apply Qle_bool_iff]; now apply H.
Qed.

(** On a sorted curve, in smooth mode, at the temperature of one of its
    points: the duty assigned is the duty of [knot_point]. *)
Lemma percent_on_sorted_at_knot (m : string) (s : list point) (p : point) :
  String.eqb m "discrete" = false ->
  ascending s -> In p s ->
  exists q, knot_point s (fst p) = Some q
            /\ (percent_on_sorted m (fst p) s == snd q)%Q.
Proof.
  intros Hm A I.
  destruct s as [|a l]; [contradiction|].
  unfold percent_on_sorted. cbn [hd].
  set (z := last (a :: l) _).
  assert (Iz : In z (a :: l)) by (apply last_In; discriminate).
  assert (La : forall q, In q (a :: l) -> (fst a <= fst q)%Q).
  { intros q [<-|Iq]; [lra|].
    apply (ordered_head_least temp_le a l A q Iq). }
  assert (Lz : forall q, In q (a :: l) -> (fst q <= fst z)%Q).
  { intros q Iq.
    destruct (ordered_last_greatest temp_le (a :: l) (0%Q, 0%Q) q A Iq)
      as [Eq|B]; [fold z in Eq; rewrite <- Eq; lra|exact B]. }
  unfold knot_point.
  destruct (Qle_bool_spec (fst p) (fst a)) as [C1|C1].
  - assert (Ea : (fst a == fst p)%Q) by (specialize (La p I); lra).
    assert (Hc : coldest (fst p) (a :: l) = true).
    { apply coldest_spec. intros q Iq. specialize (La q Iq). lra. }
    rewrite Hc, andb_false_r. exists a. split; [|reflexivity].
    unfold first_at, at_temp. cbn [find].
    apply Qeq_bool_iff in Ea. now rewrite Ea.
  - assert (Hc : coldest (fst p) (a :: l) = false).
    { apply not_true_is_false. intros Hc.
      pose proof (proj1 (coldest_spec _ _) Hc a (or_introl eq_refl)). lra. }
    rewrite Hc. cbn [negb]. rewrite andb_true_r.
    destruct (Qle_bool_spec (fst z) (fst p)) as [C2|C2].
    + assert (Ez : (fst z == fst p)%Q) by (specialize (Lz p I); lra).
      assert (Hh : hottest (fst p) (a :: l) = true).
      { apply hottest_spec. intros q Iq. specialize (Lz q Iq). lra. }
      rewrite Hh. exists z. split; [|reflexivity].
      unfold last_at. apply find_rev_last; [discriminate|].
      unfold at_temp. now apply Qeq_bool_iff.
    + assert (Hh : hottest (fst p) (a :: l) = false).
      { apply not_true_is_false. intros Hh.
        pose proof (proj1 (hottest_spec _ _) Hh z Iz). lra. }
      rewrite Hh.
      destruct (scan_segments_first m (fst p) a l Hm A C1)
        as (v & q & Sv & Fq & Ev).
      { exists p. split; [assumption|reflexivity]. }
      rewrite Sv. now exists q.
Qed.

(** C6 (amended). In smooth mode, for a curve with whole-number duties,
    at the temperature of a breakpoint the result is exactly the duty (as
    PWM) of one breakpoint of that temperature: the first one listed with
    that temperature; except at the highest temperature of the curve,
    where it is the last one listed with it (unless the curve has a single
    temperature).  So a breakpoint that alone has its temperature, or
    shares it only with points of the same duty, is reproduced exactly.
    The duties are whole numbers because with fractional duties the
    binary64 sum [p1 + 1.0 * (p2 - p1)] need not give back [p2]
    ([binary64_knot_sum_inexact]). *)
Theorem knot_exactness (cfg : Config.t) (p : point) :
  Config.curve_interpolation cfg = "smooth"%string ->
  integer_duties (Config.curve cfg) ->
  In p (Config.curve cfg) ->
  (exists q,
     knot_point (Config.curve cfg) (fst p) = Some q
     /\ In q (Config.curve cfg) /\ (fst q == fst p)%Q
     /\ calculate_target_pwm cfg (fst p) = Some (pwm_of_percent (snd q)))
  /\ ((forall q, In q (Config.curve cfg) -> fst q == fst p -> snd q == snd p)%Q ->
      calculate_target_pwm cfg (fst p) = Some (pwm_of_percent (snd p))).
Proof.
  intros Hm _ I.
  assert (Hd : String.eqb (Config.curve_interpolation cfg) "discrete" = false)
    by now rewrite Hm.
  assert (G : exists q,
             knot_point (Config.curve cfg) (fst p) = Some q
             /\ In q (Config.curve cfg) /\ (fst q == fst p)%Q
             /\ calculate_target_pwm cfg (fst p)
                = Some (pwm_of_percent (snd q))).
  { destruct (percent_on_sorted_at_knot _ (sorted (Config.curve cfg)) p Hd
                (sorted_ascending _) (proj2 (sorted_In _ p) I))
      as (q & K & E).
    rewrite knot_point_sorted in K. exists q. split; [exact K|].
    assert (F : In q (Config.curve cfg) /\ at_temp (fst p) q = true).
    { unfold knot_point, first_at, last_at in K.
      destruct (hottest _ _ && negb _); apply find_some in K;
        [rewrite <- in_rev in K|]; exact K. }
    destruct F as [Iq Eq]. split; [exact Iq|].
    split; [now apply Qeq_bool_iff|].
    rewrite calculate_target_pwm_eq by (intros N; rewrite N in I; exact I).
    f_equal. now apply pwm_of_percent_comp. }
  split; [exact G|].
  intros Same. destruct G as (q & _ & Iq & Eq & ->).
  f_equal. apply pwm_of_percent_comp. now apply Same.
Qed.

Lemma knot_exactness_witness :
  let cfg := curve_config "smooth" [(30, 10); (60, 50); (60, 40); (90, 85)]%Q in
  Config.curve_interpolation cfg = "smooth"%string
  /\ integer_duties (Config.curve cfg)
  /\ In (60, 40)%Q (Config.curve cfg)
  /\ (exists q,
        knot_point (Config.curve cfg) 60 = Some q
        /\ In q (Config.curve cfg) /\ (fst q == 60)%Q
        /\ calculate_target_pwm cfg 60 = Some (pwm_of_percent (snd q)))
  /\ ((forall q, In q (Config.curve cfg) -> fst q == 60 -> snd q == 40)%Q ->
      calculate_target_pwm cfg 60 = Some (pwm_of_percent 40)).
Proof.
  cbv zeta.
  assert (D : integer_duties
                (Config.curve
                   (curve_config "smooth"
                      [(30, 10); (60, 50); (60, 40); (90, 85)]%Q))).
  { repeat constructor. }
  assert (I : In (60, 40)%Q
                (Config.curve
                   (curve_config "smooth"
                      [(30, 10); (60, 50); (60, 40); (90, 85)]%Q))).
  { simpl; tauto. }
  exact (conj eq_refl (conj D (conj I
           (knot_exactness
              (curve_config "smooth" [(30, 10); (60, 50); (60, 40); (90, 85)]%Q)
              (60, 40)%Q eq_refl D I)))).
Defined.

(** C6, as stated, fails at the highest temperature of a curve that lists
    two points there: the scan and its first match are never reached, the
    upper clamp returns the last point, so the breakpoint (60, 50), the
    first listed at 60 degrees, is not reproduced. *)
Lemma knot_exactness_counterexample :
  let cfg := curve_config "smooth" [(30, 10); (60, 50); (60, 40)]%Q in
  In (60, 50)%Q (Config.curve cfg)
  /\ first_at 60 (Config.curve cfg) = Some (60, 50)%Q
  /\ pwm_of_percent 50 = 128
  /\ calculate_target_pwm cfg 60 = Some 102
  /\ calculate_target_pwm cfg 60 <> Some (pwm_of_percent 50).
Proof.
  cbv zeta. refine (conj _ (conj eq_refl (conj eq_refl (conj eq_refl _)))).
  - simpl; tauto.
  - discriminate.
Qed.

(** Where the rationals and binary64 part ways.  At a breakpoint with
    fractional duties the sum [p1 + 1.0 * (p2 - p1)] can miss [p2] by one
    unit in the last place, enough to cross a rounding boundary (PWM 4
    instead of 5); inside a segment the rounded quotient can turn a tie
    (59.5, rounded to 60) into 59; and the band test of the governor at an
    exact difference of 200 RPM can see 200.00000000000006. *)
Example binary64_knot_sum_inexact :
  Binary64.pwm_of_percent
    (Binary64.interpolate (Binary64.of_Z 60)
       (Binary64.of_Z 30) 0x1.999999999999ap-2%float
       (Binary64.of_Z 60) 0x1.c3c3c3c3c3c3dp+0%float) = 4
  /\ Binary64.pwm_of_percent 0x1.c3c3c3c3c3c3dp+0%float = 5.
Proof. split; vm_compute; reflexivity. Qed.

Example binary64_interpolation_tie :
  Binary64.pwm_of_percent
    (Binary64.interpolate (Binary64.of_Z 22)
       (Binary64.of_Z 20) (Binary64.of_Z 0)
       (Binary64.of_Z 23) (Binary64.of_Z 35)) = 59
  /\ calculate_target_pwm (curve_config "smooth" [(20, 0); (23, 35)]%Q) 22
     = Some 60.
Proof. split; vm_compute; reflexivity. Qed.

Example binary64_band_edge :
  PrimFloat.ltb (Binary64.of_Z 200) (Binary64.rpm_diff 66 240 1700) = true
  /\ (rpm_diff 66 240 1700 == 200)%Q.
Proof. split; vm_compute; reflexivity. Qed.

(** ** Monotonicity of the curve *)

Lemma segment_value_bounds (m : string) (t : Q) (a b : point) :
  (fst a <= t)%Q -> (t <= fst b)%Q -> (snd a <= snd b)%Q ->
  (snd a <= segment_value m t a b /\ segment_value m t a b <= snd b)%Q.
Proof.
  intros L U D. unfold segment_value.
  destruct (String.eqb m "discrete"); [lra|].
  destruct (Qeq_bool_spec (fst b - fst a) 0) as [Z|Z]; [lra|].
  assert (P : (0 < fst b - fst a)%Q) by lra.
  set (r := ((t - fst a) / (fst b - fst a))%Q).
  assert (R0 : (0 <= r)%Q) by (apply Qle_shift_div_l; [assumption|lra]).
  assert (R1 : (r <= 1)%Q) by (apply Qle_shift_div_r; [assumption|lra]).
  split; nra.
Qed.

Lemma segment_value_mono (m : string) (t1 t2 : Q) (a b : point) :
  (fst a <= t1)%Q -> (t1 <= t2)%Q -> (t2 <= fst b)%Q -> (snd a <= snd b)%Q ->
  (segment_value m t1 a b <= segment_value m t2 a b)%Q.
Proof.
  intros L T U D. unfold segment_value.
  destruct (String.eqb m "discrete"); [lra|].
  destruct (Qeq_bool_spec (fst b - fst a) 0) as [Z|Z]; [lra|].
  assert (P : (0 < fst b - fst a)%Q) by lra.
  assert (R : ((t1 - fst a) / (fst b - fst a)
               <= (t2 - fst a) / (fst b - fst a))%Q).
  { unfold Qdiv. apply Qmult_le_compat_r; [lra|].
    apply Qlt_le_weak, Qinv_lt_0_compat, P. }
  nra.
Qed.

Lemma scan_segments_lower (m : string) (t : Q) (s : list point) (v : Q) :
  duties_nondecreasing s -> scan_segments m t s = Some v ->
  (snd (hd (0, 0)%Q s) <= v)%Q.
Proof.
  revert v. induction s as [|a s IH]; intros v D Sv; [discriminate|].
  destruct s as [|b l]; [discriminate|].
  assert (Dab : (snd a <= snd b)%Q).
  { apply (ordered_head_least duty_le a (b :: l) D). now left. }
  assert (D' : duties_nondecreasing (b :: l)) by now inversion D.
  cbn [scan_segments] in Sv. cbn [hd].
  destruct (Qle_bool_spec (fst a) t); cbn [andb] in Sv.
  - destruct (Qle_bool_spec t (fst b)).
    + injection Sv as <-. now apply segment_value_bounds.
    + specialize (IH v D' Sv). cbn [hd] in IH. lra.
  - specialize (IH v D' Sv). cbn [hd] in IH. lra.
Qed.

Lemma scan_segments_upper (m : string) (t : Q) (s : list point) (v : Q) :
  duties_nondecreasing s -> scan_segments m t s = Some v ->
  (v <= snd (last s (0, 0)%Q))%Q.
Proof.
  revert v. induction s as [|a s IH]; intros v D Sv; [discriminate|].
  destruct s as [|b l]; [discriminate|].
  assert (Dab : (snd a <= snd b)%Q).
  { apply (ordered_head_least duty_le a (b :: l) D). now left. }
  assert (D' : duties_nondecreasing (b :: l)) by now inversion D.
  change (last (a :: b :: l) (0%Q, 0%Q)) with (last (b :: l) (0%Q, 0%Q)).
  assert (Dbz : (snd b <= snd (last (b :: l) (0%Q, 0%Q)))%Q).
  { destruct (ordered_last_greatest duty_le (b :: l) (0%Q, 0%Q) b D') as [E|L];
      [now left|rewrite <- E; lra|exact L]. }
  cbn [scan_segments] in Sv.
  destruct (Qle_bool (fst a) t && Qle_bool t (fst b)) eqn:C.
  - apply andb_prop in C. destruct C as [C1 C2].
    apply Qle_bool_iff in C1, C2. injection Sv as <-.
    destruct (segment_value_bounds m t a b C1 C2 Dab). lra.
  - now apply IH.
Qed.

Lemma scan_segments_mono (m : string) (t1 t2 : Q) (s : list point) (v1 v2 : Q) :
  duties_nondecreasing s ->
  (fst (hd (0, 0)%Q s) < t1)%Q -> (t1 <= t2)%Q ->
  scan_segments m t1 s = Some v1 -> scan_segments m t2 s = Some v2 ->
  (v1 <= v2)%Q.
Proof.
  revert v1 v2. induction s as [|a s IH]; intros v1 v2 D L T S1 S2; [discriminate|].
  destruct s as [|b l]; [discriminate|].
  assert (Dab : (snd a <= snd b)%Q).
  { apply (ordered_head_least duty_le a (b :: l) D). now left. }
  assert (D' : duties_nondecreasing (b :: l)) by now inversion D.
  cbn [hd] in L. cbn [scan_segments] in S1, S2.
  destruct (Qle_bool_spec (fst a) t1); [|lra].
  destruct (Qle_bool_spec (fst a) t2); [|lra].
  cbn [andb] in S1, S2.
  destruct (Qle_bool_spec t1 (fst b)) as [U1|U1].
  - injection S1 as <-.
    destruct (Qle_bool_spec t2 (fst b)) as [U2|U2].
    + injection S2 as <-. apply segment_value_mono; assumption.
    + pose proof (scan_segments_lower m t2 (b :: l) v2 D' S2) as Lo.
      cbn [hd] in Lo.
      destruct (segment_value_bounds m t1 a b) as [_ Up]; try assumption. lra.
  - destruct (Qle_bool_spec t2 (fst b)) as [U2|U2]; [lra|].
    apply (IH v1 v2 D'); assumption.
Qed.

Lemma percent_on_sorted_mono (m : string) (t1 t2 : Q) (s : list point) :
  s <> [] -> duties_nondecreasing s -> (t1 <= t2)%Q ->
  (percent_on_sorted m t1 s <= percent_on_sorted m t2 s)%Q.
Proof.
  intros N D T.
  destruct s as [|a l]; [congruence|].
  unfold percent_on_sorted. cbn [hd].
  set (z := last (a :: l) _).
  assert (Daz : (snd a <= snd z)%Q).
  { destruct (ordered_last_greatest duty_le (a :: l) (0%Q, 0%Q) a D) as [E|L];
      [now left|fold z in E; rewrite <- E; lra|exact L]. }
  assert (Lo : forall t v, scan_segments m t (a :: l) = Some v -> (snd a <= v)%Q).
  { intros t v Sv. apply (scan_segments_lower m t (a :: l) v D Sv). }
  assert (Up : forall t v, scan_segments m t (a :: l) = Some v -> (v <= snd z)%Q).
  { intros t v Sv. apply (scan_segments_upper m t (a :: l) v D Sv). }
  assert (Ex : forall t, (fst a < t)%Q -> (t < fst z)%Q ->
                         exists v, scan_segments m t (a :: l) = Some v).
  { intros t L U. apply scan_segments_some; [assumption|]. fold z. lra. }
  destruct (Qle_bool_spec t1 (fst a)) as [A1|A1].
  - destruct (Qle_bool_spec t2 (fst a)) as [A2|A2]; [lra|].
    destruct (Qle_bool_spec (fst z) t2) as [Z2|Z2]; [assumption|].
    destruct (Ex t2 A2 Z2) as (v2 & S2). rewrite S2. eauto.
  - destruct (Qle_bool_spec t2 (fst a)) as [A2|A2]; [lra|].
    destruct (Qle_bool_spec (fst z) t1) as [Z1|Z1].
    + destruct (Qle_bool_spec (fst z) t2) as [Z2|Z2]; lra.
    + destruct (Ex t1 A1 Z1) as (v1 & S1). rewrite S1.
      destruct (Qle_bool_spec (fst z) t2) as [Z2|Z2]; [eauto|].
      destruct (Ex t2 A2 Z2) as (v2 & S2). rewrite S2.
      apply (scan_segments_mono m t1 t2 (a :: l) v1 v2 D); assumption.
Qed.

(** Non-decreasing duties give a non-decreasing target, in either mode,
    also when temperatures repeat. *)
Lemma nondecreasing_duties_monotone (cfg : Config.t) :
  Config.curve cfg <> [] ->
  ascending (Config.curve cfg) -> duties_nondecreasing (Config.curve cfg) ->
  monotone (calculate_target_pwm cfg).
Proof.
  intros N A D t1 t2 T. unfold defined_and_le.
  rewrite !calculate_target_pwm_eq by assumption.
  apply pwm_of_percent_mono.
  rewrite (sorted_fixed _ A).
  now apply percent_on_sorted_mono.
Qed.

(** *** From a non-decreasing target back to the duties *)

Lemma Sorted_app_r (R : point -> point -> Prop) (pre l : list point) :
  Sorted R (pre ++ l) -> Sorted R l.
Proof.
  induction pre as [|p pre IH]; [trivial|].
  simpl. intros A. apply IH. now inversion A.
Qed.

Lemma Sorted_adjacent (R : point -> point -> Prop) (s : list point) :
  (forall pre a b post, s = pre ++ a :: b :: post -> R a b) -> Sorted R s.
Proof.
  induction s as [|a s IH]; intros Adj; [constructor|].
  constructor.
  - apply IH. intros pre x y post E.
    apply (Adj (a :: pre) x y post). simpl. now rewrite E.
  - destruct s as [|b s]; constructor.
    apply (Adj [] a b s). reflexivity.
Qed.

Lemma Sorted_adjacent_inv (R : point -> point -> Prop)
    (pre : list point) (a b : point) (post : list point) :
  Sorted R (pre ++ a :: b :: post) -> R a b.
Proof.
  intros A. apply Sorted_app_r in A.
  inversion A as [|? ? _ Hd]; subst. now inversion Hd.
Qed.

(** In a strictly ascending curve a temperature names one point. *)
Lemma strictly_ascending_distinct (s : list point) (p q : point) :
  strictly_ascending s -> In p s -> In q s -> (fst q == fst p)%Q -> q = p.
Proof.
  intros A. apply Sorted_StronglySorted in A; [|exact temp_lt_trans].
  induction A as [|a l A IH F]; intros Ip Iq E; [contradiction|].
  rewrite Forall_forall in F. unfold temp_lt in F.
  destruct Ip as [<-|Ip], Iq as [<-|Iq]; auto.
  - specialize (F q Iq). lra.
  - specialize (F p Ip). lra.
Qed.

(** Discrete mode, strictly between two neighbours: the colder one's duty. *)
Lemma scan_segments_discrete_between (t : Q)
    (pre : list point) (a b : point) (post : list point) :
  strictly_ascending (pre ++ a :: b :: post) ->
  (fst a < t)%Q -> (t < fst b)%Q ->
  scan_segments "discrete" t (pre ++ a :: b :: post) = Some (snd a).
Proof.
  intros A La Ub. induction pre as [|p pre IH].
  - cbn [app scan_segments].
    destruct (Qle_bool_spec (fst a) t); [|lra].
    destruct (Qle_bool_spec t (fst b)); [|lra]. reflexivity.
  - assert (A' : strictly_ascending (pre ++ a :: b :: post)) by now inversion A.
    specialize (IH A').
    assert (Hq : exists q rest, pre ++ a :: b :: post = q :: rest
                                /\ (fst q <= fst a)%Q).
    { destruct pre as [|q pre'].
      - exists a, (b :: post). split; [reflexivity|lra].
      - exists q, (pre' ++ a :: b :: post). split; [reflexivity|].
        apply Qlt_le_weak.
        apply (ordered_head_least temp_lt q (pre' ++ a :: b :: post) A').
        apply in_or_app. right. now left. }
    destruct Hq as (q & rest & E & Lq).
    change ((p :: pre) ++ a :: b :: post) with (p :: (pre ++ a :: b :: post)).
    rewrite E in IH |- *. cbn [scan_segments].
    destruct (Qle_bool_spec t (fst q)); [lra|].
    rewrite andb_false_r. exact IH.
Qed.

Lemma first_le_member (s : list point) (a : point) :
  ascending s -> In a s -> (fst (hd (0, 0)%Q s) <= fst a)%Q.
Proof.
  intros A I. destruct s as [|p l]; [contradiction|]. cbn [hd].
  destruct I as [<-|I]; [lra|].
  apply (ordered_head_least temp_le p l A a I).
Qed.

Lemma member_le_last (s : list point) (a : point) :
  ascending s -> In a s -> (fst a <= fst (last s (0, 0)%Q))%Q.
Proof.
  intros A I.
  destruct (ordered_last_greatest temp_le s (0%Q, 0%Q) a A I) as [E|L];
    [rewrite <- E; lra|exact L].
Qed.

Lemma percent_discrete_between (t : Q)
    (pre : list point) (a b : point) (post : list point) :
  strictly_ascending (pre ++ a :: b :: post) ->
  (fst a < t)%Q -> (t < fst b)%Q ->
  percent_on_sorted "discrete" t (pre ++ a :: b :: post) = snd a.
Proof.
  intros A La Ub.
  pose proof (strictly_ascending_ascending _ A) as A'.
  assert (Ia : In a (pre ++ a :: b :: post))
    by (apply in_or_app; right; now left).
  assert (Ib : In b (pre ++ a :: b :: post))
    by (apply in_or_app; right; right; now left).
  pose proof (first_le_member _ a A' Ia) as F.
  pose proof (member_le_last _ b A' Ib) as Z.
  unfold percent_on_sorted.
  destruct (Qle_bool_spec t (fst (hd (0%Q, 0%Q) (pre ++ a :: b :: post))));
    [lra|].
  destruct (Qle_bool_spec (fst (last (pre ++ a :: b :: post) (0%Q, 0%Q))) t);
    [lra|].
  now rewrite scan_segments_discrete_between.
Qed.

(** At the last point's temperature, in a curve of two or more strictly
    ascending points: the last point's duty, in either mode. *)
Lemma percent_at_last (m : string) (pre : list point) (a b : point) :
  strictly_ascending (pre ++ [a; b]) ->
  percent_on_sorted m (fst b) (pre ++ [a; b]) = snd b.
Proof.
  intros A.
  pose proof (strictly_ascending_ascending _ A) as A'.
  assert (Ia : In a (pre ++ [a; b])) by (apply in_or_app; right; now left).
  pose proof (first_le_member _ a A' Ia) as F.
  pose proof (Sorted_adjacent_inv temp_lt pre a b [] A) as Lab.
  unfold temp_lt in Lab.
  assert (Z : last (pre ++ [a; b]) (0%Q, 0%Q) = b).
  { change [a; b] with ([a] ++ [b]). rewrite app_assoc. apply last_last. }
  unfold percent_on_sorted. rewrite Z.
  destruct (Qle_bool_spec (fst b) (fst (hd (0%Q, 0%Q) (pre ++ [a; b]))));
    [lra|].
  destruct (Qle_bool_spec (fst b) (fst b)); [reflexivity|lra].
Qed.

(** Each of two neighbouring duties is the target at some temperature,
    the colder point's at the lower temperature. *)
Lemma adjacent_samples (cfg : Config.t)
    (pre : list point) (a b : point) (post : list point) :
  Config.curve cfg = pre ++ a :: b :: post ->
  strictly_ascending (Config.curve cfg) ->
  exists ta tb : Q,
    (ta < tb)%Q
    /\ calculate_target_pwm cfg ta = Some (pwm_of_percent (snd a))
    /\ calculate_target_pwm cfg tb = Some (pwm_of_percent (snd b)).
Proof.
  intros E A.
  pose proof (strictly_ascending_ascending _ A) as A'.
  assert (N : Config.curve cfg <> []) by (rewrite E; now destruct pre).
  assert (Ia : In a (Config.curve cfg))
    by (rewrite E; apply in_or_app; right; now left).
  assert (Ib : In b (Config.curve cfg))
    by (rewrite E; apply in_or_app; right; right; now left).
  assert (Lab : (fst a < fst b)%Q).
  { rewrite E in A. apply (Sorted_adjacent_inv temp_lt pre a b post A). }
  destruct (String.eqb (Config.curve_interpolation cfg) "discrete") eqn:Hm.
  - apply String.eqb_eq in Hm.
    exists ((fst a + fst b) * (1 # 2))%Q.
    assert (Ma : (fst a < (fst a + fst b) * (1 # 2))%Q) by lra.
    assert (Mb : ((fst a + fst b) * (1 # 2) < fst b)%Q) by lra.
    assert (Ca : calculate_target_pwm cfg ((fst a + fst b) * (1 # 2))
                 = Some (pwm_of_percent (snd a))).
    { rewrite calculate_target_pwm_eq by assumption.
      rewrite (sorted_fixed _ A'), Hm, E.
      rewrite percent_discrete_between; (reflexivity || (try rewrite <- E); assumption). }
    destruct post as [|c post].
    + exists (fst b). repeat split; [lra|assumption|].
      rewrite calculate_target_pwm_eq by assumption.
      rewrite (sorted_fixed _ A'), E.
      rewrite percent_at_last; [reflexivity|rewrite <- E; assumption].
    + assert (Lbc : (fst b < fst c)%Q).
      { rewrite E in A.
        replace (pre ++ a :: b :: c :: post)
          with ((pre ++ [a]) ++ b :: c :: post) in A
          by (now rewrite <- app_assoc).
        apply (Sorted_adjacent_inv temp_lt _ b c post A). }
      exists ((fst b + fst c) * (1 # 2))%Q. repeat split; [lra|assumption|].
      rewrite calculate_target_pwm_eq by assumption.
      rewrite (sorted_fixed _ A'), Hm, E.
      replace (pre ++ a :: b :: c :: post)
        with ((pre ++ [a]) ++ b :: c :: post)
        by (now rewrite <- app_assoc).
      rewrite percent_discrete_between; [reflexivity| |lra|lra].
      rewrite <- app_assoc. simpl. rewrite <- E. assumption.
  - exists (fst a), (fst b). repeat split; [assumption| |].
    + apply calculate_at_knot; [assumption|assumption|].
      intros q Iq Eq. now rewrite (strictly_ascending_distinct _ a q A Ia Iq Eq).
    + apply calculate_at_knot; [assumption|assumption|].
      intros q Iq Eq. now rewrite (strictly_ascending_distinct _ b q A Ib Iq Eq).
Qed.

Lemma monotone_duties_nondecreasing (cfg : Config.t) :
  strictly_ascending (Config.curve cfg) -> integer_duties (Config.curve cfg) ->
  monotone (calculate_target_pwm cfg) ->
  duties_nondecreasing (Config.curve cfg).
Proof.
  intros A Int Mono. apply Sorted_adjacent. intros pre a b post E.
  destruct (adjacent_samples cfg pre a b post E A) as (ta & tb & L & Ca & Cb).
  specialize (Mono ta tb (Qlt_le_weak _ _ L)).
  unfold defined_and_le in Mono. rewrite Ca, Cb in Mono.
  unfold integer_duties in Int. rewrite Forall_forall in Int.
  assert (Ia : In a (Config.curve cfg))
    by (rewrite E; apply in_or_app; right; now left).
  assert (Ib : In b (Config.curve cfg))
    by (rewrite E; apply in_or_app; right; right; now left).
  pose proof (Int a Ia) as Ea. pose proof (Int b Ib) as Eb.
  rewrite (pwm_of_percent_comp _ _ Ea), (pwm_of_percent_comp _ _ Eb) in Mono.
  unfold duty_le. rewrite Ea, Eb. rewrite <- Zle_Qle.
  destruct (Z_le_gt_dec (Qfloor (snd a)) (Qfloor (snd b))) as [Le|Gt]; [exact Le|].
  pose proof (pwm_of_percent_strict _ _ (Z.gt_lt _ _ Gt)). lia.
Qed.

(** The middle point at 60 degrees is never consulted. *)
Lemma shadowed_point_ignored (m : string) (t : Q) :
  calculate_target_pwm (curve_config m shadowed_curve) t
  = calculate_target_pwm (curve_config m unshadowed_curve) t.
Proof.
  assert (E1 : sorted shadowed_curve = shadowed_curve) by reflexivity.
  assert (E2 : sorted unshadowed_curve = unshadowed_curve) by reflexivity.
  rewrite !calculate_target_pwm_eq by discriminate.
  cbn [Config.curve Config.curve_interpolation curve_config].
  rewrite E1, E2. unfold percent_on_sorted, shadowed_curve, unshadowed_curve.
  cbn [hd last scan_segments fst snd].
  repeat match goal with
         | |- context [Qle_bool ?x ?y] => destruct (Qle_bool_spec x y)
         end; cbn [andb]; try reflexivity; exfalso; lra.
Qed.

Lemma unshadowed_curve_ascending : ascending unshadowed_curve.
Proof.
  repeat constructor; unfold temp_le; simpl; unfold Qle; simpl; lia.
Qed.

Lemma unshadowed_curve_duties : duties_nondecreasing unshadowed_curve.
Proof.
  repeat constructor; unfold duty_le; simpl; unfold Qle; simpl; lia.
Qed.

Lemma shadowed_curve_monotone (m : string) :
  monotone (calculate_target_pwm (curve_config m shadowed_curve)).
Proof.
  intros t1 t2 T. unfold defined_and_le.
  rewrite !shadowed_point_ignored.
  apply (nondecreasing_duties_monotone (curve_config m unshadowed_curve));
    [discriminate|exact unshadowed_curve_ascending
     |exact unshadowed_curve_duties|exact T].
Qed.

(** C4 (amended). For every curve of two or more points with strictly
    ascending temperatures and whole-number duties, in either
    interpolation mode: the target PWM is non-decreasing in the
    temperature if and only if the duties are non-decreasing. *)
Theorem monotone_iff_duties_nondecreasing (cfg : Config.t) :
  (2 <= List.length (Config.curve cfg))%nat ->
  strictly_ascending (Config.curve cfg) ->
  integer_duties (Config.curve cfg) ->
  monotone (calculate_target_pwm cfg)
  <-> duties_nondecreasing (Config.curve cfg).
Proof.
  intros Len A Int. split.
  - now apply monotone_duties_nondecreasing.
  - apply nondecreasing_duties_monotone.
    + intros E. rewrite E in Len. simpl in Len. lia.
    + now apply strictly_ascending_ascending.
Qed.

Lemma monotone_iff_duties_nondecreasing_witness :
  (2 <= List.length (Config.curve (curve_config "discrete" example_curve)))%nat
  /\ strictly_ascending (Config.curve (curve_config "discrete" example_curve))
  /\ integer_duties (Config.curve (curve_config "discrete" example_curve))
  /\ (monotone (calculate_target_pwm (curve_config "discrete" example_curve))
      <-> duties_nondecreasing
            (Config.curve (curve_config "discrete" example_curve))).
Proof.
  assert (Len : (2 <= List.length
                  (Config.curve (curve_config "discrete" example_curve)))%nat)
    by (simpl; lia).
  assert (A : strictly_ascending
                (Config.curve (curve_config "discrete" example_curve)))
    by (repeat constructor).
  assert (Int : integer_duties
                  (Config.curve (curve_config "discrete" example_curve)))
    by (repeat constructor).
  exact (conj Len (conj A (conj Int
           (monotone_iff_duties_nondecreasing _ Len A Int)))).
Defined.

(** C4, as stated, fails when temperatures repeat: the shadowed curve is
    sorted by temperature and its target is non-decreasing in both modes,
    but its duties go 20, 5, 30. *)
Lemma monotone_iff_duties_nondecreasing_counterexample :
  (2 <= List.length shadowed_curve)%nat
  /\ ascending shadowed_curve
  /\ monotone (calculate_target_pwm (curve_config "smooth" shadowed_curve))
  /\ monotone (calculate_target_pwm (curve_config "discrete" shadowed_curve))
  /\ ~ duties_nondecreasing shadowed_curve.
Proof.
  refine (conj _ (conj _ (conj (shadowed_curve_monotone _)
            (conj (shadowed_curve_monotone _) _)))).
  - simpl. lia.
  - repeat constructor; unfold temp_le; simpl; unfold Qle; simpl; lia.
  - intros D. unfold shadowed_curve in D.
    inversion D as [|? ? D1 _]; subst.
    inversion D1 as [|? ? _ H1]; subst.
    inversion H1 as [|? ? L]; subst.
    unfold duty_le, Qle in L. simpl in L. lia.
Qed.

(** ** Runs *)

Lemma exec_bind {W A B : Type} (h : handler W) (p : prog A) (f : A -> prog B)
    (w : W) :
  exec h (prog_bind p f) w
  = let '(a, w1, tr1) := exec h p w in
    let '(b, w2, tr2) := exec h (f a) w1 in
    (b, w2, tr1 ++ tr2).
Proof.
  revert w. induction p as [r|X e k IH]; intros w; simpl.
  - now destruct (exec h (f r) w) as [[b w2] tr2].
  - destruct (h X e w) as [a w1]. rewrite IH.
    destruct (exec h (k a) w1) as [[x w2] tr1].
    now destruct (exec h (f x) w2) as [[b w3] tr2].
Qed.

(** ** Sensors: [read_sys_file], [get_fan_speed], [get_cpu_temp] *)

(** [read_sys_file] never raises and leaves the local state alone; its
    value is decided by what the environment answers. *)
Lemma read_sys_file_outcome {W S : Type} (h : handler W) (w : W) (s : S)
    (p : option path) :
  fst (fst (exec h (read_sys_file p s) w))
  = (Ok match sense h w p with
        | Content text => Some (Py.strip text)
        | _ => None
        end, s).
Proof.
  destruct p as [p|]; [|reflexivity].
  unfold read_sys_file, sense, bind, perform. simpl.
  destruct (h bool (PathExists p) w) as [present w1].
  destruct present; simpl; [|reflexivity].
  destruct (h (option string) (ReadFile p) w1) as [content w2].
  destruct content as [text|]; simpl; [reflexivity|].
  now destruct (h unit (Print (ErrorReading p)) w2).
Qed.

(** The value read from a sensor file with the given text: nothing for an
    empty text, the integer it spells, or [ValueError]. *)
Lemma int_of_reading {W S : Type} (h : handler W) (w : W) (s : S)
    (val : option string) (f : Z -> Z) :
  exec h ((if truthy val
           then (n <- int_of_text (or_else val "") ;; ret (f n))
           else ret 0)%py s) w
  = (match val with
     | Some (String _ _ as v) =>
         match Py.int_of_str v with
         | Some n => Ok (f n)
         | None => Raise ValueError
         end
     | _ => Ok 0
     end, s, w, []).
Proof.
  destruct val as [[|c v]|]; simpl; try reflexivity.
  unfold int_of_text, bind. simpl.
  now destruct (Py.int_of_str (String c v)).
Qed.

Lemma get_cpu_temp_run {W S : Type} (h : handler W) (w : W) (s : S)
    (self : FanController) :
  fst (fst (exec h (get_cpu_temp self s) w))
  = (match sense h w (cpu_temp_path self) with
     | Content text =>
         match Py.strip text with
         | EmptyString => Ok 0
         | v => match Py.int_of_str v with
                | Some n => Ok (n / 1000)
                | None => Raise ValueError
                end
         end
     | _ => Ok 0
     end, s).
Proof.
  unfold get_cpu_temp. destruct (cpu_temp_path self) as [p|]; [|reflexivity].
  unfold bind at 1. rewrite exec_bind.
  pose proof (read_sys_file_outcome h w s (Some p)) as R.
  remember (sense h w (Some p)) as x eqn:Hx. clear Hx.
  destruct (exec h (read_sys_file (Some p) s) w) as [[[r s1] w1] tr1].
  cbn [fst snd] in R. injection R as -> ->. cbn [fst snd].
  rewrite (int_of_reading h w1 s _ (fun n => n / 1000)).
  destruct x as [| | |text]; try reflexivity.
  now destruct (Py.strip text).
Qed.

Lemma get_fan_speed_run {W S : Type} (h : handler W) (w : W) (s : S)
    (self : FanController) :
  fst (fst (exec h (get_fan_speed self s) w))
  = (match sense h w (fan1_input_path self) with
     | Content text =>
         match Py.strip text with
         | EmptyString => Ok 0
         | v => match Py.int_of_str v with
                | Some n => Ok n
                | None => Raise ValueError
                end
         end
     | _ => Ok 0
     end, s).
Proof.
  unfold get_fan_speed.
  unfold bind at 1. rewrite exec_bind.
  pose proof (read_sys_file_outcome h w s (fan1_input_path self)) as R.
  remember (sense h w (fan1_input_path self)) as x eqn:Hx. clear Hx.
  destruct (exec h (read_sys_file (fan1_input_path self) s) w)
    as [[[r s1] w1] tr1].
  cbn [fst snd] in R. injection R as -> ->. cbn [fst snd].
  destruct x as [| | |text]; try reflexivity.
  destruct (Py.strip text) as [|c v]; [reflexivity|].
  cbn [truthy or_else]. unfold int_of_text.
  destruct (Py.int_of_str (String c v)); reflexivity.
Qed.

(** ** Properties of all runs *)

Lemma always_exec {W R : Type} (P : event -> Prop) (Q : R -> Prop)
    (p : prog R) (h : handler W) (w : W) :
  always P Q p ->
  Q (fst (fst (exec h p w))) /\ Forall P (snd (exec h p w)).
Proof.
  intros Hp. revert w. induction Hp as [r Hr|A e k He Hk IH]; intros w; simpl.
  - split; [assumption|constructor].
  - destruct (h A e w) as [a w1].
    destruct (IH a w1) as [Hq Hf].
    destruct (exec h (k a) w1) as [[r w2] tr]. simpl in *.
    split; [assumption|]. constructor; [apply He|assumption].
Qed.

Lemma always_weaken {R : Type} (P P' : event -> Prop) (Q Q' : R -> Prop)
    (p : prog R) :
  (forall ev, P ev -> P' ev) -> (forall r, Q r -> Q' r) ->
  always P Q p -> always P' Q' p.
Proof.
  intros HP HQ. induction 1; constructor; auto.
Qed.

Lemma always_prog_bind {A B : Type} (P : event -> Prop)
    (Q : A -> Prop) (Q' : B -> Prop) (p : prog A) (f : A -> prog B) :
  always P Q p -> (forall a, Q a -> always P Q' (f a)) ->
  always P Q' (prog_bind p f).
Proof.
  intros Hp Hf. induction Hp; simpl; [auto|]. constructor; auto.
Qed.

(** Sequencing in [M]: the continuation is only needed after a normal
    return; an exception passes through with the state it left. *)
Lemma always_bind {S A B : Type} (P : event -> Prop)
    (Q : result A * S -> Prop) (Q' : result B * S -> Prop)
    (m : M S A) (f : A -> M S B) (s : S) :
  always P Q (m s) ->
  (forall a s', Q (Ok a, s') -> always P Q' (f a s')) ->
  (forall e s', Q (Raise e, s') -> Q' (Raise e, s')) ->
  always P Q' (bind m f s).
Proof.
  intros Hm Hf He. unfold bind.
  apply (always_prog_bind P Q Q' _ _ Hm).
  intros [[a|e] s'] Hq; simpl; [now apply Hf|].
  constructor. now apply He.
Qed.

Lemma always_perform {S A : Type} (P : event -> Prop)
    (Q : result A * S -> Prop) (e : io A) (s : S) :
  (forall a, P (event_of e a)) -> (forall a, Q (Ok a, s)) ->
  always P Q (perform e s).
Proof.
  intros He Hq. unfold perform. constructor; [assumption|].
  intros a. constructor. apply Hq.
Qed.

Lemma writes_app (tr1 tr2 : list event) :
  writes (tr1 ++ tr2) = writes tr1 ++ writes tr2.
Proof. apply flat_map_app. Qed.

Lemma no_write_writes (tr : list event) :
  Forall (fun ev => is_write ev = false) tr -> writes tr = [].
Proof.
  induction 1 as [|ev tr Hev _ IH]; [reflexivity|].
  unfold writes in *. simpl. rewrite IH.
  now destruct ev.
Qed.

Lemma no_sysfs_accesses (tr : list event) :
  Forall (fun ev => is_sysfs ev = false) tr -> sysfs_accesses tr = [].
Proof.
  induction 1 as [|ev tr Hev _ IH]; [reflexivity|].
  unfold sysfs_accesses in *. simpl. rewrite IH.
  now destruct ev.
Qed.

(** ** Actuator access: [write_sys_file], [set_fan_mode], [set_fan_pwm] *)

Lemma read_sys_file_no_write {S : Type} (p : option path) (s : S) :
  always (fun ev => is_write ev = false) (fun _ => True) (read_sys_file p s).
Proof.
  destruct p as [p|]; [|now constructor].
  unfold read_sys_file, bind, perform. simpl.
  constructor; [reflexivity|]. intros [|]; simpl; [|now constructor].
  constructor; [reflexivity|]. intros [text|]; simpl; [now constructor|].
  constructor; [reflexivity|]. intros []. now constructor.
Qed.

Lemma read_sys_file_run {W S : Type} (h : handler W) (w : W) (s : S)
    (p : option path) :
  exists w1 tr,
    exec h (read_sys_file p s) w
    = (Ok match sense h w p with
          | Content text => Some (Py.strip text)
          | _ => None
          end, s, w1, tr)
    /\ writes tr = []
    /\ (p = None -> tr = []).
Proof.
  pose proof (read_sys_file_outcome h w s p) as O.
  pose proof (always_exec _ _ _ h w (read_sys_file_no_write p s)) as [_ F].
  destruct (exec h (read_sys_file p s) w) as [[rs w1] tr] eqn:E.
  cbn [fst snd] in O, F. subst rs.
  exists w1, tr. repeat split.
  - now apply no_write_writes.
  - intros ->. simpl in E. now injection E as _ <-.
Qed.

Lemma write_sys_file_run {W S : Type} (h : handler W) (w : W) (s : S)
    (p : option path) (value : string) :
  exists w1,
    exec h (write_sys_file p value s) w
    = (Ok tt, s, w1,
       match p with
       | None => []
       | Some q =>
           let ans := fst (h _ (WriteFile q value) w) in
           EvWrite q value ans :: write_failure_events q ans
       end).
Proof.
  destruct p as [q|]; [|now exists w].
  unfold write_sys_file, bind, perform. simpl.
  destruct (h write_outcome (WriteFile q value) w) as [ans w1].
  destruct ans; simpl.
  - now exists w1.
  - destruct (h unit (Print (PermissionDeniedWriting q)) w1) as [[] w2].
    now exists w2.
  - destruct (h unit (Print (ErrorWriting q)) w1) as [[] w2].
    now exists w2.
Qed.

Lemma writes_write_sys_file (q : path) (value : string) (ans : write_outcome) :
  writes (EvWrite q value ans :: write_failure_events q ans) = [(q, value)].
Proof. now destruct ans. Qed.

Lemma write_sys_file_writes {W S : Type} (h : handler W) (w : W) (s : S)
    (p : option path) (value : string) :
  exists w1 tr,
    exec h (write_sys_file p value s) w = (Ok tt, s, w1, tr)
    /\ writes tr = match p with Some q => [(q, value)] | None => [] end
    /\ sysfs_accesses tr = map fst (writes tr)
    /\ (p = None -> tr = []).
Proof.
  destruct (write_sys_file_run h w s p value) as (w1 & E).
  rewrite E. exists w1. eexists. split; [reflexivity|].
  destruct p as [q|]; [|now repeat split].
  cbv zeta. destruct (fst (h _ (WriteFile q value) w)); now repeat split.
Qed.

Lemma set_fan_mode_run {W S : Type} (h : handler W) (w : W) (s : S)
    (self : FanController) (mode : string) :
  exists w1 tr,
    exec h (set_fan_mode self mode s) w = (Ok tt, s, w1, tr)
    /\ writes tr
       = match hwmon_path self with
         | None => []
         | Some d =>
             if String.eqb mode "max" then [(Path d "pwm1_enable", "0"%string)]
             else if String.eqb mode "auto"
                  then [(Path d "pwm1_enable", "2"%string)]
                  else []
         end
    /\ sysfs_accesses tr = map fst (writes tr).
Proof.
  unfold set_fan_mode.
  destruct (String.eqb mode "max").
  - destruct (write_sys_file_writes h w s (pwm1_enable_path self) "0")
      as (w1 & tr & E & Wr & Acc & _).
    exists w1, tr. repeat split; try assumption.
    rewrite Wr. unfold pwm1_enable_path. now destruct (hwmon_path self).
  - destruct (String.eqb mode "auto").
    + destruct (write_sys_file_writes h w s (pwm1_enable_path self) "2")
        as (w1 & tr & E & Wr & Acc & _).
      exists w1, tr. repeat split; try assumption.
      rewrite Wr. unfold pwm1_enable_path. now destruct (hwmon_path self).
    + exists w, []. split; [reflexivity|]. now destruct (hwmon_path self).
Qed.

Lemma set_fan_pwm_run {W S : Type} (h : handler W) (w : W) (s : S)
    (self : FanController) (value : Z) :
  exists w1 tr,
    exec h (set_fan_pwm self value s) w = (Ok tt, s, w1, tr)
    /\ writes tr
       = match hwmon_path self with
         | None => []
         | Some d =>
             (if is_manual (reading h w (pwm1_enable_path self)) then []
              else [(Path d "pwm1_enable", "1"%string)])
             ++ [(Path d "pwm1", Py.str_of_int value)]
         end
    /\ (hwmon_path self = None -> tr = []).
Proof.
  unfold set_fan_pwm. unfold bind at 1. rewrite exec_bind.
  destruct (read_sys_file_run h w s (pwm1_enable_path self))
    as (w1 & tr1 & E1 & W1 & N1).
  rewrite E1. cbn [fst snd]. fold (reading h w (pwm1_enable_path self)).
  unfold bind at 1. rewrite exec_bind.
  set (manual := is_manual (reading h w (pwm1_enable_path self))).
  assert (E2 : exists w2 tr2,
             exec h ((if negb manual
                      then write_sys_file (pwm1_enable_path self) "1"
                      else ret tt) s) w1 = (Ok tt, s, w2, tr2)
             /\ writes tr2
                = match hwmon_path self with
                  | None => []
                  | Some d => if manual then []
                              else [(Path d "pwm1_enable", "1"%string)]
                  end
             /\ (hwmon_path self = None -> tr2 = [])).
  { destruct manual; cbn [negb].
    - exists w1, []. repeat split. now destruct (hwmon_path self).
    - destruct (write_sys_file_writes h w1 s (pwm1_enable_path self) "1")
        as (w2 & tr2 & E & Wr & _ & Nn).
      exists w2, tr2. split; [assumption|]. rewrite Wr.
      unfold pwm1_enable_path in *.
      destruct (hwmon_path self); cbn [option_map] in *;
        (split; [reflexivity|]); [discriminate|auto]. }
  destruct E2 as (w2 & tr2 & E2 & W2 & N2). rewrite E2. cbn [fst snd].
  destruct (write_sys_file_writes h w2 s (pwm1_path self) (Py.str_of_int value))
    as (w3 & tr3 & E3 & W3 & _ & N3).
  rewrite E3. exists w3. eexists. split; [reflexivity|].
  rewrite !writes_app, W1, W2, W3. cbn [app].
  unfold pwm1_path, pwm1_enable_path in *.
  destruct (hwmon_path self) as [d|]; cbn [option_map] in *.
  - split; [reflexivity|discriminate].
  - split; [reflexivity|]. intros _.
    now rewrite N1, N2, N3.
Qed.

(** ** Further properties: sensor and actuator access *)

(** X1. [read_sys_file] never raises, never writes and leaves the caller's
    state alone.  It returns [None] exactly when there is no path, the file
    is missing, or reading it fails; otherwise the text, stripped. *)
Theorem read_sys_file_total {W S : Type} (h : handler W) (w : W) (s : S)
    (p : option path) :
  exists w1 tr,
    exec h (read_sys_file p s) w = (Ok (reading h w p), s, w1, tr)
    /\ writes tr = []
    /\ (p = None -> tr = [])
    /\ (reading h w p = None <-> forall text, sense h w p <> Content text)
    /\ (forall text, sense h w p = Content text ->
                     reading h w p = Some (Py.strip text)).
Proof.
  destruct (read_sys_file_run h w s p) as (w1 & tr & E & Wr & N).
  exists w1, tr. unfold reading. repeat split; try assumption.
  - intros R text C. rewrite C in R. discriminate.
  - intros Hn. destruct (sense h w p) as [| | |text]; try reflexivity.
    now destruct (Hn text).
  - now intros text ->.
Qed.

(** X2. [get_fan_speed] returns 0 when the fan file has no path, is
    missing, cannot be read or is empty; the integer the text spells
    otherwise; and lets [ValueError] escape when the text is not an
    integer.  The caller's state is never touched. *)
Theorem get_fan_speed_cases {W S : Type} (h : handler W) (w : W) (s : S)
    (self : FanController) :
  let x := sense h w (fan1_input_path self) in
  let r := fst (fst (exec h (get_fan_speed self s) w)) in
  snd r = s
  /\ ((forall text, x <> Content text) -> fst r = Ok 0)
  /\ (forall text, x = Content text -> Py.strip text = ""%string ->
                   fst r = Ok 0)
  /\ (forall text n, x = Content text -> Py.strip text <> ""%string ->
                     Py.int_of_str (Py.strip text) = Some n -> fst r = Ok n)
  /\ (forall text, x = Content text -> Py.strip text <> ""%string ->
                   Py.int_of_str (Py.strip text) = None ->
                   fst r = Raise ValueError).
Proof.
  cbv zeta. rewrite get_fan_speed_run. cbn [fst snd].
  destruct (sense h w (fan1_input_path self)) as [| | |text];
    repeat split; try reflexivity; try discriminate;
    try (intros Hn; now destruct (Hn text)).
  - intros t [= <-] E. now rewrite E.
  - intros t n [= <-] N I. destruct (Py.strip text); [congruence|].
    now rewrite I.
  - intros t [= <-] N I. destruct (Py.strip text); [congruence|].
    now rewrite I.
Qed.

(** X3. [get_cpu_temp] returns 0 when the temperature file has no path,
    is missing, cannot be read or is empty; the millidegree reading
    floor-divided by 1000 when the text spells an integer (so -500 gives
    -1); and lets [ValueError] escape otherwise. *)
Theorem get_cpu_temp_cases {W S : Type} (h : handler W) (w : W) (s : S)
    (self : FanController) :
  let x := sense h w (cpu_temp_path self) in
  let r := fst (fst (exec h (get_cpu_temp self s) w)) in
  snd r = s
  /\ ((forall text, x <> Content text) -> fst r = Ok 0)
  /\ (forall text, x = Content text -> Py.strip text = ""%string ->
                   fst r = Ok 0)
  /\ (forall text n, x = Content text -> Py.strip text <> ""%string ->
                     Py.int_of_str (Py.strip text) = Some n ->
                     fst r = Ok (n / 1000)
                     /\ 1000 * (n / 1000) <= n < 1000 * (n / 1000) + 1000)
  /\ (forall text, x = Content text -> Py.strip text <> ""%string ->
                   Py.int_of_str (Py.strip text) = None ->
                   fst r = Raise ValueError).
Proof.
  cbv zeta. rewrite get_cpu_temp_run. cbn [fst snd].
  destruct (sense h w (cpu_temp_path self)) as [| | |text];
    repeat split; try reflexivity; try discriminate;
    try (intros Hn; now destruct (Hn text)).
  - intros t [= <-] E. now rewrite E.
  - injection H as <-. destruct (Py.strip text); [congruence|].
    now rewrite H1.
  - pose proof (Z.mul_div_le n 1000). lia.
  - pose proof (Z.mul_succ_div_gt n 1000). lia.
  - intros t [= <-] N I. destruct (Py.strip text); [congruence|].
    now rewrite I.
Qed.

Example sensor_readings :
  map (fun text =>
         fst (fst (exec Sim.run
                     (get_cpu_temp (Sim.fan_controller Config.defaults) tt)
                     (Sim.with_files Sim.laptop [(Sim.coretemp, text)]))))
      ["45999
"; "-500"; "   "; "n/a"]%string
  = [(Ok 45, tt); (Ok (-1), tt); (Ok 0, tt); (Raise ValueError, tt)].
Proof. reflexivity. Qed.

(** X4. [set_fan_mode] never raises.  For 'max' it writes 0 to
    [pwm1_enable], for 'auto' it writes 2, and that write is its only access to
    sysfs; for every other mode, 'manual' included, and when the hwmon
    directory was not found, it writes nothing. *)
Theorem set_fan_mode_writes {W S : Type} (h : handler W) (w : W) (s : S)
    (self : FanController) (mode : string) :
  exists w1 tr,
    exec h (set_fan_mode self mode s) w = (Ok tt, s, w1, tr)
    /\ sysfs_accesses tr = map fst (writes tr)
    /\ (mode = "max"%string ->
        writes tr = match hwmon_path self with
                    | Some d => [(Path d "pwm1_enable", "0"%string)]
                    | None => []
                    end)
    /\ (mode = "auto"%string ->
        writes tr = match hwmon_path self with
                    | Some d => [(Path d "pwm1_enable", "2"%string)]
                    | None => []
                    end)
    /\ (mode <> "max"%string -> mode <> "auto"%string -> writes tr = []).
Proof.
  destruct (set_fan_mode_run h w s self mode) as (w1 & tr & E & Wr & Acc).
  exists w1, tr. repeat split; try assumption.
  - intros ->. exact Wr.
  - intros ->. exact Wr.
  - intros N1 N2. rewrite Wr.
    apply String.eqb_neq in N1, N2. rewrite N1, N2.
    now destruct (hwmon_path self).
Qed.

(** X5. [set_fan_pwm] never raises.  When the hwmon directory was not
    found it does nothing at all.  Otherwise it writes 1 to [pwm1_enable]
    unless the text read from that file is exactly "1", and then always
    writes the value, in decimal, to [pwm1]; it writes nothing else. *)
Theorem set_fan_pwm_writes {W S : Type} (h : handler W) (w : W) (s : S)
    (self : FanController) (value : Z) :
  exists w1 tr,
    exec h (set_fan_pwm self value s) w = (Ok tt, s, w1, tr)
    /\ (hwmon_path self = None -> tr = [])
    /\ (forall d, hwmon_path self = Some d ->
          (reading h w (Some (Path d "pwm1_enable")) = Some "1"%string ->
           writes tr = [(Path d "pwm1", Py.str_of_int value)])
          /\ (reading h w (Some (Path d "pwm1_enable")) <> Some "1"%string ->
              writes tr = [(Path d "pwm1_enable", "1"%string);
                           (Path d "pwm1", Py.str_of_int value)])).
Proof.
  destruct (set_fan_pwm_run h w s self value) as (w1 & tr & E & Wr & N).
  exists w1, tr. repeat split; try assumption.
  - intros R. rewrite Wr. unfold pwm1_enable_path. rewrite H.
    cbn [option_map]. now rewrite R.
  - intros R. rewrite Wr. unfold pwm1_enable_path. rewrite H.
    cbn [option_map].
    destruct (reading h w (Some (Path d "pwm1_enable"))) as [t|]; [|reflexivity].
    cbn [is_manual]. destruct (String.eqb_spec t "1"); [congruence|reflexivity].
Qed.

Example set_fan_pwm_on_laptop :
  map (fun text =>
         writes (snd (exec Sim.run
                        (set_fan_pwm (Sim.fan_controller Config.defaults) 128 tt)
                        (Sim.with_files Sim.laptop
                           [(Path Sim.hwmon "pwm1_enable", text);
                            (Path Sim.hwmon "pwm1", "0"%string)]))))
      ["1
"; "2
"]%string
  = [[(Path Sim.hwmon "pwm1", "128")];
     [(Path Sim.hwmon "pwm1_enable", "1"); (Path Sim.hwmon "pwm1", "128")]]%string.
Proof. reflexivity. Qed.

(** ** Further properties: the curve engine *)

Lemma segment_value_within (m : string) (t lo hi : Q) (a b : point) :
  (fst a <= t)%Q -> (t <= fst b)%Q ->
  (lo <= snd a /\ snd a <= hi)%Q -> (lo <= snd b /\ snd b <= hi)%Q ->
  (lo <= segment_value m t a b /\ segment_value m t a b <= hi)%Q.
Proof.
  intros L U [La Ua] [Lb Ub]. unfold segment_value.
  destruct (String.eqb m "discrete"); [lra|].
  destruct (Qeq_bool_spec (fst b - fst a) 0) as [Z|Z]; [lra|].
  assert (P : (0 < fst b - fst a)%Q) by lra.
  set (r := ((t - fst a) / (fst b - fst a))%Q).
  assert (R0 : (0 <= r)%Q) by (apply Qle_shift_div_l; [assumption|lra]).
  assert (R1 : (r <= 1)%Q) by (apply Qle_shift_div_r; [assumption|lra]).
  assert (E : (snd a + r * (snd b - snd a)
               == (1 - r) * snd a + r * snd b)%Q) by ring.
  rewrite E. split; nra.
Qed.

Lemma scan_segments_within (m : string) (t lo hi : Q) (s : list point) (v : Q) :
  duties_within lo hi s -> scan_segments m t s = Some v ->
  (lo <= v /\ v <= hi)%Q.
Proof.
  revert v. induction s as [|a s IH]; intros v D Sv; [discriminate|].
  destruct s as [|b l]; [discriminate|].
  inversion D as [|? ? Da D']; subst.
  cbn [scan_segments] in Sv.
  destruct (Qle_bool (fst a) t && Qle_bool t (fst b)) eqn:C.
  - apply andb_prop in C. destruct C as [C1 C2].
    apply Qle_bool_iff in C1, C2. injection Sv as <-.
    apply segment_value_within; try assumption.
    now inversion D'.
  - now apply IH.
Qed.

Lemma percent_on_sorted_within (m : string) (t lo hi : Q) (s : list point) :
  s <> [] -> duties_within lo hi s ->
  (lo <= percent_on_sorted m t s /\ percent_on_sorted m t s <= hi)%Q.
Proof.
  intros N D. unfold duties_within in D.
  pose proof (proj1 (Forall_forall _ _) D) as In_within.
  destruct s as [|a l]; [congruence|].
  unfold percent_on_sorted. cbn [hd].
  destruct (Qle_bool_spec t (fst a)) as [A|A].
  - apply In_within. now left.
  - destruct (Qle_bool_spec (fst (last (a :: l) (0%Q, 0%Q))) t) as [Z|Z].
    + apply In_within. apply last_In. discriminate.
    + destruct (scan_segments_some m t a l A) as (v & Sv); [lra|].
      rewrite Sv. apply (scan_segments_within m t lo hi (a :: l) v D Sv).
Qed.

Lemma duties_within_perm (lo hi : Q) (c1 c2 : list point) :
  Permutation c1 c2 -> duties_within lo hi c1 -> duties_within lo hi c2.
Proof.
  unfold duties_within. intros P. now rewrite P.
Qed.

(** X6. The target stays between the least and the greatest duty of the
    curve; with duties from 0 to 100 percent the PWM value lies in 0..255,
    at every temperature and in either mode. *)
Theorem target_pwm_in_range (cfg : Config.t) (t : Q) :
  Config.curve cfg <> [] ->
  duties_within 0 100 (Config.curve cfg) ->
  exists v, calculate_target_pwm cfg t = Some v /\ 0 <= v <= 255.
Proof.
  intros N D. rewrite calculate_target_pwm_eq by assumption.
  eexists. split; [reflexivity|].
  assert (Ds : duties_within 0 100 (sorted (Config.curve cfg))).
  { apply (duties_within_perm 0 100 (Config.curve cfg)); [|assumption].
    symmetry. apply sorted_perm. }
  destruct (percent_on_sorted_within (Config.curve_interpolation cfg) t 0 100
              (sorted (Config.curve cfg)) (sorted_nonempty _ N) Ds) as [L U].
  split.
  - change 0 with (pwm_of_percent 0). now apply pwm_of_percent_mono.
  - change 255 with (pwm_of_percent 100). now apply pwm_of_percent_mono.
Qed.

Lemma target_pwm_in_range_witness :
  Config.curve (curve_config "smooth" example_curve) <> []
  /\ duties_within 0 100 (Config.curve (curve_config "smooth" example_curve))
  /\ exists v, calculate_target_pwm (curve_config "smooth" example_curve) 75
               = Some v /\ 0 <= v <= 255.
Proof.
  assert (N : Config.curve (curve_config "smooth" example_curve) <> [])
    by discriminate.
  assert (D : duties_within 0 100
                (Config.curve (curve_config "smooth" example_curve))).
  { repeat constructor; unfold Qle; simpl; lia. }
  exact (conj N (conj D (target_pwm_in_range _ 75 N D))).
Defined.

Lemma scan_segments_discrete_duty (t : Q) (s : list point) (v : Q) :
  scan_segments "discrete" t s = Some v -> exists p, In p s /\ v = snd p.
Proof.
  revert v. induction s as [|a s IH]; intros v Sv; [discriminate|].
  destruct s as [|b l]; [discriminate|].
  cbn [scan_segments] in Sv.
  destruct (Qle_bool (fst a) t && Qle_bool t (fst b)).
  - injection Sv as <-. exists a. split; [now left|reflexivity].
  - destruct (IH v Sv) as (p & I & E). exists p. split; [now right|assumption].
Qed.

(** X7. In discrete mode nothing is interpolated: at every temperature the
    result is the duty of one of the curve's points. *)
Theorem discrete_returns_a_duty (cfg : Config.t) (t : Q) :
  Config.curve cfg <> [] ->
  Config.curve_interpolation cfg = "discrete"%string ->
  exists p, In p (Config.curve cfg)
            /\ calculate_target_pwm cfg t = Some (pwm_of_percent (snd p)).
Proof.
  intros N Hm. rewrite calculate_target_pwm_eq by assumption. rewrite Hm.
  pose proof (sorted_nonempty _ N) as Ns.
  assert (Hp : exists p, In p (sorted (Config.curve cfg))
                         /\ percent_on_sorted "discrete" t
                              (sorted (Config.curve cfg)) = snd p).
  { destruct (sorted (Config.curve cfg)) as [|a l]; [congruence|].
    unfold percent_on_sorted. cbn [hd].
    destruct (Qle_bool_spec t (fst a)) as [A|A].
    - exists a. split; [now left|reflexivity].
    - destruct (Qle_bool_spec (fst (last (a :: l) (0%Q, 0%Q))) t) as [Z|Z].
      + eexists. split; [apply last_In; discriminate|reflexivity].
      + destruct (scan_segments_some "discrete" t a l A) as (v & Sv); [lra|].
        rewrite Sv. now apply scan_segments_discrete_duty in Sv. }
  destruct Hp as (p & I & E). exists p. split; [now apply sorted_In|].
  now rewrite E.
Qed.

Lemma discrete_returns_a_duty_witness :
  Config.curve (curve_config "discrete" example_curve) <> []
  /\ Config.curve_interpolation (curve_config "discrete" example_curve)
     = "discrete"%string
  /\ exists p, In p (Config.curve (curve_config "discrete" example_curve))
               /\ calculate_target_pwm (curve_config "discrete" example_curve) 75
                  = Some (pwm_of_percent (snd p)).
Proof.
  assert (N : Config.curve (curve_config "discrete" example_curve) <> [])
    by discriminate.
  exact (conj N (conj eq_refl (discrete_returns_a_duty _ 75 N eq_refl))).
Defined.

(** X8. A curve of a single point is a constant: its duty at every
    temperature, in either mode. *)
Theorem single_point_curve_constant (cfg : Config.t) (p : point) (t : Q) :
  Config.curve cfg = [p] ->
  calculate_target_pwm cfg t = Some (pwm_of_percent (snd p)).
Proof.
  intros E. rewrite calculate_target_pwm_eq by (rewrite E; discriminate).
  rewrite E. cbn [sorted fold_right insert_by_temp].
  unfold percent_on_sorted. cbn [hd last].
  destruct (Qle_bool_spec t (fst p)); [reflexivity|].
  destruct (Qle_bool_spec (fst p) t); [reflexivity|lra].
Qed.

Lemma single_point_curve_constant_witness :
  Config.curve (curve_config "smooth" [(50, 40)%Q]) = [(50, 40)%Q]
  /\ calculate_target_pwm (curve_config "smooth" [(50, 40)%Q]) 20 = Some 102.
Proof.
  exact (conj eq_refl
           (single_point_curve_constant (curve_config "smooth" [(50, 40)%Q])
              (50, 40)%Q 20 eq_refl)).
Defined.

(** X9. The conversion [int(round(percent / 100 * 255))], used for the
    curve and for the manual percentage of the command line: it does not
    decrease, it maps 0 to 0 and 100 to 255, whole percentages from 0 to
    100 land in 0..255, and two different whole percentages never give the
    same PWM value. *)
Theorem pwm_of_percent_scale :
  pwm_of_percent 0 = 0 /\ pwm_of_percent 100 = 255
  /\ (forall x y : Q, (x <= y)%Q -> pwm_of_percent x <= pwm_of_percent y)
  /\ (forall n : Z, 0 <= n <= 100 -> 0 <= pwm_of_percent (inject_Z n) <= 255)
  /\ (forall a b : Z, a < b ->
        pwm_of_percent (inject_Z a) < pwm_of_percent (inject_Z b))
  /\ (forall x : Q,
        (inject_Z (pwm_of_percent x) - (1 # 2) <= x * (51 # 20)
         /\ x * (51 # 20) <= inject_Z (pwm_of_percent x) + (1 # 2))%Q).
Proof.
  refine (conj eq_refl (conj eq_refl (conj pwm_of_percent_mono (conj _
            (conj pwm_of_percent_strict _))))).
  - intros n [L U]. split.
    + change 0 with (pwm_of_percent (inject_Z 0)).
      apply pwm_of_percent_mono. now rewrite <- Zle_Qle.
    + change 255 with (pwm_of_percent (inject_Z 100)).
      apply pwm_of_percent_mono. now rewrite <- Zle_Qle.
  - intros x. unfold pwm_of_percent.
    destruct (round_bounds (x / 100 * 255)) as [L U].
    assert (E : (x / 100 * 255 == x * (51 # 20))%Q) by field.
    revert L U. generalize (Py.round (x / 100 * 255)). intros r L U.
    setoid_rewrite E in L. setoid_rewrite E in U. now split.
Qed.

Lemma ascending_unique (s1 s2 : list point) :
  ascending s1 -> ascending s2 -> Permutation s1 s2 -> distinct_temps s1 ->
  s1 = s2.
Proof.
  revert s2. induction s1 as [|a1 s1 IH]; intros s2 A1 A2 P D.
  - apply Permutation_nil in P. now subst.
  - destruct s2 as [|a2 s2].
    { symmetry in P. now apply Permutation_nil in P. }
    assert (E : a1 = a2).
    { assert (I1 : In a1 (a2 :: s2)) by (apply (Permutation_in _ P); now left).
      assert (I2 : In a2 (a1 :: s1))
        by (apply (Permutation_in _ (Permutation_sym P)); now left).
      destruct I1 as [->|I1]; [reflexivity|].
      destruct I2 as [->|I2]; [reflexivity|].
      pose proof (ordered_head_least temp_le a2 s2 A2 a1 I1) as L1.
      pose proof (ordered_head_least temp_le a1 s1 A1 a2 I2) as L2.
      unfold temp_le in *.
      apply D; [now left|now right|lra]. }
    subst a2. f_equal. apply IH.
    + now inversion A1.
    + now inversion A2.
    + now apply Permutation_cons_inv in P.
    + intros p q Ip Iq. apply D; now right.
Qed.

Lemma sorted_unique (c1 c2 : list point) :
  Permutation c1 c2 -> distinct_temps c1 -> sorted c1 = sorted c2.
Proof.
  intros P D. apply ascending_unique; try apply sorted_ascending.
  - rewrite !sorted_perm. exact P.
  - intros p q Ip Iq. apply D; now apply sorted_In.
Qed.

(** X10. The order in which the points are stored does not matter, as
    long as two points of the same temperature are the same point: two
    configurations whose curves are permutations of each other give the
    same target at every temperature. *)
Theorem target_independent_of_order (cfg1 cfg2 : Config.t) (t : Q) :
  Permutation (Config.curve cfg1) (Config.curve cfg2) ->
  Config.curve_interpolation cfg1 = Config.curve_interpolation cfg2 ->
  distinct_temps (Config.curve cfg1) ->
  calculate_target_pwm cfg1 t = calculate_target_pwm cfg2 t.
Proof.
  intros P Hm D.
  destruct (Config.curve cfg1) as [|p l] eqn:E1.
  - apply Permutation_nil in P.
    unfold calculate_target_pwm, target_speed_percent. now rewrite E1, P.
  - assert (N2 : Config.curve cfg2 <> []).
    { intros E2. rewrite E2 in P. symmetry in P.
      now apply Permutation_nil in P. }
    rewrite !calculate_target_pwm_eq by (assumption || (rewrite E1; discriminate)).
    rewrite E1, Hm. now rewrite (sorted_unique _ _ P D).
Qed.

Lemma target_independent_of_order_witness :
  Permutation (Config.curve (curve_config "smooth" [(60, 40); (30, 0)]%Q))
              (Config.curve (curve_config "smooth" [(30, 0); (60, 40)]%Q))
  /\ Config.curve_interpolation (curve_config "smooth" [(60, 40); (30, 0)]%Q)
     = Config.curve_interpolation (curve_config "smooth" [(30, 0); (60, 40)]%Q)
  /\ distinct_temps (Config.curve (curve_config "smooth" [(60, 40); (30, 0)]%Q))
  /\ calculate_target_pwm (curve_config "smooth" [(60, 40); (30, 0)]%Q) 45
     = calculate_target_pwm (curve_config "smooth" [(30, 0); (60, 40)]%Q) 45.
Proof.
  assert (P : Permutation
                (Config.curve (curve_config "smooth" [(60, 40); (30, 0)]%Q))
                (Config.curve (curve_config "smooth" [(30, 0); (60, 40)]%Q)))
    by apply perm_swap.
  assert (D : distinct_temps
                (Config.curve (curve_config "smooth" [(60, 40); (30, 0)]%Q))).
  { intros p q [<-|[<-|[]]] [<-|[<-|[]]] E; try reflexivity; discriminate E. }
  exact (conj P (conj eq_refl (conj D
           (target_independent_of_order _ _ 45 P eq_refl D)))).
Defined.

(** With a temperature stored twice the order does matter: the sort is
    stable, and the first of the two points wins at that temperature. *)
Example order_matters_for_repeated_temperature :
  calculate_target_pwm (curve_config "smooth" [(60, 50); (60, 40)]%Q) 60 = Some 128
  /\ calculate_target_pwm (curve_config "smooth" [(60, 40); (60, 50)]%Q) 60 = Some 102.
Proof. split; reflexivity. Qed.

(** ** Further properties: the Smoother *)

Lemma push_and_average_run {W : Type} (h : handler W) (w : W) (s : Serve)
    (x : Z) :
  exec h (push_and_average x s) w
  = (match pushed (ma_window s) (temp_history s) x with
     | [] => Raise ZeroDivisionError
     | l => Ok (mean l)
     end,
     set_temp_history s (pushed (ma_window s) (temp_history s) x), w, []).
Proof.
  unfold push_and_average, pushed, bind, modify, get. simpl.
  destruct (Z.of_nat (List.length (temp_history s ++ [x])) >? ma_window s);
    simpl.
  - now destruct (tl (temp_history s ++ [x])).
  - now destruct (temp_history s ++ [x]).
Qed.

Lemma omen_cli_smoother_run {W : Type} (h : handler W) (w : W) (s : Serve)
    (x : Z) :
  let win := Config.ma_window (config (controller s)) in
  exec h (OmenCli.smoother x s) w
  = (match pushed win (temp_history s) x with
     | [] => Raise ZeroDivisionError
     | l => Ok (mean l)
     end,
     set_temp_history (set_ma_window s win) (pushed win (temp_history s) x),
     w, []).
Proof.
  cbv zeta. unfold OmenCli.smoother. unfold bind at 1, modify.
  cbn [prog_bind fst snd].
  exact (push_and_average_run h w
           (set_ma_window s (Config.ma_window (config (controller s)))) x).
Qed.

Lemma tl_skipn (n : nat) (l : list Z) : tl (skipn n l) = skipn (S n) l.
Proof.
  revert l. induction n as [|n IH]; intros [|a l]; try reflexivity.
  simpl. apply IH.
Qed.

Lemma pushed_length (win : Z) (hist : list Z) (x : Z) :
  List.length (pushed win hist x)
  = if Z.of_nat (List.length hist) <? win
    then Datatypes.S (List.length hist) else List.length hist.
Proof.
  unfold pushed. cbv zeta. rewrite length_app. simpl.
  destruct (Z.gtb_spec (Z.of_nat (List.length hist + 1)) win);
    destruct (Z.ltb_spec (Z.of_nat (List.length hist)) win); try lia.
  - destruct hist; simpl; [reflexivity|]. rewrite length_app. simpl. lia.
  - rewrite length_app. simpl. lia.
Qed.

Lemma pushed_latest (win : Z) (samples : list Z) (x : Z) :
  1 <= win ->
  pushed win (latest (Z.to_nat win) samples) x
  = latest (Z.to_nat win) (samples ++ [x]).
Proof.
  intros Hw. unfold pushed, latest. cbv zeta.
  rewrite !length_app, length_skipn. simpl.
  set (n := List.length samples). set (k := Z.to_nat win).
  assert (Hk : win = Z.of_nat k) by (unfold k; lia).
  destruct (Z.gtb_spec (Z.of_nat (n - (n - k) + 1)) win) as [G|G].
  - assert (k <= n)%nat by lia.
    replace (n + 1 - k)%nat with (Datatypes.S (n - k)) by lia.
    rewrite <- tl_skipn. f_equal.
    rewrite skipn_app. fold n. replace (n - k - n)%nat with 0%nat by lia.
    reflexivity.
  - assert (n < k)%nat by lia.
    replace (n - k)%nat with 0%nat by lia.
    replace (n + 1 - k)%nat with 0%nat by lia. reflexivity.
Qed.

(** X11. With a window length that stays put ([ma_window >= 1]) the
    history is always the most recent [ma_window] samples: if it holds the
    latest samples of a sequence, then after a push it holds the latest of
    the sequence extended by the new sample, and the value returned is
    their arithmetic mean.  (The empty history is the latest of the
    empty sequence.)  Nothing in the outside world is touched. *)
Theorem smoother_keeps_latest {W : Type} (h : handler W) (w : W) (s : Serve)
    (samples : list Z) (x : Z) :
  1 <= ma_window s ->
  temp_history s = latest (Z.to_nat (ma_window s)) samples ->
  let now := latest (Z.to_nat (ma_window s)) (samples ++ [x]) in
  exec h (Packaged.smoother x s) w
  = (Ok (mean now), set_temp_history s now, w, [])
  /\ (List.length now <= Z.to_nat (ma_window s))%nat
  /\ last now 0 = x.
Proof.
  intros Hw Hh. cbv zeta. unfold Packaged.smoother.
  rewrite push_and_average_run, Hh, pushed_latest by assumption.
  assert (L : last (latest (Z.to_nat (ma_window s)) (samples ++ [x])) 0 = x).
  { unfold latest. rewrite length_app. simpl.
    rewrite skipn_app.
    replace (List.length samples + 1 - Z.to_nat (ma_window s)
             - List.length samples)%nat with 0%nat by lia.
    simpl. apply last_last. }
  repeat split.
  - destruct (latest (Z.to_nat (ma_window s)) (samples ++ [x])) eqn:E;
      [|reflexivity].
    apply (f_equal (@List.length Z)) in E. unfold latest in E.
    rewrite length_skipn, length_app in E. simpl in E. lia.
  - unfold latest. rewrite length_skipn. lia.
  - exact L.
Qed.

Lemma smoother_keeps_latest_witness :
  let s := set_temp_history
             (serve_locals (Sim.fan_controller Config.defaults) 0)
             [41; 42; 43; 44; 45] in
  1 <= ma_window s
  /\ temp_history s = latest (Z.to_nat (ma_window s)) [40; 41; 42; 43; 44; 45]
  /\ fst (fst (exec Sim.run (Packaged.smoother 50 s) Sim.laptop))
     = (Ok (mean [42; 43; 44; 45; 50]), set_temp_history s [42; 43; 44; 45; 50]).
Proof.
  cbv zeta.
  assert (Hw : 1 <= ma_window
                      (set_temp_history
                         (serve_locals (Sim.fan_controller Config.defaults) 0)
                         [41; 42; 43; 44; 45])) by (simpl; lia).
  refine (conj Hw (conj eq_refl _)).
  exact (f_equal (fun r => fst (fst r))
           (proj1 (smoother_keeps_latest Sim.run Sim.laptop _
                     [40; 41; 42; 43; 44; 45] 50 Hw eq_refl))).
Defined.

(** X12. [omen_cli.py]: the push uses the window length of the current
    configuration, and evicts at most one entry.  The history grows by one
    while it is shorter than the window and keeps its length otherwise; it
    never gets shorter, so after the window has been lowered below the
    current length the history stays longer than the window (one in, one
    out). *)
Theorem smoother_never_shrinks {W : Type} (h : handler W) (w : W) (s : Serve)
    (x : Z) :
  let win := Config.ma_window (config (controller s)) in
  let n := List.length (temp_history s) in
  let s' := final_state (exec h (OmenCli.smoother x s) w) in
  ma_window s' = win
  /\ List.length (temp_history s')
     = (if Z.of_nat n <? win then Datatypes.S n else n)
  /\ (n <= List.length (temp_history s'))%nat
  /\ (win < Z.of_nat n ->
      win < Z.of_nat (List.length (temp_history s'))
      /\ (temp_history s <> [] ->
          temp_history s' = tl (temp_history s) ++ [x])).
Proof.
  cbv zeta. unfold final_state. rewrite omen_cli_smoother_run. cbn [fst snd].
  cbn [temp_history ma_window set_temp_history set_ma_window].
  pose proof (pushed_length (Config.ma_window (config (controller s)))
                (temp_history s) x) as L.
  repeat split.
  - exact L.
  - rewrite L. clear L.
    destruct (Z.ltb (Z.of_nat (List.length (temp_history s)))
                (Config.ma_window (config (controller s)))); lia.
  - rewrite L.
    destruct (Z.ltb_spec (Z.of_nat (List.length (temp_history s)))
                (Config.ma_window (config (controller s)))); lia.
  - intros N. unfold pushed. cbv zeta. rewrite length_app. simpl.
    destruct (Z.gtb_spec (Z.of_nat (List.length (temp_history s) + 1))
                (Config.ma_window (config (controller s)))); [|lia].
    destruct (temp_history s); [congruence|reflexivity].
Qed.

Example lowered_window_keeps_five_entries :
  let cfg := Config.mk 0 30 90 2 [] "auto" 0 "smooth" in
  let s := set_temp_history (serve_locals (Sim.fan_controller cfg) 0)
             [41; 42; 43; 44; 45] in
  temp_history (final_state (exec Sim.run (OmenCli.smoother 50 s) Sim.laptop))
  = [42; 43; 44; 45; 50].
Proof. reflexivity. Qed.

(** X13. The Smoother fails in exactly one situation: an empty history
    and a window length of zero or less.  The sample is then appended and
    evicted at once, and the mean of nothing raises [ZeroDivisionError];
    in every other case a mean is returned. *)
Theorem smoother_division_by_zero {W : Type} (h : handler W) (w : W)
    (s : Serve) (x : Z) :
  let r := fst (fst (exec h (Packaged.smoother x s) w)) in
  (fst r = Raise ZeroDivisionError
   <-> temp_history s = [] /\ ma_window s <= 0)
  /\ (temp_history s <> [] \/ 1 <= ma_window s ->
      fst r = Ok (mean (temp_history (snd r))) /\ temp_history (snd r) <> []).
Proof.
  cbv zeta. unfold Packaged.smoother. rewrite push_and_average_run.
  cbn [fst snd temp_history set_temp_history].
  pose proof (pushed_length (ma_window s) (temp_history s) x) as L.
  destruct (pushed (ma_window s) (temp_history s) x) as [|y l] eqn:E.
  - simpl in L.
    destruct (Z.ltb_spec (Z.of_nat (List.length (temp_history s))) (ma_window s));
      [discriminate|].
    destruct (temp_history s); [|discriminate]. simpl in *.
    split; [split; [intros _; split; [reflexivity|lia]|reflexivity]|].
    intros [N|N]; [congruence|lia].
  - split; [|intros _; split; [reflexivity|discriminate]].
    split; [discriminate|]. intros [Hh Hw]. rewrite Hh in L. simpl in L.
    destruct (Z.ltb_spec 0 (ma_window s)); [lia|discriminate].
Qed.

Lemma sum_within (lo hi : Z) (l : list Z) :
  (forall y, In y l -> lo <= y <= hi) ->
  lo * Z.of_nat (List.length l) <= fold_right Z.add 0 l
                                <= hi * Z.of_nat (List.length l).
Proof.
  induction l as [|a l IH]; intros Hb; [simpl; lia|].
  assert (Ha : lo <= a <= hi) by (apply Hb; now left).
  assert (Hl : forall y, In y l -> lo <= y <= hi) by (intros; apply Hb; now right).
  specialize (IH Hl). cbn [fold_right List.length]. lia.
Qed.

Lemma mean_within (lo hi : Z) (l : list Z) :
  l <> [] -> (forall y, In y l -> lo <= y <= hi) ->
  (inject_Z lo <= mean l /\ mean l <= inject_Z hi)%Q.
Proof.
  intros N Hb. pose proof (sum_within lo hi l Hb) as [L U].
  assert (P : (0 < inject_Z (Z.of_nat (List.length l)))%Q).
  { change 0%Q with (inject_Z 0). rewrite <- Zlt_Qlt.
    destruct l; [congruence|simpl; lia]. }
  unfold mean. split.
  - apply Qle_shift_div_l; [assumption|].
    rewrite <- inject_Z_mult, <- Zle_Qle. exact L.
  - apply Qle_shift_div_r; [assumption|].
    rewrite <- inject_Z_mult, <- Zle_Qle. exact U.
Qed.

Lemma mean_single (x : Z) : (mean [x] == inject_Z x)%Q.
Proof.
  unfold mean. cbn [fold_right List.length]. rewrite Z.add_0_r.
  unfold Qdiv. change (/ inject_Z (Z.of_nat 1))%Q with 1%Q.
  apply Qmult_1_r.
Qed.

(** X14. The average never leaves the range of the samples it covers:
    when every entry of the history after the push lies between [lo] and
    [hi], so does the value returned.  With a window of one it is the
    sample itself. *)
Theorem smoother_average_within {W : Type} (h : handler W) (w : W)
    (s : Serve) (x lo hi : Z) (avg : Q) :
  let r := fst (fst (exec h (Packaged.smoother x s) w)) in
  fst r = Ok avg ->
  (forall y, In y (temp_history (snd r)) -> lo <= y <= hi) ->
  (inject_Z lo <= avg /\ avg <= inject_Z hi)%Q
  /\ (ma_window s = 1 -> (List.length (temp_history s) <= 1)%nat ->
      (avg == inject_Z x)%Q).
Proof.
  cbv zeta. unfold Packaged.smoother. rewrite push_and_average_run.
  cbn [fst snd temp_history set_temp_history].
  destruct (pushed (ma_window s) (temp_history s) x) as [|y l] eqn:E;
    [discriminate|].
  intros [= <-] Hb. split.
  - apply mean_within; [discriminate|assumption].
  - intros Hw Hl. rewrite Hw in E. unfold pushed in E.
    destruct (temp_history s) as [|a [|b t]]; simpl in *; try lia;
      injection E as <- <-; apply mean_single.
Qed.

Lemma smoother_average_within_witness :
  let s := set_temp_history
             (serve_locals (Sim.fan_controller Config.defaults) 0) [40; 44] in
  let r := fst (fst (exec Sim.run (Packaged.smoother 48 s) Sim.laptop)) in
  fst r = Ok (mean [40; 44; 48])
  /\ (forall y, In y (temp_history (snd r)) -> 40 <= y <= 48)
  /\ (inject_Z 40 <= mean [40; 44; 48]%Z /\ mean [40; 44; 48]%Z <= inject_Z 48)%Q.
Proof.
  cbv zeta.
  assert (Hb : forall y,
             In y (temp_history
                     (snd (fst (fst (exec Sim.run
                        (Packaged.smoother 48
                           (set_temp_history
                              (serve_locals (Sim.fan_controller Config.defaults) 0)
                              [40; 44])) Sim.laptop))))) -> 40 <= y <= 48).
  { simpl. intros y [<-|[<-|[<-|[]]]]; lia. }
  refine (conj eq_refl (conj Hb _)).
  exact (proj1 (smoother_average_within Sim.run Sim.laptop
                  (set_temp_history
                     (serve_locals (Sim.fan_controller Config.defaults) 0)
                     [40; 44])
                  48 40 48 (mean [40; 44; 48]) eq_refl Hb)).
Defined.

(** X15. The two copies of the loop differ in the window they use.  In
    [src/omen_fan_control/cli.py] the window length is the one read before
    the loop: replacing the configuration changes neither the result of
    the next push nor the history it leaves.  In [omen_cli.py] the next
    push adopts the [ma_window] of the configuration in force. *)
Theorem window_length_in_force {W : Type} (h : handler W) (w : W)
    (s : Serve) (cfg : Config.t) (x : Z) :
  let reloaded := set_controller s (set_config (controller s) cfg) in
  let before := fst (fst (exec h (Packaged.smoother x s) w)) in
  let after := fst (fst (exec h (Packaged.smoother x reloaded) w)) in
  let omen := fst (fst (exec h (OmenCli.smoother x reloaded) w)) in
  fst after = fst before
  /\ temp_history (snd after) = temp_history (snd before)
  /\ ma_window (snd after) = ma_window s
  /\ ma_window (snd omen) = Config.ma_window cfg
  /\ temp_history (snd omen)
     = pushed (Config.ma_window cfg) (temp_history s) x.
Proof.
  cbv zeta. unfold Packaged.smoother.
  rewrite !push_and_average_run, omen_cli_smoother_run.
  repeat split.
Qed.

(** ** Further properties: the ActuationGovernor *)

Lemma sysfs_accesses_app (tr1 tr2 : list event) :
  sysfs_accesses (tr1 ++ tr2) = sysfs_accesses tr1 ++ sysfs_accesses tr2.
Proof. apply flat_map_app. Qed.

Lemma clock_readings_app (tr1 tr2 : list event) :
  clock_readings (tr1 ++ tr2) = clock_readings tr1 ++ clock_readings tr2.
Proof. apply flat_map_app. Qed.

Lemma no_clock_readings (tr : list event) :
  Forall (fun ev => match ev with EvTime _ => False | _ => True end) tr ->
  clock_readings tr = [].
Proof.
  induction 1 as [|ev tr Hev _ IH]; [reflexivity|].
  unfold clock_readings in *. simpl. rewrite IH. now destruct ev.
Qed.

Lemma set_fan_pwm_no_clock {S : Type} (self : FanController) (value : Z) (s : S) :
  always (fun ev => match ev with EvTime _ => False | _ => True end)
         (fun _ => True) (set_fan_pwm self value s).
Proof.
  assert (R : forall p (s : S),
             always (fun ev => match ev with EvTime _ => False | _ => True end)
                    (fun _ : result (option string) * S => True)
                    (read_sys_file p s)).
  { intros [p|] s0; [|now constructor].
    unfold read_sys_file, bind, perform. simpl.
    constructor; [intros; exact I|]. intros [|]; simpl; [|now constructor].
    constructor; [intros; exact I|]. intros [text|]; simpl; [now constructor|].
    constructor; [intros; exact I|]. intros []. now constructor. }
  assert (Wr : forall p v (s : S),
             always (fun ev => match ev with EvTime _ => False | _ => True end)
                    (fun _ : result unit * S => True)
                    (write_sys_file p v s)).
  { intros [p|] v s0; [|now constructor].
    unfold write_sys_file, bind, perform. simpl.
    constructor; [intros; exact I|]. intros [| |]; simpl.
    - now constructor.
    - constructor; [intros; exact I|]. intros []. now constructor.
    - constructor; [intros; exact I|]. intros []. now constructor. }
  unfold set_fan_pwm.
  apply (always_bind _ (fun _ => True)); [apply R| |trivial].
  intros a s' _.
  apply (always_bind _ (fun _ => True)); [|intros; apply Wr|trivial].
  destruct (negb (is_manual a)); [apply Wr|now constructor].
Qed.

(** The write with which the governor ends when it applies the target. *)
Lemma governor_apply_run {W : Type} (h : handler W) (w : W) (s : Serve)
    (target_pwm : Z) :
  exists w1 tr,
    exec h ((s0 <- get ;;
             set_fan_pwm (controller s0) target_pwm ;;
             modify (fun s => set_hysteresis_start_time s None))%py s) w
    = (Ok tt, set_hysteresis_start_time s None, w1, tr)
    /\ writes tr
       = pwm_writes (controller s)
           (reading h w (pwm1_enable_path (controller s))) target_pwm
    /\ clock_readings tr = [].
Proof.
  unfold bind at 1, get. cbn [prog_bind fst snd].
  unfold bind at 1. rewrite exec_bind.
  destruct (set_fan_pwm_run h w s (controller s) target_pwm)
    as (w1 & tr & E & Wr & _).
  pose proof (always_exec _ _ _ h w
                (set_fan_pwm_no_clock (controller s) target_pwm s)) as [_ F].
  rewrite E in F |- *. cbn [fst snd] in F |- *.
  unfold modify. cbn [exec].
  exists w1, (tr ++ []). repeat split.
  - rewrite app_nil_r. exact Wr.
  - rewrite app_nil_r. now apply no_clock_readings.
Qed.

Lemma governor_applies_run {W : Type} (h : handler W) (w : W) (s : Serve)
    (target_pwm current_rpm max_rpm : Z) :
  max_rpm <= 0 \/ (200 < rpm_diff target_pwm current_rpm max_rpm)%Q ->
  exists w1 tr,
    exec h (actuation_governor target_pwm current_rpm max_rpm s) w
    = (Ok tt, set_hysteresis_start_time s None, w1, tr)
    /\ writes tr
       = pwm_writes (controller s)
           (reading h w (pwm1_enable_path (controller s))) target_pwm
    /\ clock_readings tr = [].
Proof.
  intros Hc. unfold actuation_governor. unfold bind at 1.
  match goal with |- context [prog_bind _ ?k] => set (K := k) end.
  rewrite exec_bind.
  fold (rpm_diff target_pwm current_rpm max_rpm).
  destruct (Z.gtb_spec max_rpm 0) as [Hm|Hm].
  - destruct Hc as [Hc|Hc]; [lia|].
    destruct (Qle_bool_spec (rpm_diff target_pwm current_rpm max_rpm) 200)
      as [L|L]; [lra|].
    unfold bind, modify, ret. cbn [prog_bind exec fst snd].
    subst K. cbn [fst snd].
    destruct (governor_apply_run h w (set_hysteresis_start_time s None)
                target_pwm) as (w1 & tr & E & Wr & Ck).
    rewrite E. exists w1, tr. now repeat split.
  - unfold ret. cbn [exec fst snd]. subst K. cbn [fst snd].
    destruct (governor_apply_run h w s target_pwm) as (w1 & tr & E & Wr & Ck).
    rewrite E. exists w1, tr. now repeat split.
Qed.

(** Runs the governor up to the decision, inside the band of 200 RPM. *)
Ltac governor_in_band Hm Hd Hs :=
  unfold actuation_governor; unfold bind at 1;
  match goal with |- context [prog_bind _ ?k] => set (K := k) end;
  rewrite exec_bind;
  match type of Hd with
  | (rpm_diff ?t ?c ?m <= _)%Q => fold (rpm_diff t c m)
  end;
  match type of Hm with
  | 0 < ?m => destruct (Z.gtb_spec m 0) as [_|]; [|lia]
  end;
  match type of Hd with
  | (?d <= _)%Q => destruct (Qle_bool_spec d 200) as [_|]; [|lra]
  end;
  unfold bind at 1, get; cbn [prog_bind fst snd]; rewrite Hs;
  unfold bind, ret, perform, modify;
  cbn [prog_bind exec fst snd event_of].

Lemma governor_holding_run {W : Type} (h : handler W) (w : W) (s : Serve)
    (target_pwm current_rpm max_rpm : Z) (start : Q) :
  0 < max_rpm -> (rpm_diff target_pwm current_rpm max_rpm <= 200)%Q ->
  hysteresis_start_time s = Some start ->
  let now := fst (h _ Time w) in
  let w1 := snd (h _ Time w) in
  ((now - start <= 60)%Q ->
   exec h (actuation_governor target_pwm current_rpm max_rpm s) w
   = (Ok tt, s, w1, [EvTime now]))
  /\ ((60 < now - start)%Q ->
      exists w2 tr,
        exec h (actuation_governor target_pwm current_rpm max_rpm s) w
        = (Ok tt, set_hysteresis_start_time s None, w2, EvTime now :: tr)
        /\ writes tr
           = pwm_writes (controller s)
               (reading h w1 (pwm1_enable_path (controller s))) target_pwm
        /\ clock_readings tr = []).
Proof.
  intros Hm Hd Hs. cbv zeta. split; intros Hle.
  - governor_in_band Hm Hd Hs.
    destruct (h Q Time w) as [now w1]. cbn [fst snd] in *.
    unfold Qgt_bool.
    destruct (Qle_bool_spec (now - start) 60) as [L|L]; [|lra].
    subst K. reflexivity.
  - governor_in_band Hm Hd Hs.
    destruct (h Q Time w) as [now w1]. cbn [fst snd] in *.
    unfold Qgt_bool.
    destruct (Qle_bool_spec (now - start) 60) as [L|L]; [lra|].
    subst K. cbn [negb fst snd].
    destruct (governor_apply_run h w1 s target_pwm) as (w2 & tr & E & Wr & Ck).
    rewrite E. exists w2, tr. now repeat split.
Qed.

Lemma governor_starting_run {W : Type} (h : handler W) (w : W) (s : Serve)
    (target_pwm current_rpm max_rpm : Z) :
  0 < max_rpm -> (rpm_diff target_pwm current_rpm max_rpm <= 200)%Q ->
  hysteresis_start_time s = None ->
  let start := fst (h _ Time w) in
  let w1 := snd (h _ Time w) in
  let now := fst (h _ Time w1) in
  let w2 := snd (h _ Time w1) in
  ((now - start <= 60)%Q ->
   exec h (actuation_governor target_pwm current_rpm max_rpm s) w
   = (Ok tt, set_hysteresis_start_time s (Some start), w2,
      [EvTime start; EvTime now]))
  /\ ((60 < now - start)%Q ->
      exists w3 tr,
        exec h (actuation_governor target_pwm current_rpm max_rpm s) w
        = (Ok tt, set_hysteresis_start_time s None, w3,
           EvTime start :: EvTime now :: tr)
        /\ writes tr
           = pwm_writes (controller s)
               (reading h w2 (pwm1_enable_path (controller s))) target_pwm
        /\ clock_readings tr = []).
Proof.
  intros Hm Hd Hs. cbv zeta. split; intros Hle.
  - governor_in_band Hm Hd Hs.
    destruct (h Q Time w) as [start w1]. cbn [fst snd] in *.
    destruct (h Q Time w1) as [now w2]. cbn [fst snd] in *.
    unfold Qgt_bool.
    destruct (Qle_bool_spec (now - start) 60) as [L|L]; [|lra].
    subst K. reflexivity.
  - governor_in_band Hm Hd Hs.
    destruct (h Q Time w) as [start w1]. cbn [fst snd] in *.
    destruct (h Q Time w1) as [now w2]. cbn [fst snd] in *.
    unfold Qgt_bool.
    destruct (Qle_bool_spec (now - start) 60) as [L|L]; [lra|].
    subst K. cbn [negb fst snd].
    destruct (governor_apply_run h w2
                (set_hysteresis_start_time s (Some start)) target_pwm)
      as (w3 & tr & E & Wr & Ck).
    rewrite E. exists w3, tr. now repeat split.
Qed.

(** X16. Uncalibrated ([fan_max <= 0]) or more than 200 RPM away from the
    target: the governor applies the target at once.  It never raises,
    does not look at the clock, performs exactly the writes of
    [set_fan_pwm] and leaves no hold pending. *)
Theorem governor_applies_at_once {W : Type} (h : handler W) (w : W)
    (s : Serve) (target_pwm current_rpm max_rpm : Z) :
  max_rpm <= 0 \/ (200 < rpm_diff target_pwm current_rpm max_rpm)%Q ->
  exists w1 tr,
    exec h (actuation_governor target_pwm current_rpm max_rpm s) w
    = (Ok tt, set_hysteresis_start_time s None, w1, tr)
    /\ writes tr
       = pwm_writes (controller s)
           (reading h w (pwm1_enable_path (controller s))) target_pwm
    /\ clock_readings tr = [].
Proof. apply governor_applies_run. Qed.

Lemma governor_applies_at_once_witness :
  (0 <= 0 \/ (200 < rpm_diff 255 1250 0)%Q)
  /\ exists w1 tr,
       exec Sim.run (actuation_governor 255 1250 0 (calibrated_locals (Some 990%Q)))
            Sim.laptop
       = (Ok tt, set_hysteresis_start_time (calibrated_locals (Some 990%Q)) None,
          w1, tr)
       /\ writes tr
          = pwm_writes (controller (calibrated_locals (Some 990%Q)))
              (reading Sim.run Sim.laptop
                 (pwm1_enable_path (controller (calibrated_locals (Some 990%Q)))))
              255
       /\ clock_readings tr = [].
Proof.
  assert (H : 0 <= 0 \/ (200 < rpm_diff 255 1250 0)%Q) by (left; lia).
  exact (conj H (governor_applies_at_once Sim.run Sim.laptop
                   (calibrated_locals (Some 990%Q)) 255 1250 0 H)).
Defined.

(** X17. Calibrated and less than 200 RPM away from the target, the
    governor suppresses the write.  With no hold pending it reads the
    clock twice and, provided the second reading is at most 60 seconds
    after the first, records the first reading as the start of the hold
    and touches nothing else.  With a hold pending that started at most 60
    seconds before the clock reading, it reads the clock once and leaves
    every local variable as it was: the start of the hold is not moved,
    whatever the target.  (A difference of exactly 200 RPM is left out: in
    binary64 it can come out above 200, [binary64_band_edge].) *)
Theorem governor_suppresses_in_band {W : Type} (h : handler W) (w : W)
    (s : Serve) (target_pwm current_rpm max_rpm : Z) :
  0 < max_rpm -> (rpm_diff target_pwm current_rpm max_rpm < 200)%Q ->
  let t1 := fst (h _ Time w) in
  let w1 := snd (h _ Time w) in
  let t2 := fst (h _ Time w1) in
  let w2 := snd (h _ Time w1) in
  (hysteresis_start_time s = None -> (t2 - t1 <= 60)%Q ->
   exec h (actuation_governor target_pwm current_rpm max_rpm s) w
   = (Ok tt, set_hysteresis_start_time s (Some t1), w2,
      [EvTime t1; EvTime t2]))
  /\ (forall start, hysteresis_start_time s = Some start ->
        (t1 - start <= 60)%Q ->
        exec h (actuation_governor target_pwm current_rpm max_rpm s) w
        = (Ok tt, s, w1, [EvTime t1])).
Proof.
  intros Hm Hd. apply Qlt_le_weak in Hd. cbv zeta. split.
  - intros Hs. apply (governor_starting_run h w s _ _ _ Hm Hd Hs).
  - intros start Hs. apply (governor_holding_run h w s _ _ _ start Hm Hd Hs).
Qed.

Lemma governor_suppresses_in_band_witness :
  0 < 6000 /\ (rpm_diff 51 1250 6000 < 200)%Q
  /\ exec Sim.run (actuation_governor 51 1250 6000 (calibrated_locals None))
          Sim.laptop
     = (Ok tt, calibrated_locals (Some 1000%Q), Sim.laptop,
        [EvTime 1000; EvTime 1000])
  /\ exec Sim.run (actuation_governor 51 1250 6000 (calibrated_locals (Some 990%Q)))
          Sim.laptop
     = (Ok tt, calibrated_locals (Some 990%Q), Sim.laptop, [EvTime 1000]).
Proof.
  assert (Hm : 0 < 6000) by lia.
  assert (Hd : (rpm_diff 51 1250 6000 < 200)%Q) by reflexivity.
  assert (L1 : (1000 - 1000 <= 60)%Q) by (unfold Qle; simpl; lia).
  assert (L2 : (1000 - 990 <= 60)%Q) by (unfold Qle; simpl; lia).
  refine (conj Hm (conj Hd (conj _ _))).
  - exact (proj1 (governor_suppresses_in_band Sim.run Sim.laptop
                    (calibrated_locals None) 51 1250 6000 Hm Hd) eq_refl L1).
  - exact (proj2 (governor_suppresses_in_band Sim.run Sim.laptop
                    (calibrated_locals (Some 990%Q)) 51 1250 6000 Hm Hd)
             990%Q eq_refl L2).
Defined.

(** X18. A hold that has lasted more than 60 seconds is released:
    calibrated and less than 200 RPM away from the target, with the hold
    started at [start] and the clock now more than 60 seconds later, the
    governor reads the clock once, applies the target of this pass (not
    the one that started the hold) with the writes of [set_fan_pwm], and
    clears the hold.  (At a difference of exactly 200 RPM the hold is
    released as well, but binary64 can see more than 200 and then the
    clock is not read, [binary64_band_edge]; that case is left out.) *)
Theorem governor_releases_stale_hold {W : Type} (h : handler W) (w : W)
    (s : Serve) (target_pwm current_rpm max_rpm : Z) (start : Q) :
  0 < max_rpm -> (rpm_diff target_pwm current_rpm max_rpm < 200)%Q ->
  hysteresis_start_time s = Some start ->
  (60 < fst (h _ Time w) - start)%Q ->
  exists w2 tr,
    exec h (actuation_governor target_pwm current_rpm max_rpm s) w
    = (Ok tt, set_hysteresis_start_time s None, w2,
       EvTime (fst (h _ Time w)) :: tr)
    /\ writes tr
       = pwm_writes (controller s)
           (reading h (snd (h _ Time w)) (pwm1_enable_path (controller s)))
           target_pwm
    /\ clock_readings tr = [].
Proof.
  intros Hm Hd Hs. apply Qlt_le_weak in Hd.
  apply (governor_holding_run h w s _ _ _ start Hm Hd Hs).
Qed.

Lemma governor_releases_stale_hold_witness :
  0 < 6000 /\ (rpm_diff 51 1250 6000 < 200)%Q
  /\ hysteresis_start_time (calibrated_locals (Some 939%Q)) = Some 939%Q
  /\ (60 < fst (Sim.run _ Time Sim.laptop) - 939)%Q
  /\ exists w2 tr,
       exec Sim.run
            (actuation_governor 51 1250 6000 (calibrated_locals (Some 939%Q)))
            Sim.laptop
       = (Ok tt, set_hysteresis_start_time (calibrated_locals (Some 939%Q)) None,
          w2, EvTime (fst (Sim.run _ Time Sim.laptop)) :: tr)
       /\ writes tr
          = pwm_writes (controller (calibrated_locals (Some 939%Q)))
              (reading Sim.run (snd (Sim.run _ Time Sim.laptop))
                 (pwm1_enable_path (controller (calibrated_locals (Some 939%Q)))))
              51
       /\ clock_readings tr = [].
Proof.
  assert (Hm : 0 < 6000) by lia.
  assert (Hd : (rpm_diff 51 1250 6000 < 200)%Q) by reflexivity.
  assert (L : (60 < fst (Sim.run _ Time Sim.laptop) - 939)%Q) by reflexivity.
  exact (conj Hm (conj Hd (conj eq_refl (conj L
           (governor_releases_stale_hold Sim.run Sim.laptop
              (calibrated_locals (Some 939%Q)) 51 1250 6000 939%Q
              Hm Hd eq_refl L))))).
Defined.

Example governor_after_61_seconds :
  writes (snd (exec Sim.run
                 (actuation_governor 51 1250 6000 (calibrated_locals (Some 939%Q)))
                 Sim.laptop))
  = [(Path Sim.hwmon "pwm1", "51"%string)].
Proof. reflexivity. Qed.

(** X19. On every pass the governor returns normally and changes no
    local but the hold.  It ends in one of two ways: the target was
    applied ([set_fan_pwm]'s writes, nothing else written) and no hold is
    pending; or nothing in sysfs was touched, a hold is pending, and the
    fan is calibrated and within 200 RPM of the target. *)
Theorem governor_hold_or_write {W : Type} (h : handler W) (w : W)
    (s : Serve) (target_pwm current_rpm max_rpm : Z) :
  exists s' w1 tr,
    exec h (actuation_governor target_pwm current_rpm max_rpm s) w
    = (Ok tt, s', w1, tr)
    /\ s' = set_hysteresis_start_time s (hysteresis_start_time s')
    /\ ((hysteresis_start_time s' = None
         /\ exists enable,
              writes tr = pwm_writes (controller s) enable target_pwm)
        \/ (hysteresis_start_time s' <> None
            /\ sysfs_accesses tr = []
            /\ 0 < max_rpm
            /\ (rpm_diff target_pwm current_rpm max_rpm <= 200)%Q)).
Proof.
  destruct (Z_le_gt_dec max_rpm 0) as [Hm|Hm].
  { destruct (governor_applies_run h w s target_pwm current_rpm max_rpm
                (or_introl Hm)) as (w1 & tr & E & Wr & _).
    exists (set_hysteresis_start_time s None), w1, tr.
    split; [assumption|]. split; [reflexivity|]. left. eauto. }
  apply Z.gt_lt in Hm.
  destruct (Qlt_le_dec 200 (rpm_diff target_pwm current_rpm max_rpm)) as [Hd|Hd].
  { destruct (governor_applies_run h w s target_pwm current_rpm max_rpm
                (or_intror Hd)) as (w1 & tr & E & Wr & _).
    exists (set_hysteresis_start_time s None), w1, tr.
    split; [assumption|]. split; [reflexivity|]. left. eauto. }
  destruct (hysteresis_start_time s) as [start|] eqn:Hs.
  - destruct (governor_holding_run h w s _ _ _ start Hm Hd Hs) as [Hold Rel].
    destruct (Qlt_le_dec 60 (fst (h _ Time w) - start)) as [L|L].
    + destruct (Rel L) as (w2 & tr & E & Wr & _).
      exists (set_hysteresis_start_time s None), w2,
        (EvTime (fst (h _ Time w)) :: tr).
      split; [assumption|]. split; [reflexivity|]. left. eauto.
    + exists s, (snd (h _ Time w)), [EvTime (fst (h _ Time w))].
      split; [now apply Hold|]. rewrite Hs.
      split; [destruct s; simpl in *; now subst|].
      right. repeat split; auto. discriminate.
  - destruct (governor_starting_run h w s _ _ _ Hm Hd Hs) as [Hold Rel].
    set (t1 := fst (h _ Time w)) in *. set (w1 := snd (h _ Time w)) in *.
    destruct (Qlt_le_dec 60 (fst (h _ Time w1) - t1)) as [L|L].
    + destruct (Rel L) as (w3 & tr & E & Wr & _).
      exists (set_hysteresis_start_time s None), w3,
        (EvTime t1 :: EvTime (fst (h _ Time w1)) :: tr).
      split; [assumption|]. split; [reflexivity|]. left. eauto.
    + exists (set_hysteresis_start_time s (Some t1)), (snd (h _ Time w1)),
        [EvTime t1; EvTime (fst (h _ Time w1))].
      split; [now apply Hold|]. split; [reflexivity|].
      right. repeat split; auto. discriminate.
Qed.

(** ** Further properties: a pass of the daemon loop *)

Lemma sleeps_app (tr1 tr2 : list event) :
  sleeps (tr1 ++ tr2) = sleeps tr1 ++ sleeps tr2.
Proof. apply flat_map_app. Qed.

Lemma sleepless_sleeps (tr : list event) :
  Forall sleepless tr -> sleeps tr = [].
Proof.
  induction 1 as [|ev tr Hev _ IH]; [reflexivity|].
  unfold sleeps in *. simpl. rewrite IH. now destruct ev.
Qed.

Lemma quiet_trace (tr : list event) :
  Forall quiet tr -> sleeps tr = [] /\ writes tr = [].
Proof.
  intros F. split.
  - apply sleepless_sleeps. eapply Forall_impl; [|exact F]. now intros ev [].
  - apply no_write_writes. eapply Forall_impl; [|exact F]. now intros ev [].
Qed.

Lemma read_sys_file_quiet {S : Type} (p : option path) (s : S) :
  always quiet (fun rs => snd rs = s /\ exists v, fst rs = Ok v)
         (read_sys_file p s).
Proof.
  destruct p as [p|]; [|constructor; split; cbn [fst snd]; eauto].
  unfold read_sys_file, bind, perform, ret. cbn [prog_bind fst snd].
  apply always_vis; [now split|]. intros [|]; cbn [negb prog_bind fst snd].
  - apply always_vis; [now split|]. intros [text|]; cbn [prog_bind fst snd].
    + constructor; split; cbn [fst snd]; eauto.
    + apply always_vis; [now split|]. intros []. constructor; split; cbn [fst snd]; eauto.
  - constructor; split; cbn [fst snd]; eauto.
Qed.

Lemma get_cpu_temp_quiet {S : Type} (self : FanController) (s : S) :
  always quiet (fun rs => snd rs = s) (get_cpu_temp self s).
Proof.
  unfold get_cpu_temp. destruct (cpu_temp_path self) as [p|]; [|now constructor].
  apply (always_bind _ (fun rs => snd rs = s /\ exists v, fst rs = Ok v)).
  - apply read_sys_file_quiet.
  - intros a s' [E _]. cbn [snd] in E. subst s'.
    destruct (truthy a); [|now constructor].
    unfold int_of_text, bind, ret, raise.
    destruct (Py.int_of_str (or_else a "")); now constructor.
  - intros e s' [_ [v Hv]]. discriminate.
Qed.

Lemma get_fan_speed_quiet {S : Type} (self : FanController) (s : S) :
  always quiet (fun rs => snd rs = s) (get_fan_speed self s).
Proof.
  unfold get_fan_speed.
  apply (always_bind _ (fun rs => snd rs = s /\ exists v, fst rs = Ok v)).
  - apply read_sys_file_quiet.
  - intros a s' [E _]. cbn [snd] in E. subst s'.
    destruct (truthy a); [|now constructor].
    unfold int_of_text, ret, raise.
    destruct (Py.int_of_str (or_else a "")); now constructor.
  - intros e s' [_ [v Hv]]. discriminate.
Qed.

Lemma write_sys_file_sleepless {S : Type} (p : option path) (v : string) (s : S) :
  always sleepless (fun rs => rs = (Ok tt, s)) (write_sys_file p v s).
Proof.
  destruct p as [p|]; [|now constructor].
  unfold write_sys_file, bind, perform, ret. cbn [prog_bind fst snd].
  apply always_vis; [reflexivity|]. intros [| |]; cbn [prog_bind fst snd].
  - now constructor.
  - apply always_vis; [reflexivity|]. intros []. now constructor.
  - apply always_vis; [reflexivity|]. intros []. now constructor.
Qed.

Lemma set_fan_mode_sleepless {S : Type} (self : FanController) (mode : string)
    (s : S) :
  always sleepless (fun rs => rs = (Ok tt, s)) (set_fan_mode self mode s).
Proof.
  unfold set_fan_mode.
  destruct (String.eqb mode "max"); [apply write_sys_file_sleepless|].
  destruct (String.eqb mode "auto"); [apply write_sys_file_sleepless|].
  now constructor.
Qed.

Lemma set_fan_pwm_sleepless {S : Type} (self : FanController) (value : Z)
    (s : S) :
  always sleepless (fun rs => rs = (Ok tt, s)) (set_fan_pwm self value s).
Proof.
  unfold set_fan_pwm.
  apply (always_bind _ (fun rs => snd rs = s /\ exists v, fst rs = Ok v)).
  - eapply always_weaken; [| |apply read_sys_file_quiet]; [now intros ev []|auto].
  - intros a s' [E _]. cbn [snd] in E. subst s'.
    apply (always_bind _ (fun rs => rs = (Ok tt, s))).
    + destruct (negb (is_manual a)); [apply write_sys_file_sleepless|].
      now constructor.
    + intros [] s' [= ->]. apply write_sys_file_sleepless.
    + intros e s' E. discriminate E.
  - intros e s' [_ [v Hv]]. discriminate.
Qed.

Lemma reload_config_run {W : Type} (h : handler W) (w : W) (s : Serve) :
  exec h (reload_config s) w
  = let (stat, w1) := h _ ConfigMtime w in
    match stat with
    | Some m =>
        if Qgt_bool m (last_config_mtime s)
        then let (cfg, w2) := h _ LoadConfig w1 in
             (Ok tt,
              set_last_config_mtime
                (set_controller s (set_config (controller s) cfg)) m,
              w2, [EvMtime (Some m); EvLoad cfg])
        else (Ok tt, s, w1, [EvMtime (Some m)])
    | None => (Ok tt, s, w1, [EvMtime None])
    end.
Proof.
  unfold reload_config, try_except, bind, perform, get, modify, raise, ret.
  cbn [prog_bind exec fst snd event_of].
  destruct (h (option Q) ConfigMtime w) as [[m|] w1];
    cbn [prog_bind exec fst snd]; [|reflexivity].
  destruct (Qgt_bool m (last_config_mtime s));
    cbn [prog_bind exec fst snd event_of]; [|reflexivity].
  now destruct (h Config.t LoadConfig w1) as [cfg w2].
Qed.

Lemma reload_config_quiet {W : Type} (h : handler W) (w : W) (s : Serve) :
  exists s1 w1 tr,
    exec h (reload_config s) w = (Ok tt, s1, w1, tr)
    /\ sleeps tr = [] /\ writes tr = [] /\ sysfs_accesses tr = []
    /\ temp_history s1 = temp_history s
    /\ hysteresis_start_time s1 = hysteresis_start_time s.
Proof.
  rewrite reload_config_run.
  destruct (h (option Q) ConfigMtime w) as [[m|] w1].
  - destruct (Qgt_bool m (last_config_mtime s)).
    + destruct (h Config.t LoadConfig w1) as [cfg w2].
      eexists _, _, _. split; [reflexivity|]. now repeat split.
    + eexists _, _, _. split; [reflexivity|]. now repeat split.
  - eexists _, _, _. split; [reflexivity|]. now repeat split.
Qed.

Lemma watchdog_quiet (s : Serve) :
  always (fun ev => quiet ev /\ is_sysfs ev = false)
         (fun rs => fst rs = Ok tt
                    /\ controller (snd rs) = controller s
                    /\ temp_history (snd rs) = temp_history s
                    /\ ma_window (snd rs) = ma_window s
                    /\ hysteresis_start_time (snd rs) = hysteresis_start_time s)
         (watchdog s).
Proof.
  unfold watchdog, bind, perform, get, modify, ret.
  cbn [prog_bind fst snd].
  apply always_vis; [now repeat split|]. intros now. cbn [prog_bind fst snd].
  destruct (Qgt_bool _ _); cbn [prog_bind fst snd].
  - apply always_vis; [now repeat split|]. intros now'. now constructor.
  - now constructor.
Qed.

Lemma actuation_governor_sleepless (s : Serve) (target_pwm current_rpm max_rpm : Z) :
  always sleepless (fun rs => fst rs = Ok tt)
         (actuation_governor target_pwm current_rpm max_rpm s).
Proof.
  assert (Ap : forall s0 : Serve,
             always sleepless (fun rs : result unit * Serve => fst rs = Ok tt)
               ((s1 <- get ;;
                 set_fan_pwm (controller s1) target_pwm ;;
                 modify (fun s => set_hysteresis_start_time s None))%py s0)).
  { intros s0. unfold bind at 1, get. cbn [prog_bind fst snd].
    apply (always_bind _ (fun rs => rs = (Ok tt, s0))).
    - apply set_fan_pwm_sleepless.
    - intros [] s' _. now constructor.
    - intros e s' E. discriminate E. }
  unfold actuation_governor.
  apply (always_bind _ (fun rs => exists b : bool, fst rs = Ok b)).
  - destruct (max_rpm >? 0); [|constructor; eexists; reflexivity].
    destruct (Qle_bool _ 200).
    + unfold bind, get, perform, modify, ret. cbn [prog_bind fst snd].
      destruct (hysteresis_start_time s); cbn [prog_bind fst snd].
      * apply always_vis; [reflexivity|]. intros t. constructor; eexists; reflexivity.
      * apply always_vis; [reflexivity|]. intros t. cbn [prog_bind fst snd].
        apply always_vis; [reflexivity|]. intros t'. constructor; eexists; reflexivity.
    + unfold bind, modify, ret. cbn [prog_bind fst snd]. constructor; eexists; reflexivity.
  - intros [|] s' _; [apply Ap|now constructor].
  - intros e s' [b Hb]. discriminate.
Qed.

(** The dispatch never sleeps, and a dispatch that raises has written
    nothing. *)
Lemma dispatch_run {W : Type} (h : handler W) (w : W) (s : Serve)
    (mode : string) (avg_temp : Q) :
  let r := exec h (dispatch mode avg_temp s) w in
  sleeps (snd r) = []
  /\ ((forall e, fst (fst (fst r)) <> Raise e) \/ writes (snd r) = []).
Proof.
  cbv zeta.
  remember (exec h (dispatch mode avg_temp s) w) as r eqn:R.
  revert R. unfold dispatch. unfold bind at 1, get. cbn [prog_bind fst snd].
  assert (G : forall p : M Serve unit,
             always sleepless (fun rs => rs = (Ok tt, s)) (p s) ->
             r = exec h (p s) w ->
             sleeps (snd r) = []
             /\ ((forall e, fst (fst (fst r)) <> Raise e) \/ writes (snd r) = [])).
  { intros p Hp ->. destruct (always_exec _ _ _ h w Hp) as [Ho Hsl].
    split; [now apply sleepless_sleeps|]. left. rewrite Ho. discriminate. }
  assert (N : r = exec h (ret tt s) w ->
              sleeps (snd r) = []
              /\ ((forall e, fst (fst (fst r)) <> Raise e) \/ writes (snd r) = [])).
  { intros ->. split; [reflexivity|right; reflexivity]. }
  destruct (String.eqb mode "curve").
  - destruct (calculate_target_pwm (config (controller s)) avg_temp)
      as [target|]; [|exact N].
    unfold bind. rewrite exec_bind.
    pose proof (always_exec _ _ _ h w (get_fan_speed_quiet (controller s) s))
      as [Hs Hq].
    destruct (exec h (get_fan_speed (controller s) s) w) as [[[r1 s1] w1] tr1].
    cbn [fst snd] in *. subst s1. apply quiet_trace in Hq. destruct Hq as [Sl Wr].
    destruct r1 as [rpm|e]; cbn [fst snd].
    + pose proof (always_exec _ _ _ h w1
                    (actuation_governor_sleepless s target rpm
                       (Config.fan_max (config (controller s))))) as [Ho Hsl].
      destruct (exec h (actuation_governor target rpm _ s) w1)
        as [[[r2 s2] w2] tr2].
      cbn [fst snd] in *. subst r2. intros ->. cbn [fst snd].
      rewrite sleeps_app, Sl.
      split; [now apply sleepless_sleeps|]. left. discriminate.
    + cbn [exec]. intros ->. cbn [fst snd]. rewrite app_nil_r.
      split; [assumption|now right].
  - destruct (String.eqb mode "manual").
    { destruct (Config.manual_pwm (config (controller s)) >=? 0); [|exact N].
      apply (G (set_fan_pwm (controller s) _)). apply set_fan_pwm_sleepless. }
    destruct (String.eqb mode "max").
    { apply (G (set_fan_mode (controller s) "max")). apply set_fan_mode_sleepless. }
    destruct (String.eqb mode "auto").
    { apply (G (set_fan_mode (controller s) "auto")). apply set_fan_mode_sleepless. }
    exact N.
Qed.

Lemma exec_mbind {W S A B : Type} (h : handler W) (m : M S A)
    (f : A -> M S B) (s : S) (w : W) :
  exec h (bind m f s) w
  = let '(rs, w1, tr1) := exec h (m s) w in
    match fst rs with
    | Ok a =>
        let '(b, w2, tr2) := exec h (f a (snd rs)) w1 in (b, w2, tr1 ++ tr2)
    | Raise e => (Raise e, snd rs, w1, tr1)
    end.
Proof.
  unfold bind. rewrite exec_bind.
  destruct (exec h (m s) w) as [[[r s1] w1] tr1]. cbn [fst snd].
  destruct r as [a|e]; [reflexivity|]. cbn [exec]. now rewrite app_nil_r.
Qed.

Lemma omen_cli_smoother_pure : pure_smoother OmenCli.smoother.
Proof.
  intros W h w s x. rewrite omen_cli_smoother_run. eauto.
Qed.

Lemma packaged_smoother_pure : pure_smoother Packaged.smoother.
Proof.
  intros W h w s x. unfold Packaged.smoother.
  rewrite push_and_average_run. eauto.
Qed.

Lemma dispatch_unknown_mode {W : Type} (h : handler W) (w : W) (s : Serve)
    (mode : string) (avg_temp : Q) :
  dispatched_mode mode = false ->
  exec h (dispatch mode avg_temp s) w = (Ok tt, s, w, []).
Proof.
  unfold dispatched_mode. intros D.
  apply orb_false_elim in D. destruct D as [D Ha].
  apply orb_false_elim in D. destruct D as [D Hx].
  apply orb_false_elim in D. destruct D as [Hc Hm].
  unfold dispatch. unfold bind, get. cbn [prog_bind fst snd].
  now rewrite Hc, Hm, Hx, Ha.
Qed.

(** A pass after the reload, outside calibration mode: either it ends
    with the sleep of 2 seconds, or it raises without having slept or
    written. *)
Lemma control_step_active {W : Type} (smoother : Z -> M Serve Q)
    (h : handler W) (w : W) (s : Serve) :
  pure_smoother smoother ->
  String.eqb (Config.mode (config (controller s))) "calibration" = false ->
  let r := exec h (control_step smoother s) w in
  (fst (fst (fst r)) = Ok tt
   /\ exists pre, snd r = pre ++ [EvSleep 2] /\ sleeps pre = []
                  /\ (dispatched_mode (Config.mode (config (controller s)))
                      = false -> writes pre = []))
  \/ (exists e, fst (fst (fst r)) = Raise e)
     /\ sleeps (snd r) = [] /\ writes (snd r) = [].
Proof.
  intros Pure Hcal. cbv zeta.
  remember (exec h (control_step smoother s) w) as r eqn:R. revert R.
  unfold control_step. unfold bind at 1, get. cbn [prog_bind fst snd].
  rewrite Hcal. rewrite exec_mbind.
  pose proof (always_exec _ _ _ h w (watchdog_quiet s)) as [Ho Hq].
  destruct (exec h (watchdog s) w) as [[[r1 s1] w1] tr1].
  cbn [fst snd] in Ho, Hq |- *. destruct Ho as (-> & _).
  assert (Q1 : sleeps tr1 = [] /\ writes tr1 = []).
  { apply quiet_trace. eapply Forall_impl; [|exact Hq]. now intros ev []. }
  destruct Q1 as [Sl1 Wr1]. clear Hq.
  rewrite exec_mbind.
  pose proof (always_exec _ _ _ h w1 (get_cpu_temp_quiet (controller s) s1))
    as [Hs Hq].
  destruct (exec h (get_cpu_temp (controller s) s1) w1) as [[[r2 s2] w2] tr2].
  cbn [fst snd] in Hs, Hq |- *. subst s2.
  apply quiet_trace in Hq. destruct Hq as [Sl2 Wr2].
  destruct r2 as [temp|e].
  2:{ intros ->. right. cbn [fst snd].
      rewrite sleeps_app, writes_app, Sl1, Sl2, Wr1, Wr2. eauto. }
  rewrite exec_mbind.
  destruct (Pure W h w2 s1 temp) as (r3 & s3 & E3). rewrite E3.
  cbn [fst snd].
  destruct r3 as [avg|e].
  2:{ intros ->. right. cbn [fst snd]. rewrite app_nil_r.
      rewrite sleeps_app, writes_app, Sl1, Sl2, Wr1, Wr2. eauto. }
  rewrite exec_mbind.
  pose proof (dispatch_run h w2 s3 (Config.mode (config (controller s))) avg)
    as [Sl4 Wr4].
  pose proof (dispatch_unknown_mode h w2 s3
                (Config.mode (config (controller s))) avg) as Unk.
  destruct (exec h (dispatch (Config.mode (config (controller s))) avg s3) w2)
    as [[[r4 s4] w4] tr4].
  cbn [fst snd] in Sl4, Wr4 |- *.
  destruct r4 as [[]|e].
  - unfold sleep. cbn [Qle_bool Qnum Qden Z.leb Z.mul Z.compare Pos.mul].
    unfold perform. cbn [exec event_of].
    destruct (h unit (Sleep 2) w4) as [[] w5].
    intros ->. left. cbn [fst snd]. split; [reflexivity|].
    exists (tr1 ++ tr2 ++ tr4). repeat split.
    + now rewrite !app_nil_l, <- !app_assoc.
    + now rewrite !sleeps_app, Sl1, Sl2, Sl4.
    + intros D. specialize (Unk D). injection Unk as _ _ ->.
      now rewrite !writes_app, Wr1, Wr2.
  - intros ->. right. cbn [fst snd].
    destruct Wr4 as [Wr4|Wr4]; [now destruct (Wr4 e)|].
    rewrite !app_nil_l, !sleeps_app, !writes_app, Sl1, Sl2, Sl4, Wr1, Wr2, Wr4.
    eauto.
Qed.

(** One pass, whatever the Smoother: it returns normally and its trace is
    a sleepless part followed by one sleep, of 1 second in calibration
    mode, of 2 seconds after a normal pass, of 5 seconds after an
    exception, in which case nothing was written. *)
Lemma iteration_run {W : Type} (smoother : Z -> M Serve Q)
    (h : handler W) (w : W) (s : Serve) :
  pure_smoother smoother ->
  let r := exec h (iteration smoother s) w in
  let mode := Config.mode (config_in_force h w s) in
  fst (fst (fst r)) = Ok tt
  /\ exists pre d,
       snd r = pre ++ [EvSleep d] /\ sleeps pre = []
       /\ ((String.eqb mode "calibration" = true /\ d = 1%Q
            /\ sysfs_accesses pre = [] /\ writes pre = []
            /\ snd (fst (fst r)) = final_state (exec h (reload_config s) w))
           \/ (String.eqb mode "calibration" = false /\ d = 2%Q
               /\ (dispatched_mode mode = false -> writes pre = []))
           \/ (String.eqb mode "calibration" = false /\ d = 5%Q
               /\ writes pre = [])).
Proof.
  intros Pure. cbv zeta. unfold config_in_force, final_state.
  remember (exec h (iteration smoother s) w) as r eqn:R. revert R.
  unfold iteration, try_except. rewrite exec_bind, exec_mbind.
  destruct (reload_config_quiet h w s)
    as (s1 & w1 & tr0 & E0 & Sl0 & Wr0 & Ac0 & _).
  rewrite E0. cbn [fst snd].
  destruct (String.eqb (Config.mode (config (controller s1))) "calibration")
    eqn:Hcal.
  - unfold control_step. unfold bind at 1, get. cbn [prog_bind fst snd].
    rewrite Hcal. unfold sleep.
    cbn [Qle_bool Qnum Qden Z.leb Z.mul Z.compare Pos.mul].
    unfold perform. cbn [exec event_of].
    destruct (h unit (Sleep 1) w1) as [[] w2]. cbn [exec fst snd].
    intros ->. cbn [fst snd]. split; [reflexivity|].
    exists tr0, 1%Q. rewrite app_nil_r.
    split; [reflexivity|]. split; [assumption|]. left. now repeat split.
  - pose proof (control_step_active smoother h w1 s1 Pure Hcal) as C.
    cbv zeta in C.
    destruct (exec h (control_step smoother s1) w1) as [[[r2 s2] w2] tr2].
    cbn [fst snd] in C |- *.
    destruct C as [(-> & pre & -> & Sl & Wr)|((e & ->) & Sl & Wr)].
    + cbn [exec]. intros ->. cbn [fst snd]. split; [reflexivity|].
      exists (tr0 ++ pre), 2%Q. rewrite app_nil_r, app_assoc.
      split; [reflexivity|]. split; [now rewrite sleeps_app, Sl0, Sl|].
      right. left. repeat split.
      intros D. now rewrite writes_app, Wr0, (Wr D).
    + unfold bind, sleep.
      cbn [Qle_bool Qnum Qden Z.leb Z.mul Z.compare Pos.mul].
      unfold perform. cbn [prog_bind exec fst snd event_of].
      destruct (h unit (Print (ErrorInDaemonLoop e)) w2) as [[] w3].
      destruct (h unit (Sleep 5) w3) as [[] w4].
      intros ->. cbn [fst snd]. split; [reflexivity|].
      exists (tr0 ++ tr2 ++ [EvPrint (ErrorInDaemonLoop e)]), 5%Q.
      split; [now rewrite <- !app_assoc|].
      split; [now rewrite !sleeps_app, Sl0, Sl|].
      right. right. repeat split.
      now rewrite !writes_app, Wr0, Wr.
Qed.

(** *** What the handler of the loop reports *)

Lemma caught_app (tr1 tr2 : list event) :
  caught (tr1 ++ tr2) = caught tr1 ++ caught tr2.
Proof. apply flat_map_app. Qed.

Lemma unreported_caught (tr : list event) :
  Forall unreported tr -> caught tr = [].
Proof.
  induction 1 as [|ev tr Hev _ IH]; [reflexivity|].
  change (caught (ev :: tr)) with (caught ([ev] ++ tr)).
  now rewrite caught_app, Hev, IH.
Qed.

Lemma always_caught {W R : Type} (h : handler W) (w : W) (p : prog R) :
  always unreported (fun _ => True) p -> caught (snd (exec h p w)) = [].
Proof.
  intros Hp. apply unreported_caught. apply (always_exec _ _ _ h w Hp).
Qed.

(** Only the handler of the loop prints that message: the parts of a pass
    do not. *)
Ltac no_report :=
  repeat first
    [ apply always_ret; exact I
    | apply always_vis; [intros; reflexivity|intros ?]
    | progress cbn [prog_bind fst snd negb]
    | match goal with
      | |- always _ _ ?p =>
          match p with
          | context [match ?x with _ => _ end] => destruct x
          end
      end ].

Lemma watchdog_unreported (s : Serve) :
  always unreported (fun _ => True) (watchdog s).
Proof.
  unfold watchdog, bind, perform, get, modify, ret. no_report.
Qed.

Lemma get_cpu_temp_unreported {S : Type} (self : FanController) (s : S) :
  always unreported (fun _ => True) (get_cpu_temp self s).
Proof.
  unfold get_cpu_temp, read_sys_file, int_of_text, bind, perform, ret, raise.
  no_report.
Qed.

Lemma dispatch_unreported (mode : string) (avg_temp : Q) (s : Serve) :
  always unreported (fun _ => True) (dispatch mode avg_temp s).
Proof.
  unfold dispatch, actuation_governor, get_fan_speed, set_fan_pwm,
    set_fan_mode, read_sys_file, write_sys_file, int_of_text,
    bind, perform, get, modify, ret, raise.
  no_report.
Qed.

Lemma reload_config_unreported {W : Type} (h : handler W) (w : W) (s : Serve) :
  caught (snd (exec h (reload_config s) w)) = [].
Proof.
  rewrite reload_config_run.
  destruct (h (option Q) ConfigMtime w) as [[m|] w1]; [|reflexivity].
  destruct (Qgt_bool m (last_config_mtime s)); [|reflexivity].
  now destruct (h Config.t LoadConfig w1).
Qed.

Lemma caught_exec_mbind {W S A B : Type} (h : handler W) (m : M S A)
    (f : A -> M S B) (s : S) (w : W) :
  caught (snd (exec h (m s) w)) = [] ->
  (forall a s' w', caught (snd (exec h (f a s') w')) = []) ->
  caught (snd (exec h (bind m f s) w)) = [].
Proof.
  intros Hm Hf. rewrite exec_mbind.
  destruct (exec h (m s) w) as [[[r s1] w1] tr1]. cbn [fst snd] in *.
  destruct r as [a|e]; [|exact Hm].
  specialize (Hf a s1 w1).
  destruct (exec h (f a s1) w1) as [[b w2] tr2]. cbn [snd] in *.
  now rewrite caught_app, Hm, Hf.
Qed.

Lemma sleep_unreported {W S : Type} (h : handler W) (w : W) (s : S) (d : Q) :
  caught (snd (exec h (sleep d s) w)) = [].
Proof.
  unfold sleep. destruct (Qle_bool 0 d); [|reflexivity].
  unfold perform. cbn [exec]. now destruct (h unit (Sleep d) w).
Qed.

Lemma control_step_unreported {W : Type} (smoother : Z -> M Serve Q)
    (h : handler W) (w : W) (s : Serve) :
  pure_smoother smoother ->
  caught (snd (exec h (control_step smoother s) w)) = [].
Proof.
  intros Pure. unfold control_step. unfold bind at 1, get.
  cbn [prog_bind fst snd].
  destruct (String.eqb _ "calibration"); [apply sleep_unreported|].
  apply caught_exec_mbind; [apply always_caught, watchdog_unreported|].
  intros _ s1 w1.
  apply caught_exec_mbind; [apply always_caught, get_cpu_temp_unreported|].
  intros temp s2 w2.
  apply caught_exec_mbind.
  { destruct (Pure W h w2 s2 temp) as (r & s3 & E). now rewrite E. }
  intros avg s3 w3.
  apply caught_exec_mbind; [apply always_caught, dispatch_unreported|].
  intros _ s4 w4. apply sleep_unreported.
Qed.

(** A pass of the loop, with what decides the length of its sleep: one
    second when the configuration in force says 'calibration'; two seconds
    after a pass outside calibration that reported nothing; five seconds
    after the report of a caught exception, which is then the last event
    before the sleep and the only report. *)
Lemma iteration_reports {W : Type} (smoother : Z -> M Serve Q)
    (h : handler W) (w : W) (s : Serve) :
  pure_smoother smoother ->
  let r := exec h (iteration smoother s) w in
  let mode := Config.mode (config_in_force h w s) in
  fst (fst (fst r)) = Ok tt
  /\ exists pre d,
       snd r = pre ++ [EvSleep d] /\ sleeps pre = []
       /\ ((mode = "calibration"%string /\ d = 1%Q /\ caught pre = [])
           \/ (mode <> "calibration"%string /\ d = 2%Q /\ caught pre = [])
           \/ (mode <> "calibration"%string /\ d = 5%Q
               /\ exists e pre',
                    pre = pre' ++ [EvPrint (ErrorInDaemonLoop e)]
                    /\ caught pre' = [])).
Proof.
  intros Pure. cbv zeta. unfold config_in_force, final_state.
  remember (exec h (iteration smoother s) w) as r eqn:R. revert R.
  unfold iteration, try_except. rewrite exec_bind, exec_mbind.
  pose proof (reload_config_unreported h w s) as Ct0.
  destruct (reload_config_quiet h w s)
    as (s1 & w1 & tr0 & E0 & Sl0 & Wr0 & Ac0 & _).
  rewrite E0 in Ct0 |- *. cbn [fst snd] in Ct0 |- *.
  pose proof (control_step_unreported smoother h w1 s1 Pure) as Ct2.
  destruct (String.eqb (Config.mode (config (controller s1))) "calibration")
    eqn:Hcal.
  - apply String.eqb_eq in Hcal.
    unfold control_step. unfold bind at 1, get. cbn [prog_bind fst snd].
    rewrite Hcal. cbn [String.eqb Ascii.eqb Bool.eqb]. unfold sleep.
    cbn [Qle_bool Qnum Qden Z.leb Z.mul Z.compare Pos.mul].
    unfold perform. cbn [exec event_of].
    destruct (h unit (Sleep 1) w1) as [[] w2]. cbn [exec fst snd].
    intros ->. cbn [fst snd]. split; [reflexivity|].
    exists tr0, 1%Q. rewrite app_nil_r.
    split; [reflexivity|]. split; [assumption|]. left. now repeat split.
  - pose proof (control_step_active smoother h w1 s1 Pure Hcal) as C.
    apply String.eqb_neq in Hcal.
    cbv zeta in C.
    destruct (exec h (control_step smoother s1) w1) as [[[r2 s2] w2] tr2].
    cbn [fst snd] in C, Ct2 |- *.
    destruct C as [(-> & pre & -> & Sl & Wr)|((e & ->) & Sl & Wr)].
    + cbn [exec]. intros ->. cbn [fst snd]. split; [reflexivity|].
      exists (tr0 ++ pre), 2%Q. rewrite app_nil_r, app_assoc.
      split; [reflexivity|]. split; [now rewrite sleeps_app, Sl0, Sl|].
      right. left. repeat split; [assumption|].
      rewrite caught_app in Ct2. apply app_eq_nil in Ct2.
      rewrite caught_app, Ct0. exact (proj1 Ct2).
    + unfold bind, sleep.
      cbn [Qle_bool Qnum Qden Z.leb Z.mul Z.compare Pos.mul].
      unfold perform. cbn [prog_bind exec fst snd event_of].
      destruct (h unit (Print (ErrorInDaemonLoop e)) w2) as [[] w3].
      destruct (h unit (Sleep 5) w3) as [[] w4].
      intros ->. cbn [fst snd]. split; [reflexivity|].
      exists (tr0 ++ tr2 ++ [EvPrint (ErrorInDaemonLoop e)]), 5%Q.
      split; [now rewrite <- !app_assoc|].
      split; [now rewrite !sleeps_app, Sl0, Sl|].
      right. right. repeat split; [assumption|].
      exists e, (tr0 ++ tr2). split; [now rewrite <- app_assoc|].
      now rewrite caught_app, Ct0, Ct2.
Qed.

(** X20. A pass of the loop never raises and sleeps exactly once, as its
    last action.  The sleep lasts 1 second exactly when the configuration
    in force says 'calibration'; otherwise 2 seconds when the pass caught
    no exception, and 5 seconds when it caught one, which it reports in
    its message just before that sleep.  So the loop can neither be
    stopped by an exception of the modelled code nor spin. *)
Theorem pass_never_raises_and_sleeps_once {W : Type} (h : handler W) (w : W)
    (s : Serve) :
  both_loops (fun pass =>
    let r := exec h (pass s) w in
    let mode := Config.mode (config_in_force h w s) in
    outcome r = Ok tt
    /\ exists pre d,
         trace r = pre ++ [EvSleep d] /\ sleeps pre = []
         /\ ((mode = "calibration"%string /\ d = 1%Q /\ caught pre = [])
             \/ (mode <> "calibration"%string /\ d = 2%Q /\ caught pre = [])
             \/ (mode <> "calibration"%string /\ d = 5%Q
                 /\ exists e pre',
                      pre = pre' ++ [EvPrint (ErrorInDaemonLoop e)]
                      /\ caught pre' = []))).
Proof.
  split.
  - exact (iteration_reports OmenCli.smoother h w s omen_cli_smoother_pure).
  - exact (iteration_reports Packaged.smoother h w s packaged_smoother_pure).
Qed.

Lemma sleeps_last (pre : list event) (d : Q) :
  sleeps pre = [] -> sleeps (pre ++ [EvSleep d]) = [d].
Proof. intros E. now rewrite sleeps_app, E. Qed.

Lemma accesses_last (pre : list event) (d : Q) :
  sysfs_accesses (pre ++ [EvSleep d]) = sysfs_accesses pre.
Proof. rewrite sysfs_accesses_app. apply app_nil_r. Qed.

Lemma writes_last (pre : list event) (d : Q) :
  writes (pre ++ [EvSleep d]) = writes pre.
Proof. rewrite writes_app. apply app_nil_r. Qed.

(** X21. While the configuration in force says 'calibration' the loop
    stays away from the hardware: the pass consults no sysfs file at all
    (no sensor read, no write), sleeps one second, and leaves the locals
    as the reload left them (history and hold untouched). *)
Theorem calibration_pass_idles {W : Type} (h : handler W) (w : W) (s : Serve) :
  Config.mode (config_in_force h w s) = "calibration"%string ->
  both_loops (fun pass =>
    let r := exec h (pass s) w in
    sysfs_accesses (snd r) = []
    /\ sleeps (snd r) = [1%Q]
    /\ snd (fst (fst r)) = final_state (exec h (reload_config s) w)
    /\ temp_history (snd (fst (fst r))) = temp_history s
    /\ hysteresis_start_time (snd (fst (fst r))) = hysteresis_start_time s).
Proof.
  intros Hm.
  assert (G : forall sm, pure_smoother sm ->
            let r := exec h (iteration sm s) w in
            sysfs_accesses (snd r) = []
            /\ sleeps (snd r) = [1%Q]
            /\ snd (fst (fst r)) = final_state (exec h (reload_config s) w)
            /\ temp_history (snd (fst (fst r))) = temp_history s
            /\ hysteresis_start_time (snd (fst (fst r)))
               = hysteresis_start_time s).
  { intros sm Pure. cbv zeta.
    destruct (iteration_run sm h w s Pure) as (Ho & pre & d & E & Sl & C).
    rewrite Hm in C. cbn [String.eqb Ascii.eqb Bool.eqb] in C.
    destruct C as [(_ & -> & Ac & Wr & St)|[(F & _)|(F & _)]];
      try discriminate F.
    rewrite E, accesses_last, (sleeps_last _ _ Sl), St.
    destruct (reload_config_quiet h w s)
      as (s1 & w1 & tr0 & E0 & _ & _ & _ & Th & Hy).
    unfold final_state. rewrite E0. now repeat split. }
  split; [apply (G _ omen_cli_smoother_pure)|apply (G _ packaged_smoother_pure)].
Qed.

(** X22. A mode that is none of curve, manual, max and auto (calibration
    included) never leads to a write: whatever the configuration file
    holds in [mode], such a pass writes to no file. *)
Theorem unrecognised_mode_never_writes {W : Type} (h : handler W) (w : W)
    (s : Serve) :
  dispatched_mode (Config.mode (config_in_force h w s)) = false ->
  both_loops (fun pass => writes (snd (exec h (pass s) w)) = []).
Proof.
  intros Hm.
  assert (G : forall sm, pure_smoother sm ->
            writes (snd (exec h (iteration sm s) w)) = []).
  { intros sm Pure.
    destruct (iteration_run sm h w s Pure) as (Ho & pre & d & E & Sl & C).
    rewrite E, writes_last.
    destruct C as [(_ & _ & _ & Wr & _)|[(_ & _ & Wr)|(_ & _ & Wr)]]; auto. }
  split; [apply (G _ omen_cli_smoother_pure)|apply (G _ packaged_smoother_pure)].
Qed.

(** X23. A pass that ends in the back-off sleep of 5 seconds, that is a
    pass in which an exception was caught, has written nothing: a
    malformed sensor file or an empty window stalls the control, it never
    produces a partial actuation. *)
Theorem failed_pass_wrote_nothing {W : Type} (h : handler W) (w : W)
    (s : Serve) :
  both_loops (fun pass =>
    sleeps (snd (exec h (pass s) w)) = [5%Q] ->
    writes (snd (exec h (pass s) w)) = []).
Proof.
  assert (G : forall sm, pure_smoother sm ->
            sleeps (snd (exec h (iteration sm s) w)) = [5%Q] ->
            writes (snd (exec h (iteration sm s) w)) = []).
  { intros sm Pure.
    destruct (iteration_run sm h w s Pure) as (Ho & pre & d & E & Sl & C).
    rewrite E, writes_last, (sleeps_last _ _ Sl).
    destruct C as [(_ & -> & _)|[(_ & -> & _)|(_ & _ & Wr)]];
      try discriminate; auto. }
  split; [apply (G _ omen_cli_smoother_pure)|apply (G _ packaged_smoother_pure)].
Qed.

Lemma calibration_pass_idles_witness :
  Config.mode (config_in_force Sim.run Sim.laptop (locals_in_mode "calibration"))
  = "calibration"%string
  /\ both_loops (fun pass =>
       let r := exec Sim.run (pass (locals_in_mode "calibration")) Sim.laptop in
       sysfs_accesses (snd r) = []
       /\ sleeps (snd r) = [1%Q]
       /\ snd (fst (fst r))
          = final_state (exec Sim.run
                           (reload_config (locals_in_mode "calibration"))
                           Sim.laptop)
       /\ temp_history (snd (fst (fst r)))
          = temp_history (locals_in_mode "calibration")
       /\ hysteresis_start_time (snd (fst (fst r)))
          = hysteresis_start_time (locals_in_mode "calibration")).
Proof.
  exact (conj eq_refl
           (calibration_pass_idles Sim.run Sim.laptop
              (locals_in_mode "calibration") eq_refl)).
Defined.

Lemma unrecognised_mode_never_writes_witness :
  dispatched_mode
    (Config.mode (config_in_force Sim.run Sim.laptop (locals_in_mode "turbo")))
  = false
  /\ both_loops (fun pass =>
       writes (snd (exec Sim.run (pass (locals_in_mode "turbo")) Sim.laptop))
       = []).
Proof.
  exact (conj eq_refl
           (unrecognised_mode_never_writes Sim.run Sim.laptop
              (locals_in_mode "turbo") eq_refl)).
Defined.

(** A pass in curve mode with a temperature file that does not hold an
    integer: the exception is reported, nothing is written, and the loop
    backs off for 5 seconds. *)
Example pass_with_malformed_temperature :
  let w := Sim.with_files Sim.laptop
             [(Sim.coretemp, "n/a"); (Path Sim.hwmon "pwm1", "128")]%string in
  snd (exec Sim.run (OmenCli.serve_iteration (locals_in_mode "curve")) w)
  = [EvMtime None; EvTime 1000;
     EvExists Sim.coretemp true; EvRead Sim.coretemp (Some "n/a"%string);
     EvPrint (ErrorInDaemonLoop ValueError); EvSleep 5].
Proof. reflexivity. Qed.

(** A pass in manual mode on the laptop, already in manual mode: the duty
    128 is written again, the enable file is left alone. *)
Example pass_in_manual_mode :
  writes (snd (exec Sim.run (OmenCli.serve_iteration (locals_in_mode "manual"))
                    Sim.laptop))
  = [(Path Sim.hwmon "pwm1", "128"%string)].
Proof. reflexivity. Qed.

(** X24. The reload at the top of a pass never raises.  The whole
    document is replaced exactly when the modification time could be read
    and is later than the last one seen, which is then recorded; a time
    that is equal or earlier, or a failing [stat], leaves every local as
    it was.  Nothing but the configuration and that time stamp changes. *)
Theorem reload_config_cases {W : Type} (h : handler W) (w : W) (s : Serve) :
  let stat := fst (h _ ConfigMtime w) in
  let w1 := snd (h _ ConfigMtime w) in
  let cfg := fst (h _ LoadConfig w1) in
  let w2 := snd (h _ LoadConfig w1) in
  (stat = None ->
   exec h (reload_config s) w = (Ok tt, s, w1, [EvMtime None]))
  /\ (forall m, stat = Some m -> (m <= last_config_mtime s)%Q ->
        exec h (reload_config s) w = (Ok tt, s, w1, [EvMtime (Some m)]))
  /\ (forall m, stat = Some m -> (last_config_mtime s < m)%Q ->
        exec h (reload_config s) w
        = (Ok tt,
           set_last_config_mtime
             (set_controller s (set_config (controller s) cfg)) m,
           w2, [EvMtime (Some m); EvLoad cfg])).
Proof.
  cbv zeta. rewrite reload_config_run.
  destruct (h (option Q) ConfigMtime w) as [stat w1]. cbn [fst snd].
  repeat split.
  - now intros ->.
  - intros m -> L. unfold Qgt_bool.
    destruct (Qle_bool_spec m (last_config_mtime s)); [reflexivity|lra].
  - intros m -> L. unfold Qgt_bool.
    destruct (Qle_bool_spec m (last_config_mtime s)); [lra|].
    cbn [negb]. now destruct (h Config.t LoadConfig w1).
Qed.

(** X25. What the dispatch does in the modes without governor.  In
    manual mode it behaves as [set_fan_pwm(manual_pwm)] on every pass, and
    does nothing at all when [manual_pwm] is negative; in max and auto
    mode it writes 0, respectively 2, to [pwm1_enable] and nothing else;
    in curve mode with an empty curve it does nothing, not even read the
    fan speed.  None of them raises or changes a local. *)
Theorem dispatch_without_governor {W : Type} (h : handler W) (w : W)
    (s : Serve) (avg_temp : Q) :
  let self := controller s in
  (exists w1 tr,
     exec h (dispatch "manual" avg_temp s) w = (Ok tt, s, w1, tr)
     /\ writes tr
        = (if Config.manual_pwm (config self) >=? 0
           then pwm_writes self (reading h w (pwm1_enable_path self))
                  (Config.manual_pwm (config self))
           else [])
     /\ (Config.manual_pwm (config self) < 0 -> tr = []))
  /\ (exists w1 tr,
        exec h (dispatch "max" avg_temp s) w = (Ok tt, s, w1, tr)
        /\ writes tr = match hwmon_path self with
                       | Some d => [(Path d "pwm1_enable", "0"%string)]
                       | None => []
                       end
        /\ sysfs_accesses tr = map fst (writes tr))
  /\ (exists w1 tr,
        exec h (dispatch "auto" avg_temp s) w = (Ok tt, s, w1, tr)
        /\ writes tr = match hwmon_path self with
                       | Some d => [(Path d "pwm1_enable", "2"%string)]
                       | None => []
                       end
        /\ sysfs_accesses tr = map fst (writes tr))
  /\ (Config.curve (config self) = [] ->
      exec h (dispatch "curve" avg_temp s) w = (Ok tt, s, w, [])).
Proof.
  cbv zeta. unfold dispatch, bind at 1, get. cbn [prog_bind fst snd].
  repeat split.
  - unfold bind at 1, get. cbn [prog_bind fst snd].
    simpl (String.eqb _ _).
    destruct (Z.geb_spec (Config.manual_pwm (config (controller s))) 0) as [G|G].
    + destruct (set_fan_pwm_run h w s (controller s)
                  (Config.manual_pwm (config (controller s))))
        as (w1 & tr & E & Wr & _).
      exists w1, tr. repeat split; [assumption|assumption|lia].
    + exists w, []. now repeat split.
  - unfold bind at 1, get. cbn [prog_bind fst snd].
    simpl (String.eqb _ _).
    destruct (set_fan_mode_run h w s (controller s) "max")
      as (w1 & tr & E & Wr & Acc).
    exists w1, tr. repeat split; assumption.
  - unfold bind at 1, get. cbn [prog_bind fst snd].
    simpl (String.eqb _ _).
    destruct (set_fan_mode_run h w s (controller s) "auto")
      as (w1 & tr & E & Wr & Acc).
    exists w1, tr. repeat split; assumption.
  - intros Hc. unfold bind at 1, get. cbn [prog_bind fst snd].
    simpl (String.eqb _ _).
    unfold calculate_target_pwm, target_speed_percent. now rewrite Hc.
Qed.

(** ** Further properties: the calibration routine *)

Lemma calibrate_eq :
  calibrate
  = (perform (Print StartingCalibration) ;;
     self <- get ;;
     prev <- snapshot_fan_state self ;;
     set_fan_mode self "max" ;;
     progress_loop self ;;
     max_rpm <- get_fan_speed self ;;
     modify (fun self => set_config self (Config.set_fan_max (config self) max_rpm)) ;;
     save_config ;;
     try_except (restore_fan_state self (fst prev) (snd prev))
                (fun _ => perform (Print ErrorRestoringFanState)) ;;
     ret max_rpm)%py.
Proof. reflexivity. Qed.

Lemma flat_map_nil {A B : Type} (f : A -> list B) (l : list A) :
  Forall (fun x => f x = []) l -> flat_map f l = [].
Proof.
  induction 1 as [|x l Hx _ IH]; [reflexivity|]. simpl. now rewrite Hx, IH.
Qed.

Lemma filter_nil {A : Type} (f : A -> bool) (l : list A) :
  Forall (fun x => f x = false) l -> filter f l = [].
Proof.
  induction 1 as [|x l Hx _ IH]; [reflexivity|]. simpl. now rewrite Hx, IH.
Qed.

Lemma no_progress_trace (tr : list event) :
  Forall (fun ev => is_progress ev = false) tr ->
  yields tr = [] /\ sleeps tr = [] /\ filter is_progress tr = []
  /\ existsb is_yield tr = false.
Proof.
  intros F. repeat split.
  - apply flat_map_nil. eapply Forall_impl; [|exact F]. now intros [].
  - apply flat_map_nil. eapply Forall_impl; [|exact F]. now intros [].
  - now apply filter_nil.
  - apply not_true_is_false. intros E. apply existsb_exists in E.
    destruct E as (ev & I & Y). rewrite Forall_forall in F.
    specialize (F ev I). now destruct ev.
Qed.

Lemma no_read_trace (file : string) (tr : list event) :
  Forall (fun ev => is_read ev = false) tr -> reads_named file tr = [].
Proof.
  intros F. apply flat_map_nil. eapply Forall_impl; [|exact F]. now intros [].
Qed.

Lemma no_save_trace (tr : list event) :
  Forall (fun ev => is_save ev = false) tr -> existsb is_save tr = false.
Proof.
  intros F. apply not_true_is_false. intros E. apply existsb_exists in E.
  destruct E as (ev & I & Y). rewrite Forall_forall in F.
  specialize (F ev I). congruence.
Qed.

(** [read_sys_file] on a file called [file] reads that file at most once,
    and no other. *)
Lemma read_sys_file_calm {S : Type} (p : option path) (s : S) :
  always (fun ev => calm ev
                    /\ forall file,
                         match p with
                         | Some q => String.eqb (name q) file = false
                         | None => True
                         end -> reads_named file [ev] = [])
         (fun rs => snd rs = s /\ exists v, fst rs = Ok v)
         (read_sys_file p s).
Proof.
  destruct p as [p|]; [|constructor; split; cbn [fst snd]; eauto].
  unfold read_sys_file, bind, perform, ret. cbn [prog_bind fst snd].
  apply always_vis; [now repeat split|].
  intros [|]; cbn [negb prog_bind fst snd].
  - apply always_vis.
    + intros a. split; [now repeat split|]. intros file E.
      unfold reads_named. cbn. now rewrite E.
    + intros [text|]; cbn [prog_bind fst snd].
      * constructor; split; cbn [fst snd]; eauto.
      * apply always_vis; [now repeat split|]. intros [].
        constructor; split; cbn [fst snd]; eauto.
  - constructor; split; cbn [fst snd]; eauto.
Qed.

Lemma write_sys_file_blind {S : Type} (p : option path) (v : string) (s : S) :
  always blind (fun rs => rs = (Ok tt, s)) (write_sys_file p v s).
Proof.
  destruct p as [p|]; [|now constructor].
  unfold write_sys_file, bind, perform, ret. cbn [prog_bind fst snd].
  apply always_vis; [now repeat split|]. intros [| |]; cbn [prog_bind fst snd].
  - now constructor.
  - apply always_vis; [now repeat split|]. intros []. now constructor.
  - apply always_vis; [now repeat split|]. intros []. now constructor.
Qed.

Lemma nonnegative_step (wait : Z) :
  Qle_bool 0 (inject_Z wait / inject_Z (Z.of_nat steps)) = (0 <=? wait).
Proof.
  assert (P : (0 < inject_Z (Z.of_nat steps))%Q) by reflexivity.
  destruct (Z.leb_spec 0 wait) as [L|L].
  - apply Qle_bool_iff. apply Qle_shift_div_l; [assumption|].
    rewrite Qmult_0_l. change 0%Q with (inject_Z 0). now rewrite <- Zle_Qle.
  - destruct (Qle_bool_spec 0 (inject_Z wait / inject_Z (Z.of_nat steps)))
      as [C|C]; [|reflexivity].
    exfalso.
    assert (N : (inject_Z wait / inject_Z (Z.of_nat steps) < 0)%Q).
    { apply Qlt_shift_div_r; [assumption|].
      rewrite Qmult_0_l. change 0%Q with (inject_Z 0). now rewrite <- Zlt_Qlt. }
    lra.
Qed.

Lemma progress_loop_from {W : Type} (h : handler W) (self s : FanController)
    (n i : nat) (w : W) :
  0 <= Config.calibration_wait (config self) ->
  exists w1,
    exec h (for_range i n (fun i =>
              sleep (inject_Z (Config.calibration_wait (config self))
                     / inject_Z (Z.of_nat steps))%Q ;;
              perform (Yield (progress_percent i)))%py s) w
    = (Ok tt, s, w1,
       flat_map (fun i =>
                   [EvSleep (inject_Z (Config.calibration_wait (config self))
                             / inject_Z (Z.of_nat steps))%Q;
                    EvYield (progress_percent i)])
                (seq i n)).
Proof.
  intros Hw. revert i w. induction n as [|n IH]; intros i w.
  - exists w. reflexivity.
  - cbn [for_range seq flat_map]. rewrite exec_mbind.
    unfold sleep at 1. rewrite nonnegative_step.
    destruct (Z.leb_spec 0 (Config.calibration_wait (config self))); [|lia].
    unfold bind at 1, perform at 1 2. cbn [prog_bind exec fst snd event_of].
    destruct (h unit (Sleep _) w) as [[] w1].
    destruct (h unit (Yield (progress_percent i)) w1) as [[] w2].
    cbn [fst snd].
    destruct (IH (Datatypes.S i) w2) as (w3 & E). rewrite E.
    exists w3. reflexivity.
Qed.

Lemma progress_loop_run {W : Type} (h : handler W) (w : W)
    (self s : FanController) :
  0 <= Config.calibration_wait (config self) ->
  exists w1,
    exec h (progress_loop self s) w = (Ok tt, s, w1, progress_events self).
Proof. intros Hw. now apply progress_loop_from. Qed.

Lemma progress_loop_negative {W : Type} (h : handler W) (w : W)
    (self s : FanController) :
  Config.calibration_wait (config self) < 0 ->
  exec h (progress_loop self s) w = (Raise ValueError, s, w, []).
Proof.
  intros Hw. unfold progress_loop.
  change steps with (Datatypes.S 9) at 1. cbn [for_range].
  rewrite exec_mbind. unfold sleep at 1. rewrite nonnegative_step.
  destruct (Z.leb_spec 0 (Config.calibration_wait (config self))); [lia|].
  reflexivity.
Qed.

Lemma exec_perform {W S A : Type} (h : handler W) (e : io A) (s : S) (w : W) :
  exec h (perform e s) w
  = (Ok (fst (h A e w)), s, snd (h A e w), [event_of e (fst (h A e w))]).
Proof.
  unfold perform. cbn [exec]. now destruct (h A e w) as [a w1].
Qed.

Lemma reads_named_nil (file : string) (tr : list event) :
  Forall (fun ev => reads_named file [ev] = []) tr -> reads_named file tr = [].
Proof.
  induction 1 as [|ev tr Hev _ IH]; [reflexivity|].
  unfold reads_named in *. cbn [flat_map] in *.
  rewrite app_nil_r in Hev. now rewrite Hev, IH.
Qed.

Lemma reads_named_app (file : string) (tr1 tr2 : list event) :
  reads_named file (tr1 ++ tr2) = reads_named file tr1 ++ reads_named file tr2.
Proof. apply flat_map_app. Qed.

Lemma read_sys_file_calm_run {W S : Type} (h : handler W) (w : W) (s : S)
    (p : option path) :
  exists w1 tr,
    exec h (read_sys_file p s) w = (Ok (reading h w p), s, w1, tr)
    /\ Forall calm tr
    /\ (forall file,
          match p with
          | Some q => String.eqb (name q) file = false
          | None => True
          end -> reads_named file tr = [])
    /\ (p = None -> tr = []).
Proof.
  destruct (read_sys_file_run h w s p) as (w1 & tr & E & _ & N).
  pose proof (always_exec _ _ _ h w (read_sys_file_calm p s)) as [_ F].
  rewrite E in F. cbn [snd] in F.
  exists w1, tr. split; [exact E|]. split; [|split; [|exact N]].
  - eapply Forall_impl; [|exact F]. now intros ev [C _].
  - intros file Hf. apply reads_named_nil.
    eapply Forall_impl; [|exact F]. intros ev [_ C]. now apply C.
Qed.

Lemma truthy_or_else (v : option string) (d : string) :
  truthy (Some d) = true -> truthy (Some (or_else v d)) = true.
Proof. destruct v as [[|c t]|]; intros D; try exact D. reflexivity. Qed.

Lemma snapshot_fan_state_run {W : Type} (h : handler W) (w : W)
    (self s : FanController) :
  exists prev w1 tr,
    exec h (snapshot_fan_state self s) w = (Ok prev, s, w1, tr)
    /\ fst prev = or_else (reading h w (pwm1_enable_path self)) "2"
    /\ truthy (Some (fst prev)) = true
    /\ truthy (Some (snd prev)) = true
    /\ Forall calm tr
    /\ reads_named "fan1_input" tr = []
    /\ (hwmon_path self = None -> tr = [] /\ prev = ("2", "0")%string).
Proof.
  unfold snapshot_fan_state, try_except. rewrite exec_bind, exec_mbind.
  destruct (read_sys_file_calm_run h w s (pwm1_enable_path self))
    as (w1 & tr1 & E1 & C1 & R1 & N1).
  rewrite E1. cbn [fst snd]. rewrite exec_mbind.
  destruct (read_sys_file_calm_run h w1 s (pwm1_path self))
    as (w2 & tr2 & E2 & C2 & R2 & N2).
  rewrite E2. cbn [fst snd exec ret].
  eexists; exists w2; eexists. split; [reflexivity|]. cbn [fst snd].
  split; [reflexivity|].
  split; [now apply truthy_or_else|].
  split; [now apply truthy_or_else|].
  rewrite !app_nil_r.
  split; [now apply Forall_app|].
  split.
  - rewrite reads_named_app, R1, R2; [reflexivity| |];
      unfold pwm1_path, pwm1_enable_path; now destruct (hwmon_path self).
  - intros H. unfold pwm1_enable_path, pwm1_path, reading, sense in *.
    rewrite H in *. cbn [option_map] in *.
    rewrite N1, N2 by reflexivity. now split.
Qed.

Lemma set_fan_mode_blind {S : Type} (self : FanController) (mode : string)
    (s : S) :
  always blind (fun rs => rs = (Ok tt, s)) (set_fan_mode self mode s).
Proof.
  unfold set_fan_mode.
  destruct (String.eqb mode "max"); [apply write_sys_file_blind|].
  destruct (String.eqb mode "auto"); [apply write_sys_file_blind|].
  now constructor.
Qed.

Lemma force_max_run {W S : Type} (h : handler W) (w : W) (s : S)
    (self : FanController) :
  exists w1 tr,
    exec h (set_fan_mode self "max" s) w = (Ok tt, s, w1, tr)
    /\ writes tr = match hwmon_path self with
                   | None => []
                   | Some d => [(Path d "pwm1_enable", "0"%string)]
                   end
    /\ Forall blind tr
    /\ (hwmon_path self = None -> tr = []).
Proof.
  destruct (set_fan_mode_run h w s self "max") as (w1 & tr & E & Wr & _).
  pose proof (always_exec _ _ _ h w (set_fan_mode_blind self "max" s)) as [_ F].
  rewrite E in F. cbn [snd] in F.
  exists w1, tr. split; [exact E|]. split; [exact Wr|]. split; [exact F|].
  intros H. revert E. unfold set_fan_mode, pwm1_enable_path. rewrite H.
  cbn. now intros [= <- <-].
Qed.

Lemma get_fan_speed_calm_run {W S : Type} (h : handler W) (w : W) (s : S)
    (self : FanController) :
  exists r w1 tr,
    exec h (get_fan_speed self s) w = (r, s, w1, tr)
    /\ Forall calm tr
    /\ ((exists n, r = Ok n) \/ r = Raise ValueError)
    /\ (hwmon_path self = None -> r = Ok 0 /\ tr = []).
Proof.
  unfold get_fan_speed. rewrite exec_mbind.
  destruct (read_sys_file_calm_run h w s (fan1_input_path self))
    as (w1 & tr1 & E1 & C1 & _ & N1).
  rewrite E1. cbn [fst snd].
  assert (N : hwmon_path self = None ->
              reading h w (fan1_input_path self) = None /\ tr1 = []).
  { intros H. split; [|apply N1]; unfold fan1_input_path, reading, sense;
      now rewrite H. }
  destruct (reading h w (fan1_input_path self)) as [v|].
  - destruct (truthy (Some v)).
    + unfold int_of_text. destruct (Py.int_of_str (or_else (Some v) "")) as [n|].
      * exists (Ok n), w1, (tr1 ++ []). cbn [exec ret].
        split; [reflexivity|]. rewrite app_nil_r. split; [exact C1|].
        split; [left; eauto|]. intros H. now destruct (N H).
      * exists (Raise ValueError), w1, (tr1 ++ []). cbn [exec raise].
        split; [reflexivity|]. rewrite app_nil_r. split; [exact C1|].
        split; [now right|]. intros H. now destruct (N H).
    + exists (Ok 0), w1, (tr1 ++ []). cbn [exec ret].
      split; [reflexivity|]. rewrite app_nil_r. split; [exact C1|].
      split; [left; eauto|]. intros H. now destruct (N H).
  - exists (Ok 0), w1, (tr1 ++ []). cbn [exec ret truthy].
    split; [reflexivity|]. rewrite app_nil_r. split; [exact C1|].
    split; [left; eauto|]. intros H. split; [reflexivity|]. now apply N.
Qed.

Lemma restore_fan_state_run {W : Type} (h : handler W) (w : W)
    (self s : FanController) (prev : string * string) :
  truthy (Some (fst prev)) = true ->
  truthy (Some (snd prev)) = true ->
  exists w1 tr,
    exec h (try_except (restore_fan_state self (fst prev) (snd prev))
                       (fun _ => perform (Print ErrorRestoringFanState)) s) w
    = (Ok tt, s, w1, tr)
    /\ writes tr = restore_writes self prev
    /\ Forall blind tr
    /\ (hwmon_path self = None -> tr = []).
Proof.
  intros T1 T2. unfold try_except, restore_fan_state. rewrite T1, T2.
  rewrite exec_bind, exec_mbind. cbn [andb].
  destruct (write_sys_file_writes h w s (pwm1_enable_path self) (fst prev))
    as (w1 & tr1 & E1 & Wr1 & _ & N1).
  pose proof (always_exec _ _ _ h w
                (write_sys_file_blind (pwm1_enable_path self) (fst prev) s))
    as [_ F1].
  rewrite E1 in F1 |- *. cbn [fst snd] in F1 |- *.
  unfold restore_writes, pwm1_enable_path, pwm1_path in *.
  destruct (String.eqb (Py.strip (fst prev)) "1").
  - destruct (write_sys_file_writes h w1 s
                (option_map (fun d => Path d "pwm1") (hwmon_path self))
                (snd prev))
      as (w2 & tr2 & E2 & Wr2 & _ & N2).
    pose proof (always_exec _ _ _ h w1
                  (write_sys_file_blind
                     (option_map (fun d => Path d "pwm1") (hwmon_path self))
                     (snd prev) s))
      as [_ F2].
    rewrite E2 in F2 |- *. cbn [fst snd exec] in F2 |- *.
    exists w2. eexists. split; [reflexivity|]. rewrite app_nil_r.
    split; [|split; [now apply Forall_app|]].
    + rewrite writes_app, Wr1, Wr2. now destruct (hwmon_path self).
    + intros H. rewrite H in *. now rewrite N1, N2.
  - cbn [exec ret fst snd].
    exists w1. eexists. split; [reflexivity|]. rewrite !app_nil_r.
    split; [|split; [exact F1|]].
    + rewrite Wr1. now destruct (hwmon_path self).
    + intros H. rewrite H in *. now apply N1.
Qed.

Ltac calibrate_prefix E1 E2 :=
  rewrite calibrate_eq, exec_mbind, exec_perform; cbn [fst snd];
  rewrite exec_mbind; cbn [get exec fst snd];
  rewrite exec_mbind, E1; cbn [fst snd];
  rewrite exec_mbind, E2; cbn [fst snd];
  rewrite exec_mbind.

(** The run of [calibrate], block by block. *)
Lemma calibrate_run {W : Type} (h : handler W) (w : W) (self : FanController) :
  exists prev pre w2,
    fst prev
    = or_else (reading h (snd (h unit (Print StartingCalibration) w))
                 (pwm1_enable_path self)) "2"
    /\ Forall (fun ev => is_progress ev = false /\ is_save ev = false) pre
    /\ reads_named "fan1_input" pre = []
    /\ writes pre = match hwmon_path self with
                    | None => []
                    | Some d => [(Path d "pwm1_enable", "0"%string)]
                    end
    /\ (hwmon_path self = None ->
        pre = [EvPrint StartingCalibration] /\ prev = ("2", "0")%string)
    /\ (Config.calibration_wait (config self) < 0 ->
        exec h (calibrate self) w = (Raise ValueError, self, w2, pre))
    /\ (0 <= Config.calibration_wait (config self) ->
        exists r3 w4 tr3,
          Forall calm tr3
          /\ (hwmon_path self = None -> r3 = Ok 0 /\ tr3 = [])
          /\ match r3 with
             | Raise _ =>
                 exec h (calibrate self) w
                 = (Raise ValueError, self, w4,
                    pre ++ progress_events self ++ tr3)
             | Ok n =>
                 let self' :=
                   set_config self (Config.set_fan_max (config self) n) in
                 exists (saved : bool) w5 post,
                   exec h (calibrate self) w
                   = (if saved then Ok n else Raise OSError, self', w5,
                      pre ++ progress_events self ++ tr3
                      ++ EvSave (config self') saved :: post)
                   /\ if saved
                      then writes post = restore_writes self prev
                           /\ Forall blind post
                           /\ (hwmon_path self = None -> post = [])
                      else post = []
             end).
Proof.
  set (w0 := snd (h unit (Print StartingCalibration) w)).
  destruct (snapshot_fan_state_run h w0 self self)
    as (prev & w1 & tr1 & E1 & P1 & T1 & T2 & C1 & R1 & N1).
  destruct (force_max_run h w1 self self) as (w2 & tr2 & E2 & Wr2 & B2 & N2).
  subst w0.
  exists prev, (EvPrint StartingCalibration :: tr1 ++ tr2), w2.
  split; [exact P1|].
  split.
  { constructor; [now split|]. apply Forall_app. split.
    - eapply Forall_impl; [|exact C1]. now intros ev (A & _ & B).
    - eapply Forall_impl; [|exact B2]. now intros ev (A & _ & B). }
  split.
  { change (reads_named "fan1_input" (tr1 ++ tr2) = []).
    rewrite reads_named_app, R1. apply no_read_trace.
    eapply Forall_impl; [|exact B2]. now intros ev (_ & A & _). }
  split.
  { change (writes (tr1 ++ tr2) = match hwmon_path self with
                    | None => []
                    | Some d => [(Path d "pwm1_enable", "0"%string)]
                    end).
    rewrite writes_app, Wr2, no_write_writes; [reflexivity|].
    eapply Forall_impl; [|exact C1]. now intros ev (_ & A & _). }
  split.
  { intros H. destruct (N1 H) as [-> ->]. now rewrite (N2 H). }
  split.
  - intros Hw. calibrate_prefix E1 E2.
    rewrite progress_loop_negative by exact Hw. cbn [fst snd].
    now rewrite app_nil_r.
  - intros Hw.
    destruct (progress_loop_run h w2 self self Hw) as (w3 & Ep).
    destruct (get_fan_speed_calm_run h w3 self self)
      as (r3 & w4 & tr3 & E3 & C3 & O3 & N3).
    exists r3, w4, tr3. split; [exact C3|]. split; [exact N3|].
    destruct r3 as [n|e].
    + cbv zeta.
      set (self' := set_config self (Config.set_fan_max (config self) n)).
      destruct (h bool (SaveConfig (config self')) w4) as [saved w5] eqn:Es.
      destruct saved.
      * destruct (restore_fan_state_run h w5 self self' prev T1 T2)
          as (w6 & post & E4 & Wr4 & B4 & N4).
        exists true, w6, post. split; [|now repeat split].
        calibrate_prefix E1 E2.
        rewrite Ep. cbn [fst snd]. rewrite exec_mbind, E3. cbn [fst snd].
        rewrite exec_mbind. cbn [modify exec fst snd]. fold self'.
        rewrite exec_mbind. unfold save_config at 1.
        rewrite exec_mbind. cbn [get exec fst snd].
        rewrite exec_mbind, exec_perform, Es. cbn [fst snd ret exec].
        rewrite exec_mbind, E4. cbn [fst snd ret exec event_of app].
        rewrite ?app_nil_r, <- ?app_assoc. reflexivity.
      * exists false, w5, []. split; [|reflexivity].
        calibrate_prefix E1 E2.
        rewrite Ep. cbn [fst snd]. rewrite exec_mbind, E3. cbn [fst snd].
        rewrite exec_mbind. cbn [modify exec fst snd]. fold self'.
        rewrite exec_mbind. unfold save_config at 1.
        rewrite exec_mbind. cbn [get exec fst snd].
        rewrite exec_mbind, exec_perform, Es. cbn [fst snd raise exec event_of app].
        rewrite ?app_nil_r, <- ?app_assoc. reflexivity.
    + destruct O3 as [[n Hn]|He]; [discriminate|].
      calibrate_prefix E1 E2.
      rewrite Ep. cbn [fst snd]. rewrite exec_mbind, E3. cbn [fst snd app].
      rewrite ?app_nil_r, <- ?app_assoc. now injection He as ->.
Qed.

Lemma yields_app (tr1 tr2 : list event) :
  yields (tr1 ++ tr2) = yields tr1 ++ yields tr2.
Proof. apply flat_map_app. Qed.

Lemma progress_events_yields (self : FanController) :
  yields (progress_events self) = [10; 20; 30; 40; 50; 60; 70; 80; 90; 100].
Proof. reflexivity. Qed.

Lemma progress_events_sleeps (self : FanController) :
  sleeps (progress_events self)
  = repeat (inject_Z (Config.calibration_wait (config self)) / 10)%Q 10.
Proof. reflexivity. Qed.

Lemma progress_events_inert (self : FanController) :
  writes (progress_events self) = []
  /\ sysfs_accesses (progress_events self) = []
  /\ existsb is_save (progress_events self) = false.
Proof. now repeat split. Qed.

Lemma existsb_app_false {A : Type} (f : A -> bool) (l1 l2 : list A) :
  existsb f l1 = false -> existsb f l2 = false -> existsb f (l1 ++ l2) = false.
Proof. intros H1 H2. now rewrite existsb_app, H1, H2. Qed.

Lemma calm_facts (tr : list event) :
  Forall calm tr ->
  Forall (fun ev => is_progress ev = false) tr
  /\ writes tr = []
  /\ existsb is_save tr = false.
Proof.
  intros F. split; [|split].
  - eapply Forall_impl; [|exact F]. now intros ev (A & _).
  - apply no_write_writes. eapply Forall_impl; [|exact F]. now intros ev (_ & A & _).
  - apply no_save_trace. eapply Forall_impl; [|exact F]. now intros ev (_ & _ & A).
Qed.

Lemma blind_facts (tr : list event) :
  Forall blind tr ->
  Forall (fun ev => is_progress ev = false) tr
  /\ existsb is_save tr = false.
Proof.
  intros F. split.
  - eapply Forall_impl; [|exact F]. now intros ev (A & _).
  - apply no_save_trace. eapply Forall_impl; [|exact F]. now intros ev (_ & _ & A).
Qed.

Lemma prefix_facts (tr : list event) :
  Forall (fun ev => is_progress ev = false /\ is_save ev = false) tr ->
  Forall (fun ev => is_progress ev = false) tr
  /\ existsb is_save tr = false.
Proof.
  intros F. split.
  - eapply Forall_impl; [|exact F]. now intros ev (A & _).
  - apply no_save_trace. eapply Forall_impl; [|exact F]. now intros ev (_ & A).
Qed.

(** X26. When the calibration wait is not negative, [calibrate] reports
    exactly the ten percentages 10, 20, ..., 100, in this order, and
    sleeps a tenth of the wait before each of them.  Nothing else happens
    between the first sleep and the last report: the fan has been switched
    to max before (the only write so far is 0 to pwm1_enable), and the fan
    speed has not been read yet. *)
Theorem calibrate_progress {W : Type} (h : handler W) (w : W)
    (self : FanController) :
  0 <= Config.calibration_wait (config self) ->
  exists pre post,
    trace (exec h (calibrate self) w) = pre ++ progress_events self ++ post
    /\ Forall (fun ev => is_progress ev = false) pre
    /\ Forall (fun ev => is_progress ev = false) post
    /\ writes pre = forced_max self
    /\ reads_named "fan1_input" pre = []
    /\ yields (trace (exec h (calibrate self) w))
       = [10; 20; 30; 40; 50; 60; 70; 80; 90; 100]
    /\ sleeps (trace (exec h (calibrate self) w))
       = repeat (inject_Z (Config.calibration_wait (config self)) / 10)%Q 10.
Proof.
  intros Hw.
  destruct (calibrate_run h w self)
    as (prev & pre & w2 & _ & Fp & Rp & Wp & _ & _ & Pos).
  destruct (Pos Hw) as (r3 & w4 & tr3 & C3 & _ & Run).
  destruct (prefix_facts _ Fp) as (Fp' & _).
  destruct (calm_facts _ C3) as (F3 & _).
  assert (G : exists post,
             trace (exec h (calibrate self) w)
             = pre ++ progress_events self ++ post
             /\ Forall (fun ev => is_progress ev = false) post).
  { destruct r3 as [n|e].
    - destruct Run as (saved & w5 & post & E & Hp). rewrite E.
      eexists. split; [reflexivity|].
      apply Forall_app. split; [exact F3|]. constructor; [reflexivity|].
      destruct saved; [|subst post; constructor].
      destruct Hp as (_ & B & _). now apply blind_facts.
    - rewrite Run. exists tr3. now split. }
  destruct G as (post & E & Fpost).
  exists pre, post. split; [exact E|]. split; [exact Fp'|].
  split; [exact Fpost|]. split; [exact Wp|]. split; [exact Rp|].
  destruct (no_progress_trace _ Fp') as (Y1 & S1 & _).
  destruct (no_progress_trace _ Fpost) as (Y2 & S2 & _).
  rewrite E. split.
  - rewrite !yields_app, Y1, Y2, progress_events_yields. reflexivity.
  - rewrite !sleeps_app, S1, S2, progress_events_sleeps. reflexivity.
Qed.

Lemma calibrate_progress_witness :
  0 <= Config.calibration_wait (config (Sim.fan_controller calibrated_config))
  /\ exists pre post,
       trace (exec Sim.run (calibrate (Sim.fan_controller calibrated_config))
                Sim.laptop)
       = pre ++ progress_events (Sim.fan_controller calibrated_config) ++ post
       /\ Forall (fun ev => is_progress ev = false) pre
       /\ Forall (fun ev => is_progress ev = false) post
       /\ writes pre = forced_max (Sim.fan_controller calibrated_config)
       /\ reads_named "fan1_input" pre = []
       /\ yields (trace (exec Sim.run
                           (calibrate (Sim.fan_controller calibrated_config))
                           Sim.laptop))
          = [10; 20; 30; 40; 50; 60; 70; 80; 90; 100]
       /\ sleeps (trace (exec Sim.run
                           (calibrate (Sim.fan_controller calibrated_config))
                           Sim.laptop))
          = repeat (inject_Z (Config.calibration_wait
                                (config (Sim.fan_controller calibrated_config)))
                    / 10)%Q 10.
Proof.
  refine (conj _ (calibrate_progress Sim.run Sim.laptop
                    (Sim.fan_controller calibrated_config) _));
    vm_compute; discriminate.
Defined.

(** X27. A negative calibration wait makes [calibrate] raise [ValueError]
    at its first sleep: no progress is reported, the controller keeps its
    configuration and nothing is saved, and the fan stays forced to max,
    the write of 0 to pwm1_enable being the only write of the run. *)
Theorem calibrate_negative_wait {W : Type} (h : handler W) (w : W)
    (self : FanController) :
  Config.calibration_wait (config self) < 0 ->
  outcome (exec h (calibrate self) w) = Raise ValueError
  /\ final_state (exec h (calibrate self) w) = self
  /\ yields (trace (exec h (calibrate self) w)) = []
  /\ sleeps (trace (exec h (calibrate self) w)) = []
  /\ existsb is_save (trace (exec h (calibrate self) w)) = false
  /\ writes (trace (exec h (calibrate self) w)) = forced_max self.
Proof.
  intros Hw.
  destruct (calibrate_run h w self)
    as (prev & pre & w2 & _ & Fp & _ & Wp & _ & Neg & _).
  rewrite (Neg Hw). unfold outcome, final_state, trace. cbn [fst snd].
  destruct (prefix_facts _ Fp) as (Fp' & Sv).
  destruct (no_progress_trace _ Fp') as (Y1 & S1 & _).
  now repeat split.
Qed.

Lemma calibrate_negative_wait_witness :
  Config.calibration_wait (config (Sim.fan_controller hasty_config)) < 0
  /\ outcome (exec Sim.run (calibrate (Sim.fan_controller hasty_config))
                Sim.laptop) = Raise ValueError
  /\ final_state (exec Sim.run (calibrate (Sim.fan_controller hasty_config))
                    Sim.laptop) = Sim.fan_controller hasty_config
  /\ yields (trace (exec Sim.run (calibrate (Sim.fan_controller hasty_config))
                      Sim.laptop)) = []
  /\ sleeps (trace (exec Sim.run (calibrate (Sim.fan_controller hasty_config))
                      Sim.laptop)) = []
  /\ existsb is_save
       (trace (exec Sim.run (calibrate (Sim.fan_controller hasty_config))
                 Sim.laptop)) = false
  /\ writes (trace (exec Sim.run (calibrate (Sim.fan_controller hasty_config))
                      Sim.laptop))
     = forced_max (Sim.fan_controller hasty_config).
Proof.
  refine (conj _ (calibrate_negative_wait Sim.run Sim.laptop
                    (Sim.fan_controller hasty_config) _));
    reflexivity.
Defined.

(** *** What the routine read, as the trace records it *)

Lemma text_read_app (file : string) (tr1 tr2 : list event) :
  reads_named file tr1 = [] ->
  text_read file (tr1 ++ tr2) = text_read file tr2.
Proof. intros E. unfold text_read. now rewrite reads_named_app, E. Qed.

Lemma text_read_app_l (file : string) (tr1 tr2 : list event) :
  reads_named file tr2 = [] ->
  text_read file (tr1 ++ tr2) = text_read file tr1.
Proof.
  intros E. unfold text_read. now rewrite reads_named_app, E, app_nil_r.
Qed.

Lemma blind_reads (file : string) (tr : list event) :
  Forall blind tr -> reads_named file tr = [].
Proof.
  intros F. apply no_read_trace.
  eapply Forall_impl; [|exact F]. now intros ev (_ & A & _).
Qed.

Lemma progress_events_reads (file : string) (self : FanController) :
  reads_named file (progress_events self) = [].
Proof. reflexivity. Qed.

(** [read_sys_file] on the file called [file]: the value returned is the
    text the trace records for that file, and no other file is read. *)
Lemma read_sys_file_text {W S : Type} (h : handler W) (w : W) (s : S)
    (p : option path) (file : string) :
  match p with Some q => name q = file | None => True end ->
  exists w1 tr,
    exec h (read_sys_file p s) w = (Ok (text_read file tr), s, w1, tr)
    /\ Forall calm tr
    /\ (forall other, String.eqb file other = false ->
                      reads_named other tr = [])
    /\ (p = None -> tr = []).
Proof.
  intros Hp.
  destruct (read_sys_file_calm_run h w s p) as (w1 & tr & E & C & R & N).
  exists w1, tr. split; [|split; [exact C|split; [|exact N]]].
  - rewrite E. f_equal. f_equal. f_equal. revert E.
    destruct p as [q|]; [|now intros [= <- <-]].
    subst file. unfold read_sys_file, reading, sense, bind, perform, ret.
    cbn [prog_bind exec fst snd event_of].
    destruct (h bool (PathExists q) w) as [[|] w0];
      cbn [negb prog_bind exec fst snd event_of].
    + destruct (h (option string) (ReadFile q) w0) as [[text|] w2];
        cbn [prog_bind exec fst snd event_of].
      * intros [= <- <-]. unfold text_read, reads_named. cbn [flat_map].
        now rewrite String.eqb_refl.
      * destruct (h unit (Print (ErrorReading q)) w2) as [[] w3].
        intros [= <- <-]. unfold text_read, reads_named. cbn [flat_map].
        now rewrite String.eqb_refl.
    + now intros [= <- <-].
  - intros other Ho. apply R. destruct p as [q|]; [|exact I].
    now subst file.
Qed.

Lemma speed_of_text_raise (val : option string) (e : exn) :
  speed_of_text val = Raise e -> e = ValueError.
Proof.
  unfold speed_of_text. destruct (truthy val); [|discriminate].
  destruct (Py.int_of_str (or_else val "")); [discriminate|].
  now intros [= <-].
Qed.

Lemma snapshot_fan_state_text {W : Type} (h : handler W) (w : W)
    (self s : FanController) :
  exists w1 tr,
    exec h (snapshot_fan_state self s) w = (Ok (snapshot_of tr), s, w1, tr)
    /\ truthy (Some (fst (snapshot_of tr))) = true
    /\ truthy (Some (snd (snapshot_of tr))) = true
    /\ Forall calm tr
    /\ reads_named "fan1_input" tr = []
    /\ (hwmon_path self = None -> tr = []).
Proof.
  unfold snapshot_fan_state, try_except. rewrite exec_bind, exec_mbind.
  destruct (read_sys_file_text h w s (pwm1_enable_path self) "pwm1_enable")
    as (w1 & tr1 & E1 & C1 & R1 & N1).
  { unfold pwm1_enable_path. now destruct (hwmon_path self). }
  rewrite E1. cbn [fst snd]. rewrite exec_mbind.
  destruct (read_sys_file_text h w1 s (pwm1_path self) "pwm1")
    as (w2 & tr2 & E2 & C2 & R2 & N2).
  { unfold pwm1_path. now destruct (hwmon_path self). }
  rewrite E2. cbn [fst snd exec ret]. rewrite !app_nil_r.
  assert (Sn : snapshot_of (tr1 ++ tr2)
               = (or_else (text_read "pwm1_enable" tr1) "2",
                  or_else (text_read "pwm1" tr2) "0")).
  { unfold snapshot_of.
    rewrite (text_read_app_l "pwm1_enable" tr1 tr2) by now apply R2.
    rewrite (text_read_app "pwm1" tr1 tr2) by now apply R1.
    reflexivity. }
  exists w2, (tr1 ++ tr2). rewrite Sn. cbn [fst snd].
  split; [reflexivity|].
  split; [now apply truthy_or_else|].
  split; [now apply truthy_or_else|].
  split; [now apply Forall_app|].
  split.
  - now rewrite reads_named_app, R1, R2.
  - intros H. rewrite N1, N2; [reflexivity| |];
      unfold pwm1_path, pwm1_enable_path; now rewrite H.
Qed.

(** [read_sys_file] opens its file at most once. *)
Lemma read_sys_file_once {W S : Type} (h : handler W) (w : W) (s : S)
    (p : option path) (file : string) :
  (List.length (reads_named file (snd (exec h (read_sys_file p s) w))) <= 1)%nat.
Proof.
  destruct p as [q|]; [|simpl; lia].
  unfold read_sys_file, bind, perform, ret.
  cbn [prog_bind exec fst snd event_of].
  destruct (h bool (PathExists q) w) as [[|] w0];
    cbn [negb prog_bind exec fst snd event_of]; [|simpl; lia].
  destruct (h (option string) (ReadFile q) w0) as [[text|] w2];
    cbn [prog_bind exec fst snd event_of].
  - unfold reads_named. cbn [flat_map snd].
    destruct (String.eqb (name q) file); simpl; lia.
  - destruct (h unit (Print (ErrorReading q)) w2) as [[] w3].
    unfold reads_named. cbn [flat_map snd].
    destruct (String.eqb (name q) file); simpl; lia.
Qed.

Lemma get_fan_speed_text {W S : Type} (h : handler W) (w : W) (s : S)
    (self : FanController) :
  exists w1 tr,
    exec h (get_fan_speed self s) w
    = (speed_of_text (text_read "fan1_input" tr), s, w1, tr)
    /\ Forall calm tr
    /\ reads_named "pwm1_enable" tr = []
    /\ reads_named "pwm1" tr = []
    /\ (List.length (reads_named "fan1_input" tr) <= 1)%nat
    /\ (hwmon_path self = None -> tr = []).
Proof.
  unfold get_fan_speed. rewrite exec_mbind.
  pose proof (read_sys_file_once h w s (fan1_input_path self) "fan1_input")
    as Once.
  destruct (read_sys_file_text h w s (fan1_input_path self) "fan1_input")
    as (w1 & tr1 & E1 & C1 & R1 & N1).
  { unfold fan1_input_path. now destruct (hwmon_path self). }
  rewrite E1 in Once |- *. cbn [fst snd] in Once |- *.
  unfold speed_of_text, int_of_text.
  exists w1, tr1.
  split.
  - destruct (truthy (text_read "fan1_input" tr1)).
    + destruct (Py.int_of_str _); cbn [exec ret raise]; now rewrite app_nil_r.
    + cbn [exec ret]. now rewrite app_nil_r.
  - split; [exact C1|]. split; [now apply R1|]. split; [now apply R1|].
    split; [exact Once|].
    intros H. apply N1. unfold fan1_input_path. now rewrite H.
Qed.

(** The restoration block never raises, whatever its writes are
    answered. *)
Lemma restore_fan_state_events {W : Type} (h : handler W) (w : W)
    (self s : FanController) (prev : string * string) :
  truthy (Some (fst prev)) = true ->
  truthy (Some (snd prev)) = true ->
  exists w1 a1 a2,
    exec h (try_except (restore_fan_state self (fst prev) (snd prev))
                       (fun _ => perform (Print ErrorRestoringFanState)) s) w
    = (Ok tt, s, w1, restoration_events self prev a1 a2).
Proof.
  intros T1 T2. unfold try_except, restore_fan_state. rewrite T1, T2.
  rewrite exec_bind, exec_mbind. cbn [andb].
  destruct (write_sys_file_run h w s (pwm1_enable_path self) (fst prev))
    as (w1 & E1).
  rewrite E1. cbn [fst snd].
  unfold restoration_events, pwm1_enable_path, pwm1_path in *.
  destruct (hwmon_path self) as [d|]; cbn [option_map] in *.
  - destruct (String.eqb (Py.strip (fst prev)) "1").
    + destruct (write_sys_file_run h w1 s (Some (Path d "pwm1")) (snd prev))
        as (w2 & E2).
      rewrite E2. cbn [fst snd exec]. rewrite app_nil_r.
      exists w2. eexists. eexists. reflexivity.
    + cbn [exec ret fst snd]. rewrite !app_nil_r.
      exists w1,
        (fst (h write_outcome (WriteFile (Path d "pwm1_enable") (fst prev)) w)),
        Written.
      now rewrite app_nil_r.
  - destruct (String.eqb (Py.strip (fst prev)) "1").
    + destruct (write_sys_file_run h w1 s None (snd prev)) as (w2 & E2).
      rewrite E2. cbn [fst snd exec].
      exists w2, Written, Written. reflexivity.
    + cbn [exec ret fst snd].
      exists w1, Written, Written. reflexivity.
Qed.

(** The run of [calibrate], phase by phase: the announcement, the
    snapshot [found], the switch to max [forced], the progress loop, the
    measurement [measured], the save, the restoration [restored]. *)
Lemma calibrate_phases {W : Type} (h : handler W) (w : W)
    (self : FanController) :
  exists found forced w2,
    Forall calm found
    /\ reads_named "fan1_input" found = []
    /\ Forall blind forced
    /\ writes forced = forced_max self
    /\ (Config.calibration_wait (config self) < 0 ->
        exec h (calibrate self) w
        = (Raise ValueError, self, w2,
           EvPrint StartingCalibration :: found ++ forced))
    /\ (0 <= Config.calibration_wait (config self) ->
        exists w4 measured,
          Forall calm measured
          /\ reads_named "pwm1_enable" measured = []
          /\ reads_named "pwm1" measured = []
          /\ (List.length (reads_named "fan1_input" measured) <= 1)%nat
          /\ match speed_of_text (text_read "fan1_input" measured) with
             | Raise _ =>
                 exec h (calibrate self) w
                 = (Raise ValueError, self, w4,
                    EvPrint StartingCalibration
                    :: found ++ forced ++ progress_events self ++ measured)
             | Ok n =>
                 let self' :=
                   set_config self (Config.set_fan_max (config self) n) in
                 exists (saved : bool) w5 restored,
                   exec h (calibrate self) w
                   = (if saved then Ok n else Raise OSError, self', w5,
                      EvPrint StartingCalibration
                      :: found ++ forced ++ progress_events self ++ measured
                      ++ EvSave (config self') saved :: restored)
                   /\ if saved
                      then writes restored
                           = restore_writes self (snapshot_of found)
                           /\ Forall blind restored
                           /\ exists a1 a2,
                                restored
                                = restoration_events self (snapshot_of found)
                                    a1 a2
                      else restored = []
             end).
Proof.
  destruct (snapshot_fan_state_text h
              (snd (h unit (Print StartingCalibration) w)) self self)
    as (w1 & tr1 & E1 & T1 & T2 & C1 & R1 & N1).
  destruct (force_max_run h w1 self self) as (w2 & tr2 & E2 & Wr2 & B2 & N2).
  exists tr1, tr2, w2.
  split; [exact C1|]. split; [exact R1|]. split; [exact B2|].
  split; [exact Wr2|].
  split.
  - intros Hw. calibrate_prefix E1 E2.
    rewrite progress_loop_negative by exact Hw. cbn [fst snd event_of app].
    now rewrite app_nil_r.
  - intros Hw.
    destruct (progress_loop_run h w2 self self Hw) as (w3 & Ep).
    destruct (get_fan_speed_text h w3 self self)
      as (w4 & tr3 & E3 & C3 & Re3 & Rp3 & On3 & N3).
    exists w4, tr3. split; [exact C3|]. split; [exact Re3|].
    split; [exact Rp3|]. split; [exact On3|].
    destruct (speed_of_text (text_read "fan1_input" tr3)) as [n|e] eqn:Sp.
    + cbv zeta.
      set (self' := set_config self (Config.set_fan_max (config self) n)).
      destruct (h bool (SaveConfig (config self')) w4) as [saved w5] eqn:Es.
      destruct saved.
      * destruct (restore_fan_state_run h w5 self self' (snapshot_of tr1) T1 T2)
          as (w6 & post & E4 & Wr4 & B4 & N4).
        destruct (restore_fan_state_events h w5 self self' (snapshot_of tr1)
                    T1 T2) as (w6' & a1 & a2 & E4').
        exists true, w6, post.
        split; [|split; [exact Wr4|split; [exact B4|]]].
        2:{ exists a1, a2. rewrite E4 in E4'. now injection E4'. }
        calibrate_prefix E1 E2.
        rewrite Ep. cbn [fst snd]. rewrite exec_mbind, E3. cbn [fst snd].
        rewrite exec_mbind. cbn [modify exec fst snd]. fold self'.
        rewrite exec_mbind. unfold save_config at 1.
        rewrite exec_mbind. cbn [get exec fst snd].
        rewrite exec_mbind, exec_perform, Es. cbn [fst snd ret exec].
        rewrite exec_mbind, E4. cbn [fst snd ret exec event_of app].
        rewrite ?app_nil_r, <- ?app_assoc. reflexivity.
      * exists false, w5, []. split; [|reflexivity].
        calibrate_prefix E1 E2.
        rewrite Ep. cbn [fst snd]. rewrite exec_mbind, E3. cbn [fst snd].
        rewrite exec_mbind. cbn [modify exec fst snd]. fold self'.
        rewrite exec_mbind. unfold save_config at 1.
        rewrite exec_mbind. cbn [get exec fst snd].
        rewrite exec_mbind, exec_perform, Es.
        cbn [fst snd raise exec event_of app].
        rewrite ?app_nil_r, <- ?app_assoc. reflexivity.
    + pose proof (speed_of_text_raise _ _ Sp) as He.
      subst e. calibrate_prefix E1 E2.
      rewrite Ep. cbn [fst snd]. rewrite exec_mbind, E3.
      cbn [fst snd app event_of].
      rewrite ?app_nil_r, <- ?app_assoc. reflexivity.
Qed.

(** The fan speed is read in the measurement only, the fan state in the
    snapshot only. *)
Lemma calibrate_reads (self : FanController)
    (found forced measured rest : list event) :
  Forall calm found -> reads_named "fan1_input" found = [] ->
  Forall blind forced ->
  reads_named "fan1_input" rest = [] ->
  text_read "fan1_input"
    (EvPrint StartingCalibration
     :: found ++ forced ++ progress_events self ++ measured ++ rest)
  = text_read "fan1_input" measured.
Proof.
  intros Cf Rf Bf Rr.
  change (EvPrint StartingCalibration
          :: found ++ forced ++ progress_events self ++ measured ++ rest)
    with ([EvPrint StartingCalibration]
          ++ found ++ forced ++ progress_events self ++ measured ++ rest).
  rewrite text_read_app by reflexivity.
  rewrite text_read_app by exact Rf.
  rewrite text_read_app by now apply blind_reads.
  rewrite text_read_app by apply progress_events_reads.
  now apply text_read_app_l.
Qed.

Lemma calibrate_snapshot (self : FanController)
    (found forced measured rest : list event) :
  Forall blind forced ->
  reads_named "pwm1_enable" measured = [] ->
  reads_named "pwm1" measured = [] ->
  (forall file, reads_named file rest = []) ->
  snapshot_of
    (EvPrint StartingCalibration
     :: found ++ forced ++ progress_events self ++ measured ++ rest)
  = snapshot_of found.
Proof.
  intros Bf Re Rp Rr.
  assert (G : forall file,
             reads_named file measured = [] ->
             text_read file
               (EvPrint StartingCalibration
                :: found ++ forced ++ progress_events self ++ measured ++ rest)
             = text_read file found).
  { intros file Rm.
    change (EvPrint StartingCalibration
            :: found ++ forced ++ progress_events self ++ measured ++ rest)
      with ([EvPrint StartingCalibration]
            ++ found ++ forced ++ progress_events self ++ measured ++ rest).
    rewrite text_read_app by reflexivity.
    apply text_read_app_l.
    now rewrite !reads_named_app, (blind_reads _ _ Bf),
      progress_events_reads, Rm, Rr. }
  unfold snapshot_of. now rewrite !G.
Qed.

Lemma save_then_blind_reads (c : Config.t) (saved : bool)
    (restored : list event) (file : string) :
  Forall blind restored ->
  reads_named file (EvSave c saved :: restored) = [].
Proof.
  intros B. change (reads_named file ([EvSave c saved] ++ restored) = []).
  rewrite reads_named_app. now apply blind_reads.
Qed.



(** On the simulated laptop, found in manual mode at duty 128: the run
    forces max, saves 1250 RPM and writes back mode 1 and duty 128. *)
Example calibrate_on_laptop :
  writes (trace (exec Sim.run
                   (calibrate (Sim.fan_controller calibrated_config))
                   Sim.laptop))
  = [(Path Sim.hwmon "pwm1_enable", "0"); (Path Sim.hwmon "pwm1_enable", "1");
     (Path Sim.hwmon "pwm1", "128")]%string
  /\ outcome (exec Sim.run (calibrate (Sim.fan_controller calibrated_config))
                Sim.laptop) = Ok 1250.
Proof. split; reflexivity. Qed.

(** X29. Whenever [calibrate] raises (the wait being at most
    [longest_wait], so that no sleep is refused for its length), the fan
    is left forced to max: the only write of the run is the 0 written to
    pwm1_enable, nothing is restored.  The exception is [ValueError], from
    a negative wait or from a reading of fan1_input that is no number,
    with the configuration untouched and never saved; or it is the error
    of the failed save ([OSError] here), the save being the last event of
    the run, with the speed that was read from fan1_input already stored
    in the controller's configuration. *)
Theorem calibrate_failure_leaves_max {W : Type} (h : handler W) (w : W)
    (self : FanController) (e : exn) :
  Config.calibration_wait (config self) <= longest_wait ->
  outcome (exec h (calibrate self) w) = Raise e ->
  writes (trace (exec h (calibrate self) w)) = forced_max self
  /\ ((e = ValueError
       /\ final_state (exec h (calibrate self) w) = self
       /\ existsb is_save (trace (exec h (calibrate self) w)) = false
       /\ (Config.calibration_wait (config self) < 0
           \/ speed_of_text
                (text_read "fan1_input" (trace (exec h (calibrate self) w)))
              = Raise ValueError))
      \/ (e = OSError
          /\ exists n before,
               speed_of_text
                 (text_read "fan1_input" (trace (exec h (calibrate self) w)))
               = Ok n
               /\ final_state (exec h (calibrate self) w)
                  = set_config self (Config.set_fan_max (config self) n)
               /\ trace (exec h (calibrate self) w)
                  = before
                    ++ [EvSave (Config.set_fan_max (config self) n) false]
               /\ existsb is_save before = false)).
Proof.
  intros _ Ho.
  destruct (calibrate_phases h w self)
    as (found & forced & w2 & Cf & Rf & Bf & Wf & Neg & Pos).
  destruct (calm_facts _ Cf) as (_ & Wfd & Sfd).
  destruct (blind_facts _ Bf) as (_ & Sfo).
  destruct (progress_events_inert self) as (Wl & _ & Sl).
  destruct (Z.lt_ge_cases (Config.calibration_wait (config self)) 0) as [Hw|Hw].
  { rewrite (Neg Hw) in Ho |- *. unfold outcome, final_state, trace in *.
    cbn [fst snd] in *. injection Ho as <-.
    split.
    - change (writes ([EvPrint StartingCalibration] ++ found ++ forced)
              = forced_max self).
      now rewrite !writes_app, Wfd, Wf.
    - left. split; [reflexivity|]. split; [reflexivity|].
      split; [|now left].
      change (existsb is_save
                ([EvPrint StartingCalibration] ++ found ++ forced) = false).
      now repeat apply existsb_app_false. }
  destruct (Pos Hw) as (w4 & measured & Cm & _ & _ & _ & Run).
  destruct (calm_facts _ Cm) as (_ & Wm & Sm).
  destruct (speed_of_text (text_read "fan1_input" measured)) as [m|e'] eqn:Sp.
  - destruct Run as (saved & w5 & restored & E & Hp).
    rewrite E in Ho |- *. unfold outcome, final_state, trace in *.
    cbn [fst snd] in *.
    destruct saved; [discriminate|]. injection Ho as <-. subst restored.
    split.
    + change (writes ([EvPrint StartingCalibration] ++ found ++ forced
                      ++ progress_events self ++ measured
                      ++ [EvSave (Config.set_fan_max (config self) m) false])
              = forced_max self).
      rewrite !writes_app, Wfd, Wf, Wl, Wm. cbn [app]. apply app_nil_r.
    + right. split; [reflexivity|].
      exists m, (EvPrint StartingCalibration
                 :: found ++ forced ++ progress_events self ++ measured).
      split.
      { rewrite (calibrate_reads self found forced measured _ Cf Rf Bf);
          [exact Sp|reflexivity]. }
      split; [reflexivity|].
      split; [cbn [app]; now rewrite <- !app_assoc|].
      change (existsb is_save
                ([EvPrint StartingCalibration] ++ found ++ forced
                 ++ progress_events self ++ measured) = false).
      now repeat apply existsb_app_false.
  - rewrite Run in Ho |- *. unfold outcome, final_state, trace in *.
    cbn [fst snd] in *. injection Ho as <-.
    pose proof (speed_of_text_raise _ _ Sp) as He. subst e'.
    split.
    + change (writes ([EvPrint StartingCalibration] ++ found ++ forced
                      ++ progress_events self ++ measured)
              = forced_max self).
      rewrite !writes_app, Wfd, Wf, Wl, Wm. cbn [app]. apply app_nil_r.
    + left. split; [reflexivity|]. split; [reflexivity|].
      split.
      * change (existsb is_save
                  ([EvPrint StartingCalibration] ++ found ++ forced
                   ++ progress_events self ++ measured) = false).
        now repeat apply existsb_app_false.
      * right.
        rewrite <- (app_nil_r measured) at 1.
        rewrite (calibrate_reads self found forced measured [] Cf Rf Bf);
          [exact Sp|reflexivity].
Qed.

Lemma calibrate_failure_leaves_max_witness :
  Config.calibration_wait (config (Sim.fan_controller calibrated_config))
  <= longest_wait
  /\ outcome (exec Sim.run (calibrate (Sim.fan_controller calibrated_config))
                garbled_fan_laptop) = Raise ValueError
  /\ writes (trace (exec Sim.run
                      (calibrate (Sim.fan_controller calibrated_config))
                      garbled_fan_laptop))
     = forced_max (Sim.fan_controller calibrated_config)
  /\ ((ValueError = ValueError
       /\ final_state (exec Sim.run
                         (calibrate (Sim.fan_controller calibrated_config))
                         garbled_fan_laptop)
          = Sim.fan_controller calibrated_config
       /\ existsb is_save
            (trace (exec Sim.run
                      (calibrate (Sim.fan_controller calibrated_config))
                      garbled_fan_laptop)) = false
       /\ (Config.calibration_wait
             (config (Sim.fan_controller calibrated_config)) < 0
           \/ speed_of_text
                (text_read "fan1_input"
                   (trace (exec Sim.run
                             (calibrate (Sim.fan_controller calibrated_config))
                             garbled_fan_laptop)))
              = Raise ValueError))
      \/ (ValueError = OSError
          /\ exists n before,
               speed_of_text
                 (text_read "fan1_input"
                    (trace (exec Sim.run
                              (calibrate (Sim.fan_controller calibrated_config))
                              garbled_fan_laptop)))
               = Ok n
               /\ final_state (exec Sim.run
                              (calibrate (Sim.fan_controller calibrated_config))
                              garbled_fan_laptop)
                  = set_config (Sim.fan_controller calibrated_config)
                      (Config.set_fan_max
                         (config (Sim.fan_controller calibrated_config)) n)
               /\ trace (exec Sim.run
                           (calibrate (Sim.fan_controller calibrated_config))
                           garbled_fan_laptop)
                  = before
                    ++ [EvSave (Config.set_fan_max
                                  (config (Sim.fan_controller calibrated_config))
                                  n) false]
               /\ existsb is_save before = false)).
Proof.
  refine (conj _ (conj _ (calibrate_failure_leaves_max Sim.run
                            garbled_fan_laptop
                            (Sim.fan_controller calibrated_config)
                            ValueError _ _)));
    try reflexivity; vm_compute; discriminate.
Defined.

(** X30. A controller that found no fan device still calibrates: the run
    touches no sysfs file, consists of the announcement, the ten sleeps and
    reports and one save, and stores 0 as [fan_max], which it tries to
    save; it returns 0, or raises [OSError] when the save fails. *)
Theorem calibrate_without_fan_device {W : Type} (h : handler W) (w : W)
    (self : FanController) :
  hwmon_path self = None ->
  0 <= Config.calibration_wait (config self) ->
  sysfs_accesses (trace (exec h (calibrate self) w)) = []
  /\ Config.fan_max (config (final_state (exec h (calibrate self) w))) = 0
  /\ exists saved : bool,
       trace (exec h (calibrate self) w)
       = EvPrint StartingCalibration
         :: progress_events self
         ++ [EvSave (Config.set_fan_max (config self) 0) saved]
       /\ outcome (exec h (calibrate self) w)
          = if saved then Ok 0 else Raise OSError.
Proof.
  intros Hn Hw.
  destruct (calibrate_run h w self)
    as (prev & pre & w2 & _ & _ & _ & _ & Np & _ & Pos).
  destruct (Np Hn) as [-> _].
  destruct (Pos Hw) as (r3 & w4 & tr3 & _ & N3 & Run).
  destruct (N3 Hn) as [-> ->].
  destruct Run as (saved & w5 & post & E & Hp).
  assert (Hpost : post = []).
  { destruct saved; [|exact Hp]. destruct Hp as (_ & _ & N). now apply N. }
  subst post. rewrite E. unfold outcome, final_state, trace. cbn [fst snd app].
  split; [|split; [reflexivity|]].
  - change (sysfs_accesses (progress_events self ++ [EvSave
              (config (set_config self (Config.set_fan_max (config self) 0)))
              saved]) = []).
    rewrite sysfs_accesses_app.
    destruct (progress_events_inert self) as (_ & -> & _). reflexivity.
  - exists saved. split; reflexivity.
Qed.

Lemma calibrate_without_fan_device_witness :
  hwmon_path (deviceless calibrated_config) = None
  /\ 0 <= Config.calibration_wait (config (deviceless calibrated_config))
  /\ sysfs_accesses
       (trace (exec Sim.run (calibrate (deviceless calibrated_config))
                 Sim.laptop)) = []
  /\ Config.fan_max
       (config (final_state (exec Sim.run
                               (calibrate (deviceless calibrated_config))
                               Sim.laptop))) = 0
  /\ exists saved : bool,
       trace (exec Sim.run (calibrate (deviceless calibrated_config))
                Sim.laptop)
       = EvPrint StartingCalibration
         :: progress_events (deviceless calibrated_config)
         ++ [EvSave (Config.set_fan_max
                       (config (deviceless calibrated_config)) 0) saved]
       /\ outcome (exec Sim.run (calibrate (deviceless calibrated_config))
                     Sim.laptop)
          = if saved then Ok 0 else Raise OSError.
Proof.
  refine (conj _ (conj _ (calibrate_without_fan_device Sim.run Sim.laptop
                            (deviceless calibrated_config) _ _)));
    try reflexivity; vm_compute; discriminate.
Defined.

(** * The governor, the Smoother, the calibration and the sensors, as
      specified *)








(** C8.  In every run of [calibrate] the configuration with the
    measured speed is saved before any write of the restoration: a run
    that raises has restored nothing and has saved nothing with success;
    a run that returns [n] is the announcement, the reading of the
    snapshot, a part whose only write forces max, the successful save of
    [fan_max = n], and then the restoration.  The restoration writes the
    mode of the snapshot back (the texts the run read from pwm1_enable and
    pwm1), and its duty only when that mode, stripped, is "1"; each
    write that fails is followed by its message and does not stop the
    routine: once the save has succeeded, the routine returns. *)
Theorem calibration_saves_before_restoring {W : Type} (h : handler W) (w : W)
    (self : FanController) :
  (forall e, outcome (exec h (calibrate self) w) = Raise e ->
     writes (trace (exec h (calibrate self) w)) = forced_max self
     /\ forall c, ~ In (EvSave c true) (trace (exec h (calibrate self) w)))
  /\ (forall n, outcome (exec h (calibrate self) w) = Ok n ->
        exists found before a1 a2,
          trace (exec h (calibrate self) w)
          = EvPrint StartingCalibration :: found ++ before
            ++ EvSave (Config.set_fan_max (config self) n) true
            :: restoration_events self
                 (snapshot_of (trace (exec h (calibrate self) w))) a1 a2
          /\ writes found = []
          /\ snapshot_of found
             = snapshot_of (trace (exec h (calibrate self) w))
          /\ writes before = forced_max self
          /\ existsb is_save (found ++ before) = false)
  /\ (forall c, In (EvSave c true) (trace (exec h (calibrate self) w)) ->
        exists n, outcome (exec h (calibrate self) w) = Ok n).
Proof.
  destruct (calibrate_phases h w self)
    as (found & forced & w2 & Cf & Rf & Bf & Wf & Neg & Pos).
  destruct (calm_facts _ Cf) as (_ & Wfd & Sfd).
  destruct (blind_facts _ Bf) as (_ & Sfo).
  destruct (progress_events_inert self) as (Wl & _ & Sl).
  assert (NoSave : forall tr c,
             existsb is_save tr = false -> ~ In (EvSave c true) tr).
  { intros tr c E I.
    assert (X : existsb is_save tr = true)
      by (apply existsb_exists; exists (EvSave c true); now split).
    congruence. }
  destruct (Z.lt_ge_cases (Config.calibration_wait (config self)) 0) as [Hw|Hw].
  { rewrite (Neg Hw). unfold outcome, final_state, trace. cbn [fst snd].
    assert (Sv : existsb is_save
                   (EvPrint StartingCalibration :: found ++ forced) = false).
    { change (existsb is_save
                ([EvPrint StartingCalibration] ++ found ++ forced) = false).
      now repeat apply existsb_app_false. }
    split; [|split].
    - intros e _. split; [|intros c; now apply NoSave].
      change (writes ([EvPrint StartingCalibration] ++ found ++ forced)
              = forced_max self).
      now rewrite !writes_app, Wfd, Wf.
    - intros n Hn. discriminate.
    - intros c I. now apply NoSave in I. }
  destruct (Pos Hw) as (w4 & measured & Cm & Re & Rp & _ & Run).
  destruct (calm_facts _ Cm) as (_ & Wm & Sm).
  assert (Sv : existsb is_save
                 (EvPrint StartingCalibration
                  :: found ++ forced ++ progress_events self ++ measured)
               = false).
  { change (existsb is_save
              ([EvPrint StartingCalibration]
               ++ found ++ forced ++ progress_events self ++ measured)
            = false).
    now repeat apply existsb_app_false. }
  assert (Wr : writes (EvPrint StartingCalibration
                       :: found ++ forced ++ progress_events self ++ measured)
               = forced_max self).
  { change (writes ([EvPrint StartingCalibration]
                    ++ found ++ forced ++ progress_events self ++ measured)
            = forced_max self).
    rewrite !writes_app, Wfd, Wf, Wl, Wm. cbn [app]. now rewrite !app_nil_r. }
  destruct (speed_of_text (text_read "fan1_input" measured)) as [m|e'] eqn:Sp.
  - destruct Run as (saved & w5 & restored & E & Hp).
    rewrite E. unfold outcome, final_state, trace. cbn [fst snd].
    destruct saved.
    + destruct Hp as (_ & Br & a1 & a2 & Er).
      split; [|split].
      * intros e Hn. discriminate.
      * intros n [= <-].
        rewrite (calibrate_snapshot self found forced measured _ Bf Re Rp)
          by (intros file; now apply save_then_blind_reads).
        exists found, (forced ++ progress_events self ++ measured), a1, a2.
        split; [rewrite <- Er; now rewrite <- !app_assoc|].
        split; [exact Wfd|].
        split; [reflexivity|].
        split; [now rewrite !writes_app, Wf, Wl, Wm, app_nil_r|].
        now repeat apply existsb_app_false.
      * intros c _. now exists m.
    + subst restored.
      assert (Sf : forall c,
                 ~ In (EvSave c true)
                     (EvPrint StartingCalibration
                      :: found ++ forced ++ progress_events self ++ measured
                      ++ [EvSave (Config.set_fan_max (config self) m) false])).
      { intros c [I|I]; [discriminate|].
        apply in_app_or in I. destruct I as [I|I]; [now apply (NoSave _ c Sfd)|].
        apply in_app_or in I. destruct I as [I|I]; [now apply (NoSave _ c Sfo)|].
        apply in_app_or in I. destruct I as [I|I]; [now apply (NoSave _ c Sl)|].
        apply in_app_or in I. destruct I as [I|I]; [now apply (NoSave _ c Sm)|].
        destruct I as [I|[]]. discriminate. }
      split; [|split].
      * intros e _. split; [|exact Sf].
        change (writes ([EvPrint StartingCalibration]
                        ++ found ++ forced ++ progress_events self ++ measured
                        ++ [EvSave (Config.set_fan_max (config self) m) false])
                = forced_max self).
        rewrite !writes_app, Wfd, Wf, Wl, Wm. cbn [app]. now rewrite !app_nil_r.
      * intros n Hn. discriminate.
      * intros c I. now apply Sf in I.
  - rewrite Run. unfold outcome, final_state, trace. cbn [fst snd].
    split; [|split].
    + intros e _. split; [exact Wr|]. intros c. now apply NoSave.
    + intros n Hn. discriminate.
    + intros c I. now apply NoSave in I.
Qed.

(** On the laptop with a protected enable file the restoration's first
    write is refused: the refusal is printed, the duty is still written
    back, and the routine returns the measured 1250 RPM, already saved. *)
Example calibrate_with_refused_restoration :
  trace (exec Sim.run (calibrate (Sim.fan_controller calibrated_config))
           locked_laptop)
  = EvPrint StartingCalibration
    :: [EvExists (Path Sim.hwmon "pwm1_enable") true;
        EvRead (Path Sim.hwmon "pwm1_enable") (Some "1
"%string);
        EvExists (Path Sim.hwmon "pwm1") true;
        EvRead (Path Sim.hwmon "pwm1") (Some "128
"%string)]
    ++ [EvWrite (Path Sim.hwmon "pwm1_enable") "0" PermissionDenied;
        EvPrint (PermissionDeniedWriting (Path Sim.hwmon "pwm1_enable"))]
    ++ progress_events (Sim.fan_controller calibrated_config)
    ++ [EvExists (Path Sim.hwmon "fan1_input") true;
        EvRead (Path Sim.hwmon "fan1_input") (Some "1250
"%string)]
    ++ EvSave (Config.set_fan_max calibrated_config 1250) true
    :: restoration_events (Sim.fan_controller calibrated_config)
         ("1", "128")%string PermissionDenied Written
  /\ outcome (exec Sim.run (calibrate (Sim.fan_controller calibrated_config))
                locked_laptop) = Ok 1250.
Proof. split; reflexivity. Qed.

(** C9.  A pass of the loop under a configuration in force that says
    'calibration' consults no sysfs file, so it reads no sensor and
    writes to no actuator: it sleeps one second and is over.  A pass under
    a mode that is none of auto, max, manual and curve writes to no file
    at all, so neither to pwm1 nor to pwm1_enable.  Both hold for the loop
    of [omen_cli.py] and for the packaged copy. *)
Theorem daemon_idle_outside_active_modes {W : Type} (h : handler W) (w : W)
    (s : Serve) :
  both_loops (fun pass =>
    let r := exec h (pass s) w in
    let mode := Config.mode (config_in_force h w s) in
    (mode = "calibration"%string ->
     sysfs_accesses (trace r) = [] /\ writes (trace r) = []
     /\ sleeps (trace r) = [1%Q])
    /\ (mode <> "auto"%string -> mode <> "max"%string ->
        mode <> "manual"%string -> mode <> "curve"%string ->
        writes (trace r) = [])).
Proof.
  assert (G : forall sm, pure_smoother sm ->
            let r := exec h (iteration sm s) w in
            let mode := Config.mode (config_in_force h w s) in
            (mode = "calibration"%string ->
             sysfs_accesses (trace r) = [] /\ writes (trace r) = []
             /\ sleeps (trace r) = [1%Q])
            /\ (mode <> "auto"%string -> mode <> "max"%string ->
                mode <> "manual"%string -> mode <> "curve"%string ->
                writes (trace r) = [])).
  { intros sm Pure. cbv zeta. unfold trace.
    destruct (iteration_run sm h w s Pure) as (Ho & pre & d & E & Sl & C).
    rewrite E, accesses_last, writes_last, (sleeps_last _ _ Sl).
    destruct C as [(Hc & -> & Ac & Wr & _)|[(Hc & -> & Wr)|(Hc & -> & Wr)]].
    - split; [now intros _|now intros _ _ _ _].
    - split.
      + intros M. rewrite M in Hc. discriminate.
      + intros Na Nx Nm Nc. apply Wr. unfold dispatched_mode.
        apply String.eqb_neq in Na, Nx, Nm, Nc. now rewrite Na, Nx, Nm, Nc.
    - split.
      + intros M. rewrite M in Hc. discriminate.
      + now intros _ _ _ _. }
  split; [apply (G _ omen_cli_smoother_pure)|apply (G _ packaged_smoother_pure)].
Qed.

(** C10 (amended).  An absent or unreadable sensor reads as zero: when
    the file has no path, does not exist or cannot be read, and also when
    its text is blank, [get_fan_speed] and [get_cpu_temp] return 0;
    when the text spells an integer they return it, respectively its
    floor division by 1000.  The one exception that reaches the caller is
    [ValueError], exactly when the file was read and its text is neither
    blank nor an integer. *)
Theorem sensors_read_zero_when_absent {W S : Type} (h : handler W) (w : W)
    (s : S) (self : FanController) :
  let fan := sense h w (fan1_input_path self) in
  let cpu := sense h w (cpu_temp_path self) in
  let rpm := outcome (exec h (get_fan_speed self s) w) in
  let temp := outcome (exec h (get_cpu_temp self s) w) in
  ((forall text, fan <> Content text) -> rpm = Ok 0)
  /\ ((forall text, cpu <> Content text) -> temp = Ok 0)
  /\ (forall text, fan = Content text ->
        match Py.strip text with
        | EmptyString => rpm = Ok 0
        | v => match Py.int_of_str v with
               | Some n => rpm = Ok n
               | None => rpm = Raise ValueError
               end
        end)
  /\ (forall text, cpu = Content text ->
        match Py.strip text with
        | EmptyString => temp = Ok 0
        | v => match Py.int_of_str v with
               | Some n => temp = Ok (n / 1000)
               | None => temp = Raise ValueError
               end
        end)
  /\ (forall e, rpm = Raise e \/ temp = Raise e -> e = ValueError).
Proof.
  cbv zeta. unfold outcome.
  pose proof (get_fan_speed_run h w s self) as F.
  pose proof (get_cpu_temp_run h w s self) as C.
  destruct (exec h (get_fan_speed self s) w) as [[[rf sf] wf] trf].
  destruct (exec h (get_cpu_temp self s) w) as [[[rc sc] wc] trc].
  cbn [fst snd] in *.
  injection F as -> _. injection C as -> _.
  split; [|split; [|split; [|split]]].
  - intros N. destruct (sense h w (fan1_input_path self)); try reflexivity.
    now destruct (N text).
  - intros N. destruct (sense h w (cpu_temp_path self)); try reflexivity.
    now destruct (N text).
  - intros text ->. destruct (Py.strip text); [reflexivity|].
    now destruct (Py.int_of_str _).
  - intros text ->. destruct (Py.strip text); [reflexivity|].
    now destruct (Py.int_of_str _).
  - intros e [R|R]; revert R.
    + destruct (sense h w (fan1_input_path self)); try discriminate.
      destruct (Py.strip text); [discriminate|].
      destruct (Py.int_of_str _); [discriminate|]. now intros [= <-].
    + destruct (sense h w (cpu_temp_path self)); try discriminate.
      destruct (Py.strip text); [discriminate|].
      destruct (Py.int_of_str _); [discriminate|]. now intros [= <-].
Qed.

(** C10, as stated, fails for a sensor file whose text is no integer:
    the [ValueError] of [int()] reaches the caller of [get_fan_speed], and
    likewise of [get_cpu_temp]. *)
Lemma sensors_read_zero_when_absent_counterexample :
  sense Sim.run garbled_fan_laptop
    (fan1_input_path (Sim.fan_controller calibrated_config))
  = Content "n/a"
  /\ outcome (exec Sim.run
                (get_fan_speed (Sim.fan_controller calibrated_config) tt)
                garbled_fan_laptop) = Raise ValueError
  /\ outcome (exec Sim.run
                (get_cpu_temp (Sim.fan_controller calibrated_config) tt)
                (Sim.with_files Sim.laptop [(Sim.coretemp, "n/a"%string)]))
     = Raise ValueError.
Proof. repeat split; reflexivity. Qed.
